(** * Scuba whip calculator: equalization of gas cylinders

    A shallow embedding of the Go program (the latest revision, with typed
    units, gas weights and a Van der Waals mode, and the first, ideal-gas
    only revision [app.go]) and the properties its specification states.
    The revision in between has the solver of the latest one, [GasToMoles]
    and [MolesToPressure], on plain [float64].

    The program computes with [float64].  The equalization never branches on
    a floating-point value, so the embedding is written once over an abstract
    arithmetic ([Float64], and [MathLib] for the functions of Go's [math]
    package; [Float64Order] for the comparisons [main] and [printSummaries]
    make) and instantiated twice:
    - [binary64]: IEEE 754 binary64 through Rocq's primitive floats, the
      arithmetic the program runs on ([math.Pow] is not part of the program:
      [binary64_math] has the cases of it that need no logarithm, and no
      other);
    - [Rarith], [Rmath]: exact real arithmetic, the idealisation in which
      the specification's conservation laws are meant.
    Theorems proved for every arithmetic hold for both.  The composition of
    the gas is a Go map, and the sums over it depend in binary64 on the order
    in which a loop visits it (see [GasComposition]): what is stated about two
    runs is stated for the reals, or for results that do not read the map. *)

From Stdlib Require Import ZArith QArith Qreals Reals Lra Floats Uint63 String Permutation.
From stdpp Require Import base option list.

(** ** The arithmetic of [float64] *)

(** [lit q] is the [float64] a Go constant expression of exact value [q]
    converts to; the other fields are the operators [+ - * /] and unary
    minus on [float64]. *)
Class Float64 (F : Type) := {
  lit : Q -> F;
  fadd : F -> F -> F;
  fsub : F -> F -> F;
  fmul : F -> F -> F;
  fdiv : F -> F -> F;
  fopp : F -> F
}.

(** The two functions of Go's [math] package the program calls. *)
Class MathLib (F : Type) := {
  Pow : F -> F -> F;
  Sqrt : F -> F
}.

Arguments lit {F _} _%_Q.

Declare Scope f64_scope.
Delimit Scope f64_scope with f64.
Notation "x + y" := (fadd x y) : f64_scope.
Notation "x - y" := (fsub x y) : f64_scope.
Notation "x * y" := (fmul x y) : f64_scope.
Notation "x / y" := (fdiv x y) : f64_scope.
Notation "- x" := (fopp x) : f64_scope.

(** A [*Cylinder] is an address in the store (see [heap] below). *)
Abbreviation ptr := nat (only parsing).

Inductive GasSystem := IdealGas | VanDerWaals.

Inductive Gas := Helium | Oxygen | Nitrogen | Argon | Neon | Hydrogen.

Section Program.
Context {F : Type} `{Float64 F} `{MathLib F}.
Local Open Scope f64_scope.

(** [const R = 0.0831]; [R] itself names Rocq's type of real numbers. *)
Definition Rgas : F := lit 0.0831.

Record VanDerWaalsConstant := { A : F; B : F }.

(** The Go maps [AtomicWeightLookup] and [VanDerWaalsConstants] have an entry for
    each of the six gases and are never written. *)
Definition AtomicWeightLookup (g : Gas) : F :=
  match g with
  | Argon => lit 14.0067
  | Helium => lit 4.002602
  | Hydrogen => lit 1.00784
  | Neon => lit 20.1797
  | Nitrogen => lit 14.0067
  | Oxygen => lit 15.999
  end.

Definition VanDerWaalsConstants (g : Gas) : VanDerWaalsConstant :=
  match g with
  | Argon => {| A := lit 1.355; B := lit 0.03201 |}
  | Helium => {| A := lit 0.0346; B := lit 0.0238 |}
  | Hydrogen => {| A := lit 0.2476; B := lit 0.02661 |}
  | Neon => {| A := lit 0.2135; B := lit 0.01709 |}
  | Nitrogen => {| A := lit 1.370; B := lit 0.0387 |}
  | Oxygen => {| A := lit 1.382; B := lit 0.03186 |}
  end.

(** [type GasComposition map[Gas]float64].  A [range] loop over a Go map visits
    its entries in an order the language leaves open, and that it chooses anew
    for every loop; the model is the list of the entries in the order they are
    visited, one list for all the loops of a run.  Over the reals the order is
    immaterial (lemmas [gasCompositionToMoles_Permutation],
    [cylinderMolesToPressure_Permutation] and [GasWeight_Permutation]), and
    one list stands for every choice.  In binary64 the three sums over the map
    depend on the order, and two lists with the same entries stand for two
    runs of the program on the same map. *)
Abbreviation GasComposition := (list (Gas * F)).

Definition PressureFromVolumes (gasVolume totalVolume : F) : F :=
  gasVolume / totalVolume.

Definition PartialPressure (p pp : F) : F := p * pp.

Definition GasWeightFromMole (moleCount atomicWeight : F) : F :=
  moleCount * atomicWeight.

Definition GasToMoles (cylinderVolume cylinderPressure : F)
    (vdwConstants : VanDerWaalsConstant) (temperature : F) : F :=
  let a := A vdwConstants in
  let b := B vdwConstants in
  let P := cylinderPressure in
  let a2 := Pow a (lit 2) in
  let a3 := Pow a (lit 3) in
  let b2 := Pow b (lit 2) in
  let V := cylinderVolume in
  let V2 := Pow V (lit 2) in
  let V3 := Pow V (lit 3) in
  let T := temperature in
  let subterm1 :=
    lit 2 * a3 * V3 + lit 18 * a2 * b2 * P * V3 - lit 9 * a2 * b * Rgas * T * V3 in
  let subterm2 := lit 3 * a * b * (b * P * V2 + Rgas * T * V2) - a2 * V2 in
  let subterm3 :=
    Pow (subterm1 + Sqrt (lit 4 * Pow subterm2 (lit 3) + Pow subterm1 (lit 2)))
        (lit (1 # 3)) in
  let term1 := lit 0.26457 * subterm3 in
  let term2 := a * b * subterm3 in
  let term3 := lit 0.41997 * subterm2 in
  term1 / (a * b) - term3 / term2 + (lit 0.33333 * V) / b.

Definition gasCompositionToMoles (cylinderVolume cylinderPressure temperature : F)
    (gasComposition : GasComposition) : F :=
  foldl (fun moles '(gasType, gasInfo) =>
           moles + GasToMoles cylinderVolume (PartialPressure cylinderPressure gasInfo)
                     (VanDerWaalsConstants gasType) temperature)
        (lit 0) gasComposition.

Definition MolesToPressure (cylinderVolume moleCount T : F)
    (vdwConstants : VanDerWaalsConstant) : F :=
  let V := cylinderVolume in
  let a := A vdwConstants in
  let b := B vdwConstants in
  let n := moleCount in
  let V2 := Pow V (lit 2) in
  n * (- (a * n) / V2 - (Rgas * T) / (b * n - V)).

Definition cylinderMolesToPressure (cylinderVolume n temperature : F)
    (gasComposition : GasComposition) : F :=
  foldl (fun pressureSum '(gasType, gasInfo) =>
           pressureSum + MolesToPressure cylinderVolume (n * gasInfo) temperature
                           (VanDerWaalsConstants gasType))
        (lit 0) gasComposition.

(** ** Cylinders, the store they live in, and the effects of the program *)

Record Cylinder := {
  Description : string;
  CylinderVolume : F;
  Pressure : F
}.

(** [c.Pressure = p] on a cylinder value. *)
Definition withPressure (c : Cylinder) (p : F) : Cylinder :=
  {| Description := Description c; CylinderVolume := CylinderVolume c; Pressure := p |}.

(** [func (c1 Cylinder) GasVolume]. *)
Definition GasVolume (c1 : Cylinder) (gasSystem : GasSystem)
    (gasComposition : GasComposition) (temperature : F) : F :=
  match gasSystem with
  | IdealGas => CylinderVolume c1 * Pressure c1
  | VanDerWaals =>
      gasCompositionToMoles (CylinderVolume c1) (Pressure c1) temperature gasComposition
      * lit 22.4
  end.

(** [func (c1 *Cylinder) Moles]. *)
Definition Moles (c1 : Cylinder) (temperature : F) (gasComposition : GasComposition) : F :=
  gasCompositionToMoles (CylinderVolume c1) (Pressure c1) temperature gasComposition.

(** [func (c1 Cylinder) GasWeight]. *)
Definition GasWeight (c1 : Cylinder) (gasComposition : GasComposition) (temperature : F) : F :=
  foldl (fun weightSum '(gasType, gasInfo) =>
           let moleCount :=
             GasToMoles (CylinderVolume c1) (PartialPressure (Pressure c1) gasInfo)
               (VanDerWaalsConstants gasType) temperature in
           let gasWeight := GasWeightFromMole moleCount (AtomicWeightLookup gasType) in
           weightSum + gasWeight)
        (lit 0) gasComposition.

(** [type CylinderList []Cylinder] and its methods. *)
Abbreviation CylinderList := (list Cylinder).

Definition TotalVolume (cl : CylinderList) : F :=
  foldl (fun totalVolume cylinder => totalVolume + CylinderVolume cylinder) (lit 0) cl.

Definition TotalGasWeight (cl : CylinderList) (gasComposition : GasComposition)
    (temperature : F) : F :=
  foldl (fun weightSum cylinder => weightSum + GasWeight cylinder gasComposition temperature)
        (lit 0) cl.

Definition TotalGasVolume (cl : CylinderList) (gasSystem : GasSystem)
    (gasComposition : GasComposition) (temperature : F) : F :=
  foldl (fun totalGasVolume cylinder =>
           totalGasVolume + GasVolume cylinder gasSystem gasComposition temperature)
        (lit 0) cl.

(** The store is the list of the cylinders allocated so far, and a [*Cylinder]
    is an index into it; an index outside the store is the nil pointer, and
    dereferencing it panics ([None]). *)
Abbreviation heap := (list Cylinder).

(** The trace of a run: what the program prints, as the arguments of each call
    to [fmt], and a mark for each entry into [Equalize], with the group it was
    called on (the mark is no output of the program; it records the calls). *)
Inductive Value :=
  | VStr (s : string)
  | VNum (x : F)
  | VInt (n : nat)
  | VCyl (c : Cylinder).

Inductive Event :=
  | Println (args : list Value)
  | Printf (format : string) (args : list Value)
  | CallEqualize (cylinders : list ptr).

(** Computations on the store that may panic and leave a trace of events. *)
Definition M (X : Type) : Type := heap -> option (X * heap * list Event).

#[global] Instance M_ret : MRet M := fun X x h => Some (x, h, []).

#[global] Instance M_bind : MBind M := fun X Y f m h =>
  match m h with
  | Some (x, h1, o1) =>
      match f x h1 with
      | Some (y, h2, o2) => Some (y, h2, o1 ++ o2)
      | None => None
      end
  | None => None
  end.

Definition load (p : ptr) : M Cylinder := fun h =>
  match h !! p with
  | Some c => Some (c, h, [])
  | None => None
  end.

(** [p.Pressure = x] through the pointer [p]. *)
Definition storePressure (p : ptr) (x : F) : M unit := fun h =>
  match h !! p with
  | Some c => Some (tt, <[p := withPressure c x]> h, [])
  | None => None
  end.

Definition emit (e : Event) : M unit := fun h => Some (tt, h, [e]).

Definition when (b : bool) (m : M unit) : M unit := if b then m else mret tt.

(** A [for ... range] loop over [l] whose local variables are [s]. *)
Fixpoint foldM {S X : Type} (body : S -> X -> M S) (s : S) (l : list X) : M S :=
  match l with
  | [] => mret s
  | x :: l' => s' ← body s x; foldM body s' l'
  end.

Definition forM_ {X : Type} (l : list X) (body : X -> M unit) : M unit :=
  foldM (fun _ x => body x) tt l.

(** The values of the cylinders a slice of pointers refers to. *)
Definition loadAll (ps : list ptr) : M CylinderList :=
  foldM (fun cl p => c ← load p; mret (cl ++ [c])) [] ps.

(** [func Equalize(cylinders []*Cylinder, ...)]. *)
Definition Equalize (cylinders : list ptr) (gasSystem : GasSystem)
    (gasComposition : GasComposition) (temperature : F) (verbose debug : bool) : M unit :=
  emit (CallEqualize cylinders);;
  pressureAfterEqualize ←
    match gasSystem with
    | IdealGas =>
        '(totalGasVolume, totalVolume) ←
          foldM (fun '(totalGasVolume, totalVolume) p =>
                   c ← load p;
                   mret (totalGasVolume + GasVolume c gasSystem gasComposition temperature,
                         totalVolume + CylinderVolume c))
                (lit 0, lit 0) cylinders;
        mret (PressureFromVolumes totalGasVolume totalVolume)
    | VanDerWaals =>
        '(totalMoles, totalVolume) ←
          foldM (fun '(totalMoles, totalVolume) p =>
                   c ← load p;
                   let moles := Moles c temperature gasComposition in
                   when debug (emit (Println [VStr "Cylinder"; VCyl c; VStr "moles"; VNum moles]));;
                   mret (totalMoles + moles, totalVolume + CylinderVolume c))
                (lit 0, lit 0) cylinders;
        let pressureAfterEqualize :=
          cylinderMolesToPressure totalVolume totalMoles temperature gasComposition in
        when debug (emit (Println [VStr "Moles:"; VNum totalMoles;
                                   VStr "Pressure after equalize:";
                                   VNum pressureAfterEqualize]));;
        mret pressureAfterEqualize
    end;
  forM_ cylinders (fun p => storePressure p pressureAfterEqualize).

(** [func (c1 *Cylinder) Equalize(c2 *Cylinder, ...)]. *)
Definition Cylinder_Equalize (c1 c2 : ptr) (gasSystem : GasSystem)
    (gasComposition : GasComposition) (temperature : F) (verbose debug : bool) : M unit :=
  let listOfCylinders := [c1; c2] in
  Equalize listOfCylinders gasSystem gasComposition temperature verbose debug.

(** ** One scenario: [equalizeAndReport] *)

Record CylinderConfiguration := {
  DestinationCylinderIsTwinset : bool;
  DestinationCylinderPressure : F;
  DestinationCylinderVolume : F;
  SourceCylinderIsTwinset : bool;
  SourceCylinderPressure : F;
  SourceCylinderVolume : F
}.

(** [initializeCylinders] assigns the two lists through its pointer arguments;
    here it returns them (source, destination). *)
Definition initializeCylinders (cylinderConfiguration : CylinderConfiguration)
    : CylinderList * CylinderList :=
  let sourceCylinders :=
    if SourceCylinderIsTwinset cylinderConfiguration then
      [ {| Description := "left";
           CylinderVolume := SourceCylinderVolume cylinderConfiguration / lit 2;
           Pressure := SourceCylinderPressure cylinderConfiguration |};
        {| Description := "right";
           CylinderVolume := SourceCylinderVolume cylinderConfiguration / lit 2;
           Pressure := SourceCylinderPressure cylinderConfiguration |} ]
    else
      [ {| Description := "source";
           CylinderVolume := SourceCylinderVolume cylinderConfiguration;
           Pressure := SourceCylinderPressure cylinderConfiguration |} ] in
  let destinationCylinders :=
    if DestinationCylinderIsTwinset cylinderConfiguration then
      [ {| Description := "left";
           CylinderVolume := DestinationCylinderVolume cylinderConfiguration / lit 2;
           Pressure := DestinationCylinderPressure cylinderConfiguration |};
        {| Description := "right";
           CylinderVolume := DestinationCylinderVolume cylinderConfiguration / lit 2;
           Pressure := DestinationCylinderPressure cylinderConfiguration |} ]
    else
      [ {| Description := "destination";
           CylinderVolume := DestinationCylinderVolume cylinderConfiguration;
           Pressure := DestinationCylinderPressure cylinderConfiguration |} ] in
  (sourceCylinders, destinationCylinders).

(** [type CylinderSummary struct]; its fields carry the prefix [Summary_], the
    Go names being those of [Cylinder] and [CylinderConfiguration] fields. *)
Record CylinderSummary := {
  Summary_Description : string;
  Summary_DestinationCylinderGasVolume : F;
  Summary_DestinationCylinderGasWeight : F;
  Summary_DestinationCylinderPressure : F;
  Summary_SourceCylinderGasVolume : F;
  Summary_SourceCylinderPressure : F;
  Summary_SourceCylinderGasWeight : F
}.

Definition scenarioDescription (cylinderConfiguration : CylinderConfiguration) : string :=
  if DestinationCylinderIsTwinset cylinderConfiguration
     && SourceCylinderIsTwinset cylinderConfiguration
  then "both manifolds closed"
  else if DestinationCylinderIsTwinset cylinderConfiguration
  then "destination manifold closed"
  else if SourceCylinderIsTwinset cylinderConfiguration
  then "source manifold closed"
  else "all manifolds open".

(** The body of [equalizeAndReport] once the two lists are in the store:
    [sourceCylinders] and [destinationCylinders] hold the addresses
    [&sourceCylinders[i]] and [&destinationCylinders[i]] of their elements. *)
Definition equalizeAndReportBody (cylinderConfiguration : CylinderConfiguration)
    (sourceCylinders destinationCylinders : list ptr)
    (gasSystem : GasSystem) (gasComposition : GasComposition) (temperature : F)
    (verbose debug printSourceSummary : bool) : M CylinderSummary :=
  when printSourceSummary (
    sources ← loadAll sourceCylinders;
    destinations ← loadAll destinationCylinders;
    let sourceCylinderGasVolume :=
      TotalGasVolume sources gasSystem gasComposition temperature in
    let destinationCylinderGasVolume :=
      TotalGasVolume destinations gasSystem gasComposition temperature in
    when verbose (
      emit (Println [VStr "Before any transfers:"]);;
      emit (Println [VStr "Source cylinders:"; VNum sourceCylinderGasVolume;
                     VStr "l of gas, pressure";
                     VNum (SourceCylinderPressure cylinderConfiguration); VStr "bar"]);;
      emit (Println [VStr "Destination cylinders:"; VNum destinationCylinderGasVolume;
                     VStr "l of gas, pressure";
                     VNum (DestinationCylinderPressure cylinderConfiguration); VStr "bar"]);;
      emit (Println [])));;
  let description := scenarioDescription cylinderConfiguration in
  emit (Println [VStr "Equalizing with"; VStr description]);;
  foldM (fun stepI sourceI =>
    foldM (fun stepI destinationI =>
      let stepI := S stepI in
      d ← load destinationI;
      let destinationCylinderGasVolumeBefore :=
        GasVolume d gasSystem gasComposition temperature in
      Cylinder_Equalize destinationI sourceI gasSystem gasComposition temperature
        verbose debug;;
      when verbose (
        s ← load sourceI;
        d' ← load destinationI;
        emit (Printf "Step %d: from %s to %s; transferred %.0fl of gas"
                [VInt stepI; VStr (Description s); VStr (Description d');
                 VNum (GasVolume d' gasSystem gasComposition temperature
                       - destinationCylinderGasVolumeBefore)]));;
      mret stepI)
    stepI destinationCylinders)
  0%nat sourceCylinders;;
  let destinationCylinderPointers := destinationCylinders in
  Equalize destinationCylinderPointers gasSystem gasComposition temperature verbose debug;;
  when debug (
    sources ← loadAll sourceCylinders;
    destinations ← loadAll destinationCylinders;
    emit (Println [VStr "Source cylinders gas volume:";
                   VNum (TotalGasVolume sources gasSystem gasComposition temperature)]);;
    emit (Println [VStr "Destination cylinders gas volume:";
                   VNum (TotalGasVolume destinations gasSystem gasComposition temperature)]));;
  sources ← loadAll sourceCylinders;
  destinations ← loadAll destinationCylinders;
  let sourceCylinderGasVolume :=
    TotalGasVolume sources gasSystem gasComposition temperature in
  let sourceCylinderPressure :=
    PressureFromVolumes sourceCylinderGasVolume (TotalVolume sources) in
  let destinationCylinderGasVolume :=
    TotalGasVolume destinations gasSystem gasComposition temperature in
  let destinationCylinderPressure :=
    PressureFromVolumes destinationCylinderGasVolume (TotalVolume destinations) in
  emit (Printf "Source cylinders: %.0fl, %.0fbar"
          [VNum sourceCylinderGasVolume; VNum sourceCylinderPressure]);;
  emit (Printf "Destination cylinders: %.0fl, %.0fbar"
          [VNum destinationCylinderGasVolume; VNum destinationCylinderPressure]);;
  emit (Println []);;
  mret {| Summary_Description := description;
          Summary_DestinationCylinderGasVolume := destinationCylinderGasVolume;
          Summary_DestinationCylinderGasWeight :=
            TotalGasWeight destinations gasComposition temperature;
          Summary_DestinationCylinderPressure := destinationCylinderPressure;
          Summary_SourceCylinderGasVolume := sourceCylinderGasVolume;
          Summary_SourceCylinderGasWeight :=
            TotalGasWeight sources gasComposition temperature;
          Summary_SourceCylinderPressure := sourceCylinderPressure |}.

(** [func equalizeAndReport]: the two lists are local to the call, so the run
    starts from a store that holds exactly them, the source cylinders first.
    The result is the summary and the trace; [None] is a panic. *)
Definition equalizeAndReport (cylinderConfiguration : CylinderConfiguration)
    (gasSystem : GasSystem) (gasComposition : GasComposition) (temperature : F)
    (verbose debug printSourceSummary : bool) : option (CylinderSummary * list Event) :=
  let '(sources, destinations) := initializeCylinders cylinderConfiguration in
  let sourceCylinders := seq 0 (length sources) in
  let destinationCylinders := seq (length sources) (length destinations) in
  match equalizeAndReportBody cylinderConfiguration sourceCylinders destinationCylinders
          gasSystem gasComposition temperature verbose debug printSourceSummary
          (sources ++ destinations) with
  | Some (summary, _, events) => Some (summary, events)
  | None => None
  end.

(** The groups [Equalize] was entered with, in the order of the calls. *)
Definition equalizeCalls (events : list Event) : list (list ptr) :=
  omap (fun e => match e with CallEqualize cylinders => Some cylinders | _ => None end)
       events.

End Program.

Arguments VanDerWaalsConstant F : clear implicits.
Abbreviation GasComposition F := (list (Gas * F)).
Arguments Cylinder F : clear implicits.
Abbreviation CylinderList F := (list (Cylinder F)).
Abbreviation heap F := (list (Cylinder F)).
Arguments Value F : clear implicits.
Arguments Event F : clear implicits.
Arguments M F X : clear implicits.
Arguments CylinderConfiguration F : clear implicits.
Arguments CylinderSummary F : clear implicits.

(** ** The first revision of the program ([app.go]): ideal gas only *)

Module AppGo.
Section Program.
Context {F : Type} `{Float64 F}.
Local Open Scope f64_scope.

(** [func (c1 Cylinder) GasVolume]. *)
Definition GasVolume (c1 : Cylinder F) : F := CylinderVolume c1 * Pressure c1.

(** [func Equalize(cylinders []*Cylinder, verbose bool, debug bool)]. *)
Definition Equalize (cylinders : list ptr) (verbose debug : bool) : M F unit :=
  emit (CallEqualize cylinders);;
  '(totalGasVolume, totalVolume) ←
    foldM (fun '(totalGasVolume, totalVolume) p =>
             c ← load p;
             mret (totalGasVolume + GasVolume c, totalVolume + CylinderVolume c))
          (lit 0, lit 0) cylinders;
  let pressureAfterEqualize := totalGasVolume / totalVolume in
  forM_ cylinders (fun p => storePressure p pressureAfterEqualize).

End Program.
End AppGo.

(** ** Vocabulary of the specification *)

Section Vocabulary.
Context {F : Type} `{Float64 F} `{MathLib F}.
Local Open Scope f64_scope.

(** The values of the cylinders behind the pointers [ps]; [None] when one of
    them is nil. *)
Definition derefAll (h : heap F) (ps : list ptr) : option (CylinderList F) :=
  mapM (fun p => h !! p) ps.

(** The store after [x] was written to the pressure of every cylinder of [ps]. *)
Definition writeAll (ps : list ptr) (x : F) (h : heap F) : heap F :=
  foldl (fun h p => alter (fun c => withPressure c x) p h) h ps.

(** The molar content of a group, summed as [Equalize] does in Van der Waals
    mode. *)
Definition TotalMoles (cl : CylinderList F) (temperature : F)
    (gasComposition : GasComposition F) : F :=
  foldl (fun totalMoles c => totalMoles + Moles c temperature gasComposition) (lit 0) cl.

(** The pressure [Equalize] computes from the values of the group's cylinders. *)
Definition equalizedPressure (gasSystem : GasSystem) (gasComposition : GasComposition F)
    (temperature : F) (cs : CylinderList F) : F :=
  match gasSystem with
  | IdealGas =>
      PressureFromVolumes (TotalGasVolume cs gasSystem gasComposition temperature)
        (TotalVolume cs)
  | VanDerWaals =>
      cylinderMolesToPressure (TotalVolume cs) (TotalMoles cs temperature gasComposition)
        temperature gasComposition
  end.

(** The (source, destination) pairs in the order of the two nested loops of
    [equalizeAndReport]: sources in the outer loop, destinations in the inner. *)
Definition sourceMajorPairs (sourceCylinders destinationCylinders : list ptr)
    : list (ptr * ptr) :=
  flat_map (fun sourceI => map (fun destinationI => (sourceI, destinationI))
                             destinationCylinders)
           sourceCylinders.

(** The addresses of the source and of the destination cylinders in the store
    [equalizeAndReport] runs on. *)
Definition sourcePointers (cylinderConfiguration : CylinderConfiguration F) : list ptr :=
  seq 0 (length (initializeCylinders cylinderConfiguration).1).

Definition destinationPointers (cylinderConfiguration : CylinderConfiguration F)
    : list ptr :=
  seq (length (initializeCylinders cylinderConfiguration).1)
      (length (initializeCylinders cylinderConfiguration).2).

(** The summary of the cylinders as they stand in the store. *)
Definition summarize (cylinderConfiguration : CylinderConfiguration F)
    (sourceCylinders destinationCylinders : list ptr)
    (gasSystem : GasSystem) (gasComposition : GasComposition F) (temperature : F)
    : M F (CylinderSummary F) :=
  sources ← loadAll sourceCylinders;
  destinations ← loadAll destinationCylinders;
  let sourceCylinderGasVolume :=
    TotalGasVolume sources gasSystem gasComposition temperature in
  let destinationCylinderGasVolume :=
    TotalGasVolume destinations gasSystem gasComposition temperature in
  mret {| Summary_Description := scenarioDescription cylinderConfiguration;
          Summary_DestinationCylinderGasVolume := destinationCylinderGasVolume;
          Summary_DestinationCylinderGasWeight :=
            TotalGasWeight destinations gasComposition temperature;
          Summary_DestinationCylinderPressure :=
            PressureFromVolumes destinationCylinderGasVolume (TotalVolume destinations);
          Summary_SourceCylinderGasVolume := sourceCylinderGasVolume;
          Summary_SourceCylinderGasWeight :=
            TotalGasWeight sources gasComposition temperature;
          Summary_SourceCylinderPressure :=
            PressureFromVolumes sourceCylinderGasVolume (TotalVolume sources) |}.

(** The scenario algorithm as the specification words it, with the order of the
    pairwise steps as a parameter: a pairwise equalize of the two cylinders of
    each pair of [order] in turn, then one equalize of the destination group,
    then the summary.  [equalizeAndReport] is the case [order = sourceMajorPairs]
    (lemma [equalizeAndReport_scenario]). *)
Definition scenarioInOrder (cylinderConfiguration : CylinderConfiguration F)
    (gasSystem : GasSystem) (gasComposition : GasComposition F) (temperature : F)
    (order : list (ptr * ptr)) : option (CylinderSummary F) :=
  let '(sources, destinations) := initializeCylinders cylinderConfiguration in
  let sourceCylinders := seq 0 (length sources) in
  let destinationCylinders := seq (length sources) (length destinations) in
  match (forM_ order (fun '(sourceI, destinationI) =>
                        Cylinder_Equalize destinationI sourceI gasSystem gasComposition
                          temperature false false);;
         Equalize destinationCylinders gasSystem gasComposition temperature false false;;
         summarize cylinderConfiguration sourceCylinders destinationCylinders
           gasSystem gasComposition temperature)
          (sources ++ destinations) with
  | Some (summary, _, _) => Some summary
  | None => None
  end.

End Vocabulary.

(** ** The two arithmetics *)

(** IEEE 754 binary64, every operation rounded to nearest on its own (no fused
    multiply-add, as the program is compiled for amd64 by default).  An integer
    below 2^53 converts exactly and the division rounds to nearest, so [lit q]
    is the binary64 nearest to [q] for every constant of the program. *)
Definition Z2float (z : Z) : float :=
  match z with
  | Z0 => PrimFloat.of_uint63 0
  | Zpos p => PrimFloat.of_uint63 (Uint63.of_Z (Zpos p))
  | Zneg p => PrimFloat.opp (PrimFloat.of_uint63 (Uint63.of_Z (Zpos p)))
  end.

#[global] Instance binary64 : Float64 float := {|
  lit q := PrimFloat.div (Z2float (Qnum q)) (Z2float (Zpos (Qden q)));
  fadd := PrimFloat.add;
  fsub := PrimFloat.sub;
  fmul := PrimFloat.mul;
  fdiv := PrimFloat.div;
  fopp := PrimFloat.opp
|}.

(** Exact real arithmetic.  [Rpow x y] is [x] to the power [y]: a product when
    [y] is an integer, [exp (y * ln x)] otherwise (meant for [0 < x]; Go
    returns NaN for a fractional power of a negative number, and the reals have
    none).  Likewise [x / 0] and [sqrt] of a negative number are outside what
    this arithmetic models; the statements below that are specific to the reals
    stay within its domain (positive volumes, and in the concrete runs a
    positive argument of the square root and of the cube root). *)
Definition Rpow (x y : R) : R :=
  if Req_dec_T y (IZR (Int_part y)) then powerRZ x (Int_part y) else Rpower x y.

#[global] Instance Rarith : Float64 R := {|
  lit := Q2R;
  fadd := Rplus;
  fsub := Rminus;
  fmul := Rmult;
  fdiv := Rdiv;
  fopp := Ropp
|}.

#[global] Instance Rmath : MathLib R := {|
  Pow := Rpow;
  Sqrt := R_sqrt.sqrt
|}.

(** ** Concrete inputs, and the closed form of [GasToMoles] over the reals *)

(** A cylinder of 12 l at 210 bar and one of 8.5 l at 80 bar. *)
Definition exampleStore : heap R :=
  [ {| Description := "left"; CylinderVolume := 12; Pressure := 210 |};
    {| Description := "right"; CylinderVolume := 17 / 2; Pressure := 80 |} ]%R.

(** A cylinder of 8.5 l at 336 bar and one of 24 l at 259 bar, in binary64. *)
Definition floatStore : heap float :=
  [ {| Description := "left"; CylinderVolume := 8.5%float; Pressure := 336%float |};
    {| Description := "right"; CylinderVolume := 24%float; Pressure := 259%float |} ].

(** The worked example of the specification: a source twinset of 24 l at 210
    bar and a destination twinset of 17 l at 80 bar. *)
Definition exampleConfiguration : CylinderConfiguration R :=
  {| DestinationCylinderIsTwinset := true;
     DestinationCylinderPressure := 80;
     DestinationCylinderVolume := 17;
     SourceCylinderIsTwinset := true;
     SourceCylinderPressure := 210;
     SourceCylinderVolume := 24 |}%R.

(** The same with the destination manifold open. *)
Definition singleDestinationConfiguration : CylinderConfiguration R :=
  {| DestinationCylinderIsTwinset := false;
     DestinationCylinderPressure := 80;
     DestinationCylinderVolume := 17;
     SourceCylinderIsTwinset := true;
     SourceCylinderPressure := 210;
     SourceCylinderVolume := 24 |}%R.

(** The same with both manifolds open. *)
Definition openConfiguration : CylinderConfiguration R :=
  {| DestinationCylinderIsTwinset := false;
     DestinationCylinderPressure := 80;
     DestinationCylinderVolume := 17;
     SourceCylinderIsTwinset := false;
     SourceCylinderPressure := 210;
     SourceCylinderVolume := 24 |}%R.

(** The four pairs of two sources (at 0 and 1) and two destinations (at 2 and
    3), each source first with the destination of its own side. *)
Definition diagonalFirstOrder : list (ptr * ptr) := [(0, 2); (1, 3); (0, 3); (1, 2)].

(** [compareFloats] and [floatAlmostEqualDiff = 1e-9] of the tests. *)
Definition compareFloats (a b : float) : bool :=
  PrimFloat.ltb (PrimFloat.abs (PrimFloat.sub a b)) (lit (1 # 1000000000)).

(** Pure nitrogen at 20 degrees Celsius, and a cylinder of 12 l of it at 200
    bar. *)
Definition nitrogen : GasComposition R := [(Nitrogen, 1%R)].

Definition roomTemperature : R := 293.15%R.

Definition nitrogenStore : heap R :=
  [ {| Description := "source"; CylinderVolume := 12; Pressure := 200 |} ]%R.

(** [subterm1], [subterm2] and the result of [GasToMoles] as real expressions,
    the latter in terms of [subterm2] and the cube root [subterm3]. *)
Definition subterm1R (a b V T P : R) : R :=
  (2 * a ^ 3 * V ^ 3 + 18 * a ^ 2 * b ^ 2 * P * V ^ 3
   - 9 * a ^ 2 * b * (831 / 10000) * T * V ^ 3)%R.

Definition subterm2R (a b V T P : R) : R :=
  (3 * a * b * (b * P * V ^ 2 + 831 / 10000 * T * V ^ 2) - a ^ 2 * V ^ 2)%R.

Definition closedFormR (a b V subterm2 subterm3 : R) : R :=
  (0.26457 * subterm3 / (a * b) - 0.41997 * subterm2 / (a * b * subterm3)
   + 0.33333 * V / b)%R.

(** [subterm3], the cube root. *)
Definition subterm3R (a b V T P : R) : R :=
  Rpower (subterm1R a b V T P
          + R_sqrt.sqrt (4 * subterm2R a b V T P ^ 3 + subterm1R a b V T P ^ 2)) (/ 3).

(** The three decimal constants of [GasToMoles] are the five-digit values of
    [1 / (3 * 2^(1/3))], [2^(1/3) / 3] and [1 / 3], the coefficients of
    Cardano's formula for the root of the cubic.  [exactFormR] is the closed
    form with the exact coefficients, and [truncationError] what the difference
    of the coefficients adds to the result of [GasToMoles]. *)
Definition cubeRootOfTwo : R := Rpower 2 (/ 3).

Definition exactFormR (a b V subterm2 subterm3 : R) : R :=
  (/ (3 * cubeRootOfTwo) * subterm3 / (a * b)
   - cubeRootOfTwo / 3 * subterm2 / (a * b * subterm3) + / 3 * V / b)%R.

Definition truncationError (cylinderVolume cylinderPressure : R)
    (vdwConstants : VanDerWaalsConstant R) (temperature : R) : R :=
  let a := A vdwConstants in
  let b := B vdwConstants in
  let subterm2 := subterm2R a b cylinderVolume temperature cylinderPressure in
  let subterm3 := subterm3R a b cylinderVolume temperature cylinderPressure in
  ((0.26457 - / (3 * cubeRootOfTwo)) * subterm3 / (a * b)
   - (0.41997 - cubeRootOfTwo / 3) * subterm2 / (a * b * subterm3)
   + (0.33333 - / 3) * cylinderVolume / b)%R.

(** The Van der Waals equation of state, [(P + a n^2 / V^2) (V - n b) = n R T]. *)
Definition VanDerWaalsEquation (a b V T n P : R) : Prop :=
  ((P + a * n ^ 2 / V ^ 2) * (V - n * b) = n * (831 / 10000) * T)%R.

(** ** The driver: comparisons, [printSummaries] and [main] *)

(** [main] and [printSummaries] compare [float64] values: [x < y], [x <= y]
    and [x == y] ([x > y] is [y < x]; all are false when an operand is NaN). *)
Class Float64Order (F : Type) := {
  flt : F -> F -> bool;
  fle : F -> F -> bool;
  feq : F -> F -> bool
}.

Notation "x <? y" := (flt x y) : f64_scope.
Notation "x >? y" := (flt y x) : f64_scope.
Notation "x <=? y" := (fle x y) : f64_scope.
Notation "x =? y" := (feq x y) : f64_scope.

#[global] Instance binary64_order : Float64Order float := {|
  flt := PrimFloat.ltb;
  fle := PrimFloat.leb;
  feq := PrimFloat.eqb
|}.

#[global] Instance Rorder : Float64Order R := {|
  flt x y := if Rlt_dec x y then true else false;
  fle x y := if Rle_dec x y then true else false;
  feq x y := if Req_dec_T x y then true else false
|}.

Section Driver.
Context {F : Type} `{Float64 F} `{MathLib F} `{Float64Order F}.
Local Open Scope f64_scope.

(** The zero value of [CylinderSummary], which [make([]CylinderSummary, 4)]
    fills the slice with. *)
Definition zeroSummary : CylinderSummary F :=
  {| Summary_Description := EmptyString;
     Summary_DestinationCylinderGasVolume := lit 0;
     Summary_DestinationCylinderGasWeight := lit 0;
     Summary_DestinationCylinderPressure := lit 0;
     Summary_SourceCylinderGasVolume := lit 0;
     Summary_SourceCylinderPressure := lit 0;
     Summary_SourceCylinderGasWeight := lit 0 |}.

(** The first loop of [printSummaries], which computes its local variable
    [worstDestinationPressure]. *)
Definition worstDestinationPressure (cylinderSummaries : list (CylinderSummary F)) : F :=
  foldl (fun worstDestinationPressure cylinderSummary =>
           if (Summary_DestinationCylinderPressure cylinderSummary <? worstDestinationPressure)
              || (worstDestinationPressure =? lit 0)
           then Summary_DestinationCylinderPressure cylinderSummary
           else worstDestinationPressure)
        (lit 0) cylinderSummaries.

(** The last column of a row of the table. *)
Definition improvement (cylinderSummary : CylinderSummary F) (worstDestinationPressure : F)
    : F :=
  lit 100 * (Summary_DestinationCylinderPressure cylinderSummary - worstDestinationPressure)
  / worstDestinationPressure.

(** [func printSummaries]: the lines it prints (here as everywhere, a format
    is written without the newline that ends it). *)
Definition printSummaries (cylinderSummaries : list (CylinderSummary F)) (verbose : bool)
    : list (Event F) :=
  let worstDestinationPressure := worstDestinationPressure cylinderSummaries in
  Printf "%30s src bar  src l  dst bar  dst l improvement" [VStr EmptyString]
  :: flat_map
       (fun cylinderSummary =>
          if String.eqb (Summary_Description cylinderSummary) EmptyString then []
          else
            Printf "%30s %7.0f %6.0f %8.0f %6.0f %10.2f%%"
              [VStr (Summary_Description cylinderSummary);
               VNum (Summary_SourceCylinderPressure cylinderSummary);
               VNum (Summary_SourceCylinderGasVolume cylinderSummary);
               VNum (Summary_DestinationCylinderPressure cylinderSummary);
               VNum (Summary_DestinationCylinderGasVolume cylinderSummary);
               VNum (improvement cylinderSummary worstDestinationPressure)]
            :: (if verbose
                then [Printf "                            Gas weight %6.0fg         %6.0fg"
                        [VNum (Summary_SourceCylinderGasWeight cylinderSummary);
                         VNum (Summary_DestinationCylinderGasWeight cylinderSummary)]]
                else []))
       cylinderSummaries.

(** The values of the command-line flags after [flag.Parse]. *)
Record Flags := {
  verboseFlag : bool;
  debugFlag : bool;
  sourceCylinderVolumeFlag : F;
  useIdealGasFlag : bool;
  destinationCylinderVolumeFlag : F;
  sourceCylinderPressureFlag : F;
  destinationCylinderPressureFlag : F;
  sourceCylinderIsTwinsetFlag : bool;
  destinationCylinderIsTwinsetFlag : bool;
  temperatureFlag : F;
  heliumPercentFlag : F;
  oxygenPercentFlag : F;
  neonPercentFlag : F;
  argonPercentFlag : F;
  hydrogenPercentFlag : F
}.

(** The flags of a run without arguments. *)
Definition defaultFlags : Flags :=
  {| verboseFlag := false;
     debugFlag := false;
     sourceCylinderVolumeFlag := lit 24;
     useIdealGasFlag := false;
     destinationCylinderVolumeFlag := lit 24;
     sourceCylinderPressureFlag := lit 232;
     destinationCylinderPressureFlag := lit 100;
     sourceCylinderIsTwinsetFlag := false;
     destinationCylinderIsTwinsetFlag := false;
     temperatureFlag := lit 20;
     heliumPercentFlag := lit 0;
     oxygenPercentFlag := lit 0.21;
     neonPercentFlag := lit 0;
     argonPercentFlag := lit 0;
     hydrogenPercentFlag := lit 0 |}.

(** [cylinderConfiguration.SourceCylinderIsTwinset = b] and
    [cylinderConfiguration.DestinationCylinderIsTwinset = b]. *)
Definition setSourceCylinderIsTwinset (cylinderConfiguration : CylinderConfiguration F)
    (b : bool) : CylinderConfiguration F :=
  {| DestinationCylinderIsTwinset := DestinationCylinderIsTwinset cylinderConfiguration;
     DestinationCylinderPressure := DestinationCylinderPressure cylinderConfiguration;
     DestinationCylinderVolume := DestinationCylinderVolume cylinderConfiguration;
     SourceCylinderIsTwinset := b;
     SourceCylinderPressure := SourceCylinderPressure cylinderConfiguration;
     SourceCylinderVolume := SourceCylinderVolume cylinderConfiguration |}.

Definition setDestinationCylinderIsTwinset (cylinderConfiguration : CylinderConfiguration F)
    (b : bool) : CylinderConfiguration F :=
  {| DestinationCylinderIsTwinset := b;
     DestinationCylinderPressure := DestinationCylinderPressure cylinderConfiguration;
     DestinationCylinderVolume := DestinationCylinderVolume cylinderConfiguration;
     SourceCylinderIsTwinset := SourceCylinderIsTwinset cylinderConfiguration;
     SourceCylinderPressure := SourceCylinderPressure cylinderConfiguration;
     SourceCylinderVolume := SourceCylinderVolume cylinderConfiguration |}.

(** [cylinderSummaries[a] = summary]; an index outside the slice panics. *)
Definition setSummary (a : nat) (summary : CylinderSummary F)
    (cylinderSummaries : list (CylinderSummary F)) : option (list (CylinderSummary F)) :=
  if decide (a < length cylinderSummaries)%nat then Some (<[a := summary]> cylinderSummaries)
  else None.

(** How a run of [main] ends: [println] of a message and [os.Exit] with a
    code, a panic, or a return; the latter with the lines printed and the slice
    [cylinderSummaries] as [printSummaries] received it. *)
Inductive Outcome :=
  | Exited (code : Z) (message : string)
  | Panicked
  | Returned (cylinderSummaries : list (CylinderSummary F)) (events : list (Event F)).

(** The local variables [gasSum], [nitrogenPercent], [gasComposition],
    [temperature], [gasSystem] and [cylinderConfiguration] of [main], as
    functions of the flags.  (The composition lists the entries of the map
    literal in the order in which it is written.) *)
Definition main_gasSum (flags : Flags) : F :=
  heliumPercentFlag flags + oxygenPercentFlag flags + neonPercentFlag flags
  + argonPercentFlag flags + hydrogenPercentFlag flags.

Definition main_nitrogenPercent (flags : Flags) : F := lit 1 - main_gasSum flags.

Definition main_gasComposition (flags : Flags) : GasComposition F :=
  [ (Argon, argonPercentFlag flags);
    (Helium, heliumPercentFlag flags);
    (Hydrogen, hydrogenPercentFlag flags);
    (Neon, neonPercentFlag flags);
    (Nitrogen, main_nitrogenPercent flags);
    (Oxygen, oxygenPercentFlag flags) ].

Definition main_temperature (flags : Flags) : F := temperatureFlag flags + lit 273.15.

Definition main_gasSystem (flags : Flags) : GasSystem :=
  if useIdealGasFlag flags then IdealGas else VanDerWaals.

Definition main_cylinderConfiguration (flags : Flags) : CylinderConfiguration F :=
  {| DestinationCylinderIsTwinset := destinationCylinderIsTwinsetFlag flags;
     DestinationCylinderPressure := destinationCylinderPressureFlag flags;
     DestinationCylinderVolume := destinationCylinderVolumeFlag flags;
     SourceCylinderIsTwinset := sourceCylinderIsTwinsetFlag flags;
     SourceCylinderPressure := sourceCylinderPressureFlag flags;
     SourceCylinderVolume := sourceCylinderVolumeFlag flags |}.

(** [func main], from the parsed flags on. *)
Definition main (flags : Flags) : Outcome :=
  if (temperatureFlag flags <? lit (-30)) || (temperatureFlag flags >? lit 80) then
    Exited 1 "Invalid temperature. Must be >-30 and <80"
  else
  let gasSum := main_gasSum flags in
  if gasSum >? lit 1 then Exited 11 "Defined gases must not exceed 100% (1.0)" else
  let gasComposition := main_gasComposition flags in
  if (destinationCylinderPressureFlag flags >? lit 350)
     || (destinationCylinderPressureFlag flags <? lit 0) then
    Exited 1 "Invalid destination cylinder pressure; must be >= 0 and <=350"
  else
  if (sourceCylinderPressureFlag flags >? lit 350)
     || (sourceCylinderPressureFlag flags <=? lit 0) then
    Exited 1 "Invalid source cylinder pressure; must be > 0 and <=350"
  else
  if sourceCylinderPressureFlag flags <? destinationCylinderPressureFlag flags then
    Exited 1 "Source pressure must be higher than destination pressure"
  else
  if (destinationCylinderVolumeFlag flags <=? lit 0)
     || (destinationCylinderVolumeFlag flags >? lit 1000) then
    Exited 1 "Destination cylinder volume size must be greater than 0 and less than 1000"
  else
  if (sourceCylinderVolumeFlag flags <=? lit 0)
     || (sourceCylinderVolumeFlag flags >? lit 1000) then
    Exited 1 "Source cylinder volume size must be greater than 0 and less than 1000"
  else
  let temperature := main_temperature flags in
  let gasSystem := main_gasSystem flags in
  let cylinderConfiguration := main_cylinderConfiguration flags in
  let report cylinderConfiguration :=
    equalizeAndReport cylinderConfiguration gasSystem gasComposition temperature
      (verboseFlag flags) (debugFlag flags) true in
  let run : option (list (CylinderSummary F) * list (Event F)) :=
    let cylinderSummaries := replicate 4 zeroSummary in
    let a := 0%nat in
    '(summary, events0) ← report cylinderConfiguration;
    cylinderSummaries ← setSummary a summary cylinderSummaries;
    let a := S a in
    '(cylinderConfiguration, cylinderSummaries, a, events1) ←
      (if sourceCylinderIsTwinsetFlag flags then
         let cylinderConfiguration := setSourceCylinderIsTwinset cylinderConfiguration false in
         '(summary, events) ← report cylinderConfiguration;
         cylinderSummaries ← setSummary a summary cylinderSummaries;
         let a := S a in
         let cylinderConfiguration := setSourceCylinderIsTwinset cylinderConfiguration true in
         Some (cylinderConfiguration, cylinderSummaries, a, events)
       else Some (cylinderConfiguration, cylinderSummaries, a, []));
    '(cylinderConfiguration, cylinderSummaries, a, events2) ←
      (if destinationCylinderIsTwinsetFlag flags then
         let cylinderConfiguration :=
           setDestinationCylinderIsTwinset cylinderConfiguration false in
         '(summary, events) ← report cylinderConfiguration;
         cylinderSummaries ← setSummary a summary cylinderSummaries;
         let a := S a in
         let cylinderConfiguration :=
           setDestinationCylinderIsTwinset cylinderConfiguration true in
         Some (cylinderConfiguration, cylinderSummaries, a, events)
       else Some (cylinderConfiguration, cylinderSummaries, a, []));
    '(cylinderSummaries, events3) ←
      (if destinationCylinderIsTwinsetFlag flags || sourceCylinderIsTwinsetFlag flags then
         let cylinderConfiguration :=
           setDestinationCylinderIsTwinset cylinderConfiguration false in
         let cylinderConfiguration := setSourceCylinderIsTwinset cylinderConfiguration false in
         '(summary, events) ← report cylinderConfiguration;
         cylinderSummaries ← setSummary a summary cylinderSummaries;
         Some (cylinderSummaries, events)
       else Some (cylinderSummaries, []));
    Some (cylinderSummaries,
          events0 ++ events1 ++ events2 ++ events3
          ++ printSummaries cylinderSummaries (verboseFlag flags)) in
  match run with
  | Some (cylinderSummaries, events) => Returned cylinderSummaries events
  | None => Panicked
  end.

(** The conditions under which [main] exits, in the order in which it tests
    them. *)
Definition main_checks (flags : Flags) : list bool :=
  [ (temperatureFlag flags <? lit (-30)) || (temperatureFlag flags >? lit 80);
    main_gasSum flags >? lit 1;
    (destinationCylinderPressureFlag flags >? lit 350)
    || (destinationCylinderPressureFlag flags <? lit 0);
    (sourceCylinderPressureFlag flags >? lit 350)
    || (sourceCylinderPressureFlag flags <=? lit 0);
    sourceCylinderPressureFlag flags <? destinationCylinderPressureFlag flags;
    (destinationCylinderVolumeFlag flags <=? lit 0)
    || (destinationCylinderVolumeFlag flags >? lit 1000);
    (sourceCylinderVolumeFlag flags <=? lit 0)
    || (sourceCylinderVolumeFlag flags >? lit 1000) ].

(** The configurations [main] runs [equalizeAndReport] on, in the order of the
    calls: the one of the flags; with a source twinset, the same with the
    source manifold open; with a destination twinset, the same with the
    destination manifold open; with either, the one with both open. *)
Definition main_scenarios (flags : Flags) : list (CylinderConfiguration F) :=
  let cylinderConfiguration := main_cylinderConfiguration flags in
  [cylinderConfiguration]
  ++ (if sourceCylinderIsTwinsetFlag flags
      then [setSourceCylinderIsTwinset cylinderConfiguration false] else [])
  ++ (if destinationCylinderIsTwinsetFlag flags
      then [setDestinationCylinderIsTwinset cylinderConfiguration false] else [])
  ++ (if destinationCylinderIsTwinsetFlag flags || sourceCylinderIsTwinsetFlag flags
      then [setSourceCylinderIsTwinset
              (setDestinationCylinderIsTwinset cylinderConfiguration false) false]
      else []).

End Driver.

Arguments Flags F : clear implicits.
Arguments Outcome F : clear implicits.

(** The flags [main] accepts, in exact arithmetic. *)
Definition validFlags (flags : Flags R) : Prop :=
  (-30 <= temperatureFlag flags <= 80
   /\ main_gasSum flags <= 1
   /\ 0 <= destinationCylinderPressureFlag flags <= 350
   /\ 0 < sourceCylinderPressureFlag flags <= 350
   /\ destinationCylinderPressureFlag flags <= sourceCylinderPressureFlag flags
   /\ 0 < destinationCylinderVolumeFlag flags <= 1000
   /\ 0 < sourceCylinderVolumeFlag flags <= 1000)%R.

(** The part of the pressure difference between source and destination by
    which the source, and the destination, ends above the initial pressure of
    the destination, in ideal-gas mode and exact arithmetic, for a source of
    volume [s] and a destination of volume [d]. *)
Definition sourceShare (sourceIsTwinset destinationIsTwinset : bool) (s d : R) : R :=
  match sourceIsTwinset, destinationIsTwinset with
  | true, true => s ^ 2 * (s + 2 * d) / (s + d) ^ 3
  | true, false => s * (s + 3 * d) / (s + 2 * d) ^ 2
  | false, true => 4 * s ^ 2 / (2 * s + d) ^ 2
  | false, false => s / (s + d)
  end%R.

Definition destinationShare (sourceIsTwinset destinationIsTwinset : bool) (s d : R) : R :=
  match sourceIsTwinset, destinationIsTwinset with
  | true, true => s * (s ^ 2 + 3 * s * d + d ^ 2) / (s + d) ^ 3
  | true, false => s * (s + 4 * d) / (s + 2 * d) ^ 2
  | false, true => s * (4 * s + d) / (2 * s + d) ^ 2
  | false, false => s / (s + d)
  end%R.

(** What a run prints: its trace without the marks of the calls of [Equalize]. *)
Definition output {F : Type} (events : list (Event F)) : list (Event F) :=
  List.filter (fun e => match e with CallEqualize _ => false | _ => true end) events.

(** ** The first revision ([app.go]): the scenario *)

Module AppGoReport.
Section Program.
Context {F : Type} `{Float64 F}.
Local Open Scope f64_scope.

(** [func (c1 *Cylinder) Equalize(c2 *Cylinder, verbose bool, debug bool)]. *)
Definition Cylinder_Equalize (c1 c2 : ptr) (verbose debug : bool) : M F unit :=
  let listOfCylinders := [c1; c2] in
  AppGo.Equalize listOfCylinders verbose debug.

Definition TotalVolume (cl : CylinderList F) : F :=
  foldl (fun totalVolume cylinder => totalVolume + CylinderVolume cylinder) (lit 0) cl.

Definition TotalGasVolume (cl : CylinderList F) : F :=
  foldl (fun totalGasVolume cylinder => totalGasVolume + AppGo.GasVolume cylinder)
        (lit 0) cl.

(** [type CylinderSummary struct] of [app.go], which has no gas weights. *)
Record CylinderSummary := {
  Summary_Description : string;
  Summary_DestinationCylinderGasVolume : F;
  Summary_DestinationCylinderPressure : F;
  Summary_SourceCylinderGasVolume : F;
  Summary_SourceCylinderPressure : F
}.

(** The body of [equalizeAndReport] once the two lists are in the store.
    ([CylinderConfiguration], [Cylinder] and [initializeCylinders] of [app.go]
    are, field for field and line for line, those of the latest revision, on
    plain [float64].) *)
Definition equalizeAndReportBody (cylinderConfiguration : CylinderConfiguration F)
    (sourceCylinders destinationCylinders : list ptr)
    (verbose debug printSourceSummary : bool) : M F CylinderSummary :=
  when printSourceSummary (
    sources ← loadAll sourceCylinders;
    destinations ← loadAll destinationCylinders;
    let sourceCylinderGasVolume := TotalGasVolume sources in
    let destinationCylinderGasVolume := TotalGasVolume destinations in
    when verbose (
      emit (Println [VStr "Before any transfers:"]);;
      emit (Println [VStr "Source cylinders:"; VNum sourceCylinderGasVolume;
                     VStr "l of gas, pressure";
                     VNum (SourceCylinderPressure cylinderConfiguration); VStr "bar"]);;
      emit (Println [VStr "Destination cylinders:"; VNum destinationCylinderGasVolume;
                     VStr "l of gas, pressure";
                     VNum (DestinationCylinderPressure cylinderConfiguration); VStr "bar"]);;
      emit (Println [])));;
  let description := scenarioDescription cylinderConfiguration in
  emit (Println [VStr "Equalizing with"; VStr description]);;
  foldM (fun stepI sourceI =>
    foldM (fun stepI destinationI =>
      let stepI := S stepI in
      d ← load destinationI;
      let destinationCylinderGasVolumeBefore := AppGo.GasVolume d in
      Cylinder_Equalize destinationI sourceI verbose debug;;
      when verbose (
        s ← load sourceI;
        d' ← load destinationI;
        emit (Printf "Step %d: from %s to %s; transferred %.0fl of gas"
                [VInt stepI; VStr (Description s); VStr (Description d');
                 VNum (AppGo.GasVolume d' - destinationCylinderGasVolumeBefore)]));;
      mret stepI)
    stepI destinationCylinders)
  0%nat sourceCylinders;;
  let destinationCylinderPointers := destinationCylinders in
  AppGo.Equalize destinationCylinderPointers verbose debug;;
  when debug (
    sources ← loadAll sourceCylinders;
    destinations ← loadAll destinationCylinders;
    emit (Println [VStr "Source cylinders gas volume:"; VNum (TotalGasVolume sources)]);;
    emit (Println [VStr "Destination cylinders gas volume:";
                   VNum (TotalGasVolume destinations)]));;
  sources ← loadAll sourceCylinders;
  destinations ← loadAll destinationCylinders;
  let sourceCylinderGasVolume := TotalGasVolume sources in
  let sourceCylinderPressure := sourceCylinderGasVolume / TotalVolume sources in
  let destinationCylinderGasVolume := TotalGasVolume destinations in
  let destinationCylinderPressure :=
    destinationCylinderGasVolume / TotalVolume destinations in
  emit (Printf "Source cylinders: %.0fl, %.0fbar"
          [VNum sourceCylinderGasVolume; VNum sourceCylinderPressure]);;
  emit (Printf "Destination cylinders: %.0fl, %.0fbar"
          [VNum destinationCylinderGasVolume; VNum destinationCylinderPressure]);;
  emit (Println []);;
  mret {| Summary_Description := description;
          Summary_DestinationCylinderGasVolume := destinationCylinderGasVolume;
          Summary_DestinationCylinderPressure := destinationCylinderPressure;
          Summary_SourceCylinderGasVolume := sourceCylinderGasVolume;
          Summary_SourceCylinderPressure := sourceCylinderPressure |}.

(** [func equalizeAndReport] of [app.go]. *)
Definition equalizeAndReport (cylinderConfiguration : CylinderConfiguration F)
    (verbose debug printSourceSummary : bool) : option (CylinderSummary * list (Event F)) :=
  let '(sources, destinations) := initializeCylinders cylinderConfiguration in
  let sourceCylinders := seq 0 (length sources) in
  let destinationCylinders := seq (length sources) (length destinations) in
  match equalizeAndReportBody cylinderConfiguration sourceCylinders destinationCylinders
          verbose debug printSourceSummary (sources ++ destinations) with
  | Some (summary, _, events) => Some (summary, events)
  | None => None
  end.

End Program.

Arguments CylinderSummary F : clear implicits.

End AppGoReport.

(** The fields the summary of the latest revision shares with the one of
    [app.go]. *)
Definition withoutGasWeights {F : Type} (summary : CylinderSummary F)
    : AppGoReport.CylinderSummary F :=
  {| AppGoReport.Summary_Description := Summary_Description summary;
     AppGoReport.Summary_DestinationCylinderGasVolume :=
       Summary_DestinationCylinderGasVolume summary;
     AppGoReport.Summary_DestinationCylinderPressure :=
       Summary_DestinationCylinderPressure summary;
     AppGoReport.Summary_SourceCylinderGasVolume := Summary_SourceCylinderGasVolume summary;
     AppGoReport.Summary_SourceCylinderPressure := Summary_SourceCylinderPressure summary |}.

(** ** The revision in between: the composition as a struct *)

Module Intermediate.
Section Program.
Context {F : Type} `{Float64 F} `{MathLib F}.
Local Open Scope f64_scope.

(** [type GasComposition struct] with one [float64] field for each gas; the
    fields carry the prefix [Fraction_], the Go names being those of the
    constants of [Gas]. *)
Record GasComposition := {
  Fraction_Helium : F;
  Fraction_Oxygen : F;
  Fraction_Nitrogen : F;
  Fraction_Argon : F;
  Fraction_Neon : F;
  Fraction_Hydrogen : F
}.

(** [GasToMoles] and [MolesToPressure] of this revision are those of the latest
    one (with the constant [R] local to each). *)
Definition gasCompositionToMoles (V P temperature : F) (gasComposition : GasComposition)
    : F :=
  GasToMoles V (Fraction_Argon gasComposition * P) (VanDerWaalsConstants Argon) temperature
  + GasToMoles V (Fraction_Helium gasComposition * P) (VanDerWaalsConstants Helium)
      temperature
  + GasToMoles V (Fraction_Hydrogen gasComposition * P) (VanDerWaalsConstants Hydrogen)
      temperature
  + GasToMoles V (Fraction_Neon gasComposition * P) (VanDerWaalsConstants Neon) temperature
  + GasToMoles V (Fraction_Nitrogen gasComposition * P) (VanDerWaalsConstants Nitrogen)
      temperature
  + GasToMoles V (Fraction_Oxygen gasComposition * P) (VanDerWaalsConstants Oxygen)
      temperature.

Definition cylinderMolesToPressure (V n temperature : F) (gasComposition : GasComposition)
    : F :=
  MolesToPressure V (n * Fraction_Argon gasComposition) temperature
    (VanDerWaalsConstants Argon)
  + MolesToPressure V (n * Fraction_Helium gasComposition) temperature
      (VanDerWaalsConstants Helium)
  + MolesToPressure V (n * Fraction_Hydrogen gasComposition) temperature
      (VanDerWaalsConstants Hydrogen)
  + MolesToPressure V (n * Fraction_Neon gasComposition) temperature
      (VanDerWaalsConstants Neon)
  + MolesToPressure V (n * Fraction_Nitrogen gasComposition) temperature
      (VanDerWaalsConstants Nitrogen)
  + MolesToPressure V (n * Fraction_Oxygen gasComposition) temperature
      (VanDerWaalsConstants Oxygen).

(** The entries of the map the latest revision holds the same composition in,
    in the order of the struct's fields. *)
Definition entries (gasComposition : GasComposition) : list (Gas * F) :=
  [ (Helium, Fraction_Helium gasComposition);
    (Oxygen, Fraction_Oxygen gasComposition);
    (Nitrogen, Fraction_Nitrogen gasComposition);
    (Argon, Fraction_Argon gasComposition);
    (Neon, Fraction_Neon gasComposition);
    (Hydrogen, Fraction_Hydrogen gasComposition) ].

End Program.

Arguments GasComposition F : clear implicits.

End Intermediate.

(** ** Concrete inputs of the driver *)

(** The flags of the example of the README, with [-use-ideal-gas]: twinsets of
    24 l at 210 bar and of 17 l at 80 bar. *)
Definition exampleFlags : Flags R :=
  {| verboseFlag := false;
     debugFlag := false;
     sourceCylinderVolumeFlag := 24;
     useIdealGasFlag := true;
     destinationCylinderVolumeFlag := 17;
     sourceCylinderPressureFlag := 210;
     destinationCylinderPressureFlag := 80;
     sourceCylinderIsTwinsetFlag := true;
     destinationCylinderIsTwinsetFlag := true;
     temperatureFlag := 20;
     heliumPercentFlag := 0;
     oxygenPercentFlag := 0.21;
     neonPercentFlag := 0;
     argonPercentFlag := 0;
     hydrogenPercentFlag := 0 |}%R.

(** The same with single cylinders on both sides. *)
Definition singleCylinderFlags : Flags R :=
  {| verboseFlag := false;
     debugFlag := false;
     sourceCylinderVolumeFlag := 24;
     useIdealGasFlag := true;
     destinationCylinderVolumeFlag := 17;
     sourceCylinderPressureFlag := 210;
     destinationCylinderPressureFlag := 80;
     sourceCylinderIsTwinsetFlag := false;
     destinationCylinderIsTwinsetFlag := false;
     temperatureFlag := 20;
     heliumPercentFlag := 0;
     oxygenPercentFlag := 0.21;
     neonPercentFlag := 0;
     argonPercentFlag := 0;
     hydrogenPercentFlag := 0 |}%R.

(** A summary with the destination at the pressure [p], all else zero. *)
Definition summaryAt (p : R) : CylinderSummary R :=
  {| Summary_Description := "all manifolds open";
     Summary_DestinationCylinderGasVolume := 0;
     Summary_DestinationCylinderGasWeight := 0;
     Summary_DestinationCylinderPressure := p;
     Summary_SourceCylinderGasVolume := 0;
     Summary_SourceCylinderPressure := 0;
     Summary_SourceCylinderGasWeight := 0 |}%R.

(** Air as the intermediate revision holds it. *)
Definition airStruct : Intermediate.GasComposition R :=
  {| Intermediate.Fraction_Helium := 0;
     Intermediate.Fraction_Oxygen := 0.21;
     Intermediate.Fraction_Nitrogen := 0.79;
     Intermediate.Fraction_Argon := 0;
     Intermediate.Fraction_Neon := 0;
     Intermediate.Fraction_Hydrogen := 0 |}%R.

(** The cases of [math.Pow] on binary64 that need neither [math.Exp] nor
    [math.Log]: the special cases [Pow(x, 0) = 1], [Pow(1, y) = 1] and
    [Pow(x, 1) = x] of its documentation, and the exponents 2 and 3, for which
    it multiplies ([x * x] and [x * (x * x)], for operands and results in the
    normal range).  For any other exponent Go evaluates [Exp(y * Log(x))],
    which is not part of the program: [Pow_binary64] is NaN there.  Every
    operation propagates NaN, so a result that is a number was computed
    without that case.  [math.Sqrt] is the IEEE square root. *)
Definition Pow_binary64 (x y : float) : float :=
  if PrimFloat.eqb y 0 || PrimFloat.eqb x 1 then 1%float
  else if PrimFloat.eqb y 1 then x
  else if PrimFloat.eqb y 2 then PrimFloat.mul x x
  else if PrimFloat.eqb y 3 then PrimFloat.mul x (PrimFloat.mul x x)
  else PrimFloat.nan.

Definition binary64_math : MathLib float := {|
  Pow := Pow_binary64;
  Sqrt := PrimFloat.sqrt
|}.




(** Air as a map, its two entries in either order. *)
Definition air : GasComposition R := [(Nitrogen, 0.79); (Oxygen, 0.21)]%R.

Definition airOxygenFirst : GasComposition R := [(Oxygen, 0.21); (Nitrogen, 0.79)]%R.

(** * Properties

    ** What a call of [Equalize] does to the store *)

Section EqualizeFacts.
Context {F : Type} `{Float64 F} `{MathLib F}.
Local Open Scope f64_scope.

Lemma bind_Some {X Y : Type} (m : M F X) (k : X -> M F Y) h x h1 o1 :
  m h = Some (x, h1, o1) ->
  (m ≫= k) h = match k x h1 with
               | Some (y, h2, o2) => Some (y, h2, o1 ++ o2)
               | None => None
               end.
Proof. intros E. unfold mbind, M_bind. rewrite E. reflexivity. Qed.

Lemma bind_None {X Y : Type} (m : M F X) (k : X -> M F Y) h :
  m h = None -> (m ≫= k) h = None.
Proof. intros E. unfold mbind, M_bind. rewrite E. reflexivity. Qed.

Lemma derefAll_cons (h : heap F) p ps :
  derefAll h (p :: ps) = c ← h !! p; cs ← derefAll h ps; Some (c :: cs).
Proof. reflexivity. Qed.

Lemma length_writeAll ps x (h : heap F) : length (writeAll ps x h) = length h.
Proof.
  revert h; induction ps as [|p ps IH]; intros h; simpl; [done|].
  rewrite IH. apply length_alter.
Qed.

Lemma lookup_writeAll ps x (h : heap F) (q : ptr) :
  writeAll ps x h !! q =
  if decide (q ∈ ps) then (fun c => withPressure c x) <$> h !! q else h !! q.
Proof.
  revert h; induction ps as [|p ps IH]; intros h.
  - case_decide as Hin; [|done]. by apply elem_of_nil in Hin.
  - change (writeAll (p :: ps) x h) with (writeAll ps x (alter (fun c => withPressure c x) p h)).
    rewrite IH. destruct (decide (q = p)) as [->|Hne].
    + rewrite list_lookup_alter_eq.
      rewrite (decide_True (P := p ∈ p :: ps)) by apply list_elem_of_here.
      case_decide; [|done]. by destruct (h !! p).
    + rewrite list_lookup_alter_ne by done.
      repeat case_decide; try done.
      * exfalso. eauto using list_elem_of_further.
      * exfalso. match goal with Hin : q ∈ p :: ps |- _ => apply elem_of_cons in Hin as [?|?] end; done.
Qed.


Lemma equalizeCalls_app (e1 e2 : list (Event F)) :
  equalizeCalls (e1 ++ e2) = equalizeCalls e1 ++ equalizeCalls e2.
Proof. apply omap_app. Qed.

Lemma foldl_pair {X Y Z : Type} (f : X -> Z -> X) (g : Y -> Z -> Y) (l : list Z) x y :
  foldl (fun '(a, b) z => (f a z, g b z)) (x, y) l = (foldl f x l, foldl g y l).
Proof. revert x y; induction l as [|z l IH]; intros x y; simpl; [done|apply IH]. Qed.

(** A loop that only reads the cylinders behind [ps]. *)
Lemma foldM_reads {S : Type} (body : S -> ptr -> M F S) (step : S -> Cylinder F -> S)
    ps (h : heap F) cs s :
  (forall s p c, h !! p = Some c ->
     exists evs, body s p h = Some (step s c, h, evs) /\ equalizeCalls evs = []) ->
  derefAll h ps = Some cs ->
  exists evs, foldM body s ps h = Some (foldl step s cs, h, evs) /\ equalizeCalls evs = [].
Proof.
  intros Hbody. revert cs s; induction ps as [|p ps IH]; intros cs s Hd.
  - injection Hd as <-. exists []. done.
  - rewrite derefAll_cons in Hd.
    destruct (h !! p) as [c|] eqn:Hp; [|done].
    destruct (derefAll h ps) as [cs'|] eqn:Hps; [|done].
    injection Hd as <-.
    destruct (Hbody s p c Hp) as (e1 & E1 & C1).
    destruct (IH cs' (step s c) eq_refl) as (e2 & E2 & C2).
    exists (e1 ++ e2). split.
    + cbn [foldM]. rewrite (bind_Some _ _ _ _ _ _ E1), E2. done.
    + rewrite equalizeCalls_app, C1, C2. done.
Qed.

Lemma foldM_reads_None {S : Type} (body : S -> ptr -> M F S) ps (h : heap F) s :
  (forall s p, body s p h = None \/ exists s' evs, body s p h = Some (s', h, evs)) ->
  (forall s p, h !! p = None -> body s p h = None) ->
  derefAll h ps = None ->
  foldM body s ps h = None.
Proof.
  intros Hbody Hnone. revert s; induction ps as [|p ps IH]; intros s Hd; [done|].
  rewrite derefAll_cons in Hd. cbn [foldM].
  destruct (Hbody s p) as [E|(s' & evs & E)].
  - by apply bind_None.
  - rewrite (bind_Some _ _ _ _ _ _ E).
    destruct (h !! p) as [c|] eqn:Hp.
    + destruct (derefAll h ps) as [cs'|] eqn:Hps; [done|].
      rewrite IH; done.
    + rewrite Hnone in E; done.
Qed.

Lemma load_Some (h : heap F) p c : h !! p = Some c -> load p h = Some (c, h, []).
Proof. intros E. unfold load. by rewrite E. Qed.

Lemma derefAll_Some_lookup (h : heap F) ps cs p :
  derefAll h ps = Some cs -> p ∈ ps -> is_Some (h !! p).
Proof.
  intros Hd Hin. apply mapM_Some in Hd.
  apply list_elem_of_lookup in Hin as [i Hi].
  destruct (Forall2_lookup_l _ _ _ _ _ Hd Hi) as (c & _ & Hc). eauto.
Qed.

(** The loop that writes the new pressure through every pointer of the group. *)
Lemma forM_storePressure ps x (h : heap F) :
  (forall p, p ∈ ps -> is_Some (h !! p)) ->
  forM_ ps (fun p => storePressure p x) h = Some (tt, writeAll ps x h, []).
Proof.
  unfold forM_. revert h; induction ps as [|p ps IH]; intros h Hall; [done|].
  cbn [foldM].
  destruct (Hall p) as [c Hp]; [apply list_elem_of_here|].
  assert (E : storePressure p x h = Some (tt, alter (fun c => withPressure c x) p h, [])).
  { unfold storePressure. rewrite Hp. do 3 f_equal. 
    apply list_eq. intros i. destruct (decide (i = p)) as [->|Hne].
    - rewrite list_lookup_alter_eq, Hp. apply list_lookup_insert_eq. by eapply lookup_lt_Some.
    - rewrite list_lookup_alter_ne, list_lookup_insert_ne by done. done. }
  rewrite (bind_Some _ _ _ _ _ _ E). rewrite IH; [done|].
  intros q Hq. rewrite list_lookup_alter. 
  destruct (Hall q) as [c' Hc']; [by apply list_elem_of_further|].
  case_decide; subst; rewrite ?Hc'; eauto.
Qed.


Lemma Equalize_Some ps gasSystem gasComposition temperature verbose debug (h : heap F) cs :
  derefAll h ps = Some cs ->
  exists evs,
    Equalize ps gasSystem gasComposition temperature verbose debug h
    = Some (tt, writeAll ps (equalizedPressure gasSystem gasComposition temperature cs) h, evs)
    /\ equalizeCalls evs = [ps].
Proof.
  intros Hd.
  assert (Hv : forall p, p ∈ ps -> is_Some (h !! p)) by eauto using derefAll_Some_lookup.
  unfold Equalize.
  rewrite (bind_Some _ _ h tt h [CallEqualize ps] eq_refl).
  destruct gasSystem.
  - edestruct (foldM_reads
        (fun '(totalGasVolume, totalVolume) p =>
           c ← load p;
           mret (totalGasVolume + GasVolume c IdealGas gasComposition temperature,
                 totalVolume + CylinderVolume c))
        (fun '(g, v) c => (g + GasVolume c IdealGas gasComposition temperature,
                           v + CylinderVolume c))
        ps h cs (lit 0, lit 0)) as (e1 & E1 & C1); [|exact Hd|].
    { intros [g v] p c Hp. exists []. split; [|done].
      rewrite (bind_Some _ _ _ _ _ _ (load_Some _ _ _ Hp)). done. }
    rewrite foldl_pair in E1.
    unfold mbind, M_bind in E1 |- *. rewrite E1.
    cbn [mret M_ret]. rewrite forM_storePressure by done.
    eexists; split; [reflexivity|].
    rewrite !equalizeCalls_app, C1. done.
  - edestruct (foldM_reads
        (fun '(totalMoles, totalVolume) p =>
           c ← load p;
           let moles := Moles c temperature gasComposition in
           when debug (emit (Println [VStr "Cylinder"; VCyl c; VStr "moles"; VNum moles]));;
           mret (totalMoles + moles, totalVolume + CylinderVolume c))
        (fun '(n, v) c => (n + Moles c temperature gasComposition, v + CylinderVolume c))
        ps h cs (lit 0, lit 0)) as (e1 & E1 & C1); [|exact Hd|].
    { intros [n v] p c Hp.
      rewrite (bind_Some _ _ _ _ _ _ (load_Some _ _ _ Hp)). cbv zeta.
      destruct debug; eexists; split; reflexivity. }
    rewrite foldl_pair in E1.
    unfold mbind, M_bind in E1 |- *. rewrite E1. cbv zeta.
    destruct debug; cbn [when mbind M_bind emit mret M_ret];
      rewrite forM_storePressure by done;
      (eexists; split; [reflexivity|]);
      rewrite !equalizeCalls_app, C1; done.
Qed.

Lemma Equalize_None ps gasSystem gasComposition temperature verbose debug (h : heap F) :
  derefAll h ps = None ->
  Equalize ps gasSystem gasComposition temperature verbose debug h = None.
Proof.
  intros Hd. unfold Equalize.
  rewrite (bind_Some _ _ h tt h [CallEqualize ps] eq_refl).
  destruct gasSystem.
  - rewrite (bind_None _ _ h); [done|]. apply bind_None.
    apply foldM_reads_None; [| |exact Hd].
    + intros [g v] p. unfold mbind, M_bind, load. destruct (h !! p); eauto.
    + intros [g v] p Hp. unfold mbind, M_bind, load. by rewrite Hp.
  - rewrite (bind_None _ _ h); [done|]. apply bind_None.
    apply foldM_reads_None; [| |exact Hd].
    + intros [n v] p. unfold mbind, M_bind, load. destruct (h !! p); [|eauto].
      right. destruct debug; eauto.
    + intros [n v] p Hp. unfold mbind, M_bind, load. by rewrite Hp.
Qed.

(** What a call of [Equalize] that returns has done. *)
Lemma Equalize_inv ps gasSystem gasComposition temperature verbose debug
    (h h' : heap F) u evs :
  Equalize ps gasSystem gasComposition temperature verbose debug h = Some (u, h', evs) ->
  exists cs, derefAll h ps = Some cs /\
    h' = writeAll ps (equalizedPressure gasSystem gasComposition temperature cs) h /\
    equalizeCalls evs = [ps].
Proof.
  intros E. destruct (derefAll h ps) as [cs|] eqn:Hd.
  - destruct (Equalize_Some ps gasSystem gasComposition temperature verbose debug h cs Hd)
      as (evs' & E' & C).
    rewrite E in E'. simplify_eq. eauto.
  - rewrite Equalize_None in E; done.
Qed.

(** The store [Equalize] leaves does not depend on [verbose] and [debug], for
    runs whose loops visit the composition map in the same order. *)
Lemma Equalize_store_ignores_flags ps gasSystem gasComposition temperature
    verbose debug verbose' debug' (h : heap F) :
  (fun r => r.1.2) <$> Equalize ps gasSystem gasComposition temperature verbose debug h
  = (fun r => r.1.2) <$> Equalize ps gasSystem gasComposition temperature verbose' debug' h.
Proof.
  destruct (derefAll h ps) as [cs|] eqn:Hd.
  - destruct (Equalize_Some ps gasSystem gasComposition temperature verbose debug h cs Hd)
      as (evs & -> & _).
    destruct (Equalize_Some ps gasSystem gasComposition temperature verbose' debug' h cs Hd)
      as (evs' & -> & _).
    done.
  - by rewrite !Equalize_None.
Qed.

End EqualizeFacts.

(** ** [Equalize]: uniform pressure, the ideal-gas formula, and the frame *)

Section EqualizeClaims.
Context {F : Type} `{Float64 F} `{MathLib F}.
Local Open Scope f64_scope.

Lemma lookup_writeAll_in ps x (h : heap F) p :
  p ∈ ps -> writeAll ps x h !! p = (fun c => withPressure c x) <$> h !! p.
Proof. intros Hin. rewrite lookup_writeAll. by rewrite decide_True. Qed.

Lemma lookup_writeAll_notin ps x (h : heap F) p :
  p ∉ ps -> writeAll ps x h !! p = h !! p.
Proof. intros Hin. rewrite lookup_writeAll. by rewrite decide_False. Qed.

Lemma lookup_writeAll_fields ps x (h : heap F) p :
  Description <$> writeAll ps x h !! p = Description <$> h !! p /\
  CylinderVolume <$> writeAll ps x h !! p = CylinderVolume <$> h !! p.
Proof.
  rewrite lookup_writeAll. case_decide; [|done].
  destruct (h !! p); done.
Qed.

(** Claim C3.  After [Equalize] has returned, every cylinder of the group holds
    one and the same pressure: the group's pointers all read the value [x]
    (whatever the mode, and whether or not the group is empty or names a
    cylinder twice). *)
Theorem Equalize_uniform_pressure ps gasSystem gasComposition temperature verbose debug
    (h h' : heap F) evs :
  Equalize ps gasSystem gasComposition temperature verbose debug h = Some (tt, h', evs) ->
  exists x, forall p, p ∈ ps -> Pressure <$> h' !! p = Some x.
Proof.
  intros E. apply Equalize_inv in E as (cs & Hd & -> & _).
  exists (equalizedPressure gasSystem gasComposition temperature cs).
  intros p Hin. rewrite lookup_writeAll_in by done.
  destruct (derefAll_Some_lookup h ps cs p Hd Hin) as [c ->]. done.
Qed.

(** Claim C7.  In ideal-gas mode [GasVolume] is the product of the cylinder's
    volume and pressure, and [Equalize] writes to every cylinder of the group
    the quotient of the group's total gas volume by its total cylinder volume
    (both summed in the order of the group, as [TotalGasVolume] and
    [TotalVolume] do). *)
Theorem ideal_gas_mode_formulas :
  (forall (c : Cylinder F) gasComposition temperature,
     GasVolume c IdealGas gasComposition temperature = CylinderVolume c * Pressure c) /\
  (forall ps gasComposition temperature verbose debug (h h' : heap F) evs,
     Equalize ps IdealGas gasComposition temperature verbose debug h = Some (tt, h', evs) ->
     exists cs, derefAll h ps = Some cs /\
       forall p, p ∈ ps ->
         Pressure <$> h' !! p
         = Some (TotalGasVolume cs IdealGas gasComposition temperature / TotalVolume cs)).
Proof.
  split; [reflexivity|].
  intros ps gasComposition temperature verbose debug h h' evs E.
  apply Equalize_inv in E as (cs & Hd & -> & _).
  exists cs. split; [done|]. intros p Hin.
  rewrite lookup_writeAll_in by done.
  destruct (derefAll_Some_lookup h ps cs p Hd Hin) as [c ->]. done.
Qed.

(** Claim C9.  [Equalize] leaves the description and the volume of every
    cylinder of the store as they were, allocates and frees nothing, and does
    not touch a cylinder outside the group: the pressures of the group are all
    it writes. *)
Theorem Equalize_writes_only_pressure ps gasSystem gasComposition temperature verbose debug
    (h h' : heap F) evs :
  Equalize ps gasSystem gasComposition temperature verbose debug h = Some (tt, h', evs) ->
  length h' = length h /\
  (forall p, Description <$> h' !! p = Description <$> h !! p /\
             CylinderVolume <$> h' !! p = CylinderVolume <$> h !! p) /\
  (forall p, p ∉ ps -> h' !! p = h !! p).
Proof.
  intros E. apply Equalize_inv in E as (cs & Hd & -> & _).
  split; [apply length_writeAll|]. split.
  - intros p. apply lookup_writeAll_fields.
  - intros p Hp. by apply lookup_writeAll_notin.
Qed.

End EqualizeClaims.

(** ** The scenario: call structure *)

Section Pairs.

Lemma elem_of_sourceMajorPairs (sourceCylinders destinationCylinders : list ptr) s d :
  (s, d) ∈ sourceMajorPairs sourceCylinders destinationCylinders
  <-> s ∈ sourceCylinders /\ d ∈ destinationCylinders.
Proof.
  unfold sourceMajorPairs. rewrite !list_elem_of_In, in_flat_map. split.
  - intros (s' & Hs & Hd). apply in_map_iff in Hd as (d' & [= <- <-] & Hd). done.
  - intros [Hs Hd]. exists s. split; [done|]. apply in_map_iff. eauto.
Qed.

Lemma NoDup_sourceMajorPairs (sourceCylinders destinationCylinders : list ptr) :
  NoDup sourceCylinders -> NoDup destinationCylinders ->
  NoDup (sourceMajorPairs sourceCylinders destinationCylinders).
Proof.
  intros Hs Hd. induction Hs as [|s S Hnotin Hs IH]; [constructor|].
  change (sourceMajorPairs (s :: S) destinationCylinders)
    with (map (fun d => (s, d)) destinationCylinders
          ++ sourceMajorPairs S destinationCylinders).
  apply NoDup_app. split; [|split; [|done]].
  - by apply (NoDup_fmap_2 (fun d => (s, d))).
  - intros [s' d'] Hin Hin'.
    apply list_elem_of_fmap in Hin as (d & [= -> ->] & _).
    apply elem_of_sourceMajorPairs in Hin' as [Hin' _]. done.
Qed.

End Pairs.

Section ScenarioClaims.
Context {F : Type} `{Float64 F} `{MathLib F}.
Local Open Scope f64_scope.

(** [equalizeAndReport] computes the summary of the specification's scenario
    algorithm run in source-major order, whatever the three flags (the loops of
    both visiting the composition map in the order of [gasComposition]). *)
Lemma equalizeAndReport_scenario cfg gasSystem (gasComposition : GasComposition F)
    temperature verbose debug printSourceSummary :
  fst <$> equalizeAndReport cfg gasSystem gasComposition temperature
            verbose debug printSourceSummary
  = scenarioInOrder cfg gasSystem gasComposition temperature
      (sourceMajorPairs (sourcePointers cfg) (destinationPointers cfg)).
Proof.
  destruct cfg as [dt dp dv st sp sv].
  destruct dt, st, gasSystem, verbose, debug, printSourceSummary; reflexivity.
Qed.

Lemma scenarioInOrder_sourceMajor_Some cfg gasSystem (gasComposition : GasComposition F)
    temperature :
  is_Some (scenarioInOrder cfg gasSystem gasComposition temperature
             (sourceMajorPairs (sourcePointers cfg) (destinationPointers cfg))).
Proof.
  destruct cfg as [dt dp dv st sp sv].
  destruct dt, st, gasSystem; eexists; reflexivity.
Qed.

Lemma equalizeAndReport_trace cfg gasSystem (gasComposition : GasComposition F)
    temperature verbose debug printSourceSummary :
  exists summary events,
    equalizeAndReport cfg gasSystem gasComposition temperature
      verbose debug printSourceSummary = Some (summary, events) /\
    equalizeCalls events
    = map (fun '(sourceI, destinationI) => [destinationI; sourceI])
          (sourceMajorPairs (sourcePointers cfg) (destinationPointers cfg))
      ++ [destinationPointers cfg] /\
    sourcePointers cfg ∉ equalizeCalls events.
Proof.
  destruct cfg as [dt dp dv st sp sv].
  destruct dt, st, gasSystem, verbose, debug, printSourceSummary;
    (eexists _, _; split; [reflexivity|]; split; [reflexivity|]);
    cbv; intros Hin; repeat (apply elem_of_cons in Hin as [Hin|Hin]; [discriminate|]);
    by apply elem_of_nil in Hin.
Qed.

(** Claim C8.  A run of [equalizeAndReport] enters [Equalize] once for each
    (source, destination) pair, on the group of exactly these two cylinders,
    the pairs taken with the sources in the outer and the destinations in the
    inner loop, and then once more, on the destination group; it never enters
    it on the source group.  (The list of the pairs has every pair of a source
    and a destination, and none twice.) *)
Theorem equalizeAndReport_calls cfg gasSystem (gasComposition : GasComposition F)
    temperature verbose debug printSourceSummary :
  exists summary events,
    equalizeAndReport cfg gasSystem gasComposition temperature
      verbose debug printSourceSummary = Some (summary, events) /\
    equalizeCalls events
    = map (fun '(sourceI, destinationI) => [destinationI; sourceI])
          (sourceMajorPairs (sourcePointers cfg) (destinationPointers cfg))
      ++ [destinationPointers cfg] /\
    NoDup (sourceMajorPairs (sourcePointers cfg) (destinationPointers cfg)) /\
    (forall sourceI destinationI,
       (sourceI, destinationI)
         ∈ sourceMajorPairs (sourcePointers cfg) (destinationPointers cfg)
       <-> sourceI ∈ sourcePointers cfg /\ destinationI ∈ destinationPointers cfg) /\
    sourcePointers cfg ∉ equalizeCalls events.
Proof.
  destruct (equalizeAndReport_trace cfg gasSystem gasComposition temperature
              verbose debug printSourceSummary) as (summary & events & E & Hcalls & Hsrc).
  exists summary, events.
  split; [done|]. split; [done|]. split; [|split; [|done]].
  - apply NoDup_sourceMajorPairs; apply NoDup_seq.
  - intros sourceI destinationI. apply elem_of_sourceMajorPairs.
Qed.

End ScenarioClaims.

(** ** Concrete runs of [Equalize] in exact arithmetic *)

Lemma Equalize_uniform_pressure_witness :
  exists h' evs,
    Equalize [0; 1] IdealGas [] 293%R false false exampleStore = Some (tt, h', evs) /\
    exists x, forall p, p ∈ [0; 1] -> Pressure <$> h' !! p = Some x.
Proof.
  eexists _, _. split; [reflexivity|].
  exact (Equalize_uniform_pressure [0; 1] IdealGas [] 293%R false false exampleStore
           _ _ eq_refl).
Defined.

Lemma ideal_gas_mode_formulas_witness :
  exists h' evs,
    Equalize [0; 1] IdealGas [] 293%R false false exampleStore = Some (tt, h', evs) /\
    exists cs, derefAll exampleStore [0; 1] = Some cs /\
      forall p, p ∈ [0; 1] ->
        Pressure <$> h' !! p
        = Some (TotalGasVolume cs IdealGas [] 293 / TotalVolume cs)%R.
Proof.
  eexists _, _. split; [reflexivity|].
  exact (proj2 ideal_gas_mode_formulas [0; 1] [] 293%R false false exampleStore
           _ _ eq_refl).
Defined.

Lemma Equalize_writes_only_pressure_witness :
  exists h' evs,
    Equalize [0] VanDerWaals [(Nitrogen, 1%R)] 293%R false true exampleStore
    = Some (tt, h', evs) /\
    length h' = length exampleStore /\
    (forall p, Description <$> h' !! p = Description <$> exampleStore !! p /\
               CylinderVolume <$> h' !! p = CylinderVolume <$> exampleStore !! p) /\
    (forall p, p ∉ [0] -> h' !! p = exampleStore !! p).
Proof.
  eexists _, _. split; [reflexivity|].
  exact (Equalize_writes_only_pressure [0] VanDerWaals [(Nitrogen, 1%R)] 293%R false true
           exampleStore _ _ eq_refl).
Defined.

(** ** Ideal-gas mode in exact arithmetic: conservation and idempotence *)

Section RealIdealGas.
Local Open Scope R_scope.

Lemma lit_0_R : lit (F := R) 0 = 0.
Proof. cbn. unfold Q2R. cbn. lra. Qed.

Lemma foldl_Rplus_init {X : Type} (f : X -> R) (l : list X) (x : R) :
  foldl (fun a c => a + f c) x l = x + foldl (fun a c => a + f c) 0 l.
Proof.
  revert x; induction l as [|c l IH]; intros x; cbn [foldl]; [lra|].
  rewrite (IH (x + f c)), (IH (0 + f c)). lra.
Qed.

Lemma TotalVolume_cons (c : Cylinder R) cs :
  TotalVolume (c :: cs) = CylinderVolume c + TotalVolume cs.
Proof.
  unfold TotalVolume. cbn [foldl fadd Rarith]. rewrite lit_0_R.
  rewrite foldl_Rplus_init. lra.
Qed.

Lemma TotalGasVolume_ideal_cons (c : Cylinder R) cs gasComposition temperature :
  TotalGasVolume (c :: cs) IdealGas gasComposition temperature
  = CylinderVolume c * Pressure c + TotalGasVolume cs IdealGas gasComposition temperature.
Proof.
  unfold TotalGasVolume. cbn [foldl fadd fmul Rarith GasVolume]. rewrite lit_0_R.
  rewrite (foldl_Rplus_init (fun c => CylinderVolume c * Pressure c)). lra.
Qed.

Lemma TotalVolume_pos (cs : CylinderList R) :
  cs <> [] -> Forall (fun c => 0 < CylinderVolume c) cs -> 0 < TotalVolume cs.
Proof.
  intros Hne Hpos. induction Hpos as [|c cs Hc Hcs IH]; [done|].
  rewrite TotalVolume_cons. destruct cs as [|c' cs'].
  - unfold TotalVolume. cbn [foldl]. rewrite lit_0_R. lra.
  - specialize (IH ltac:(done)). lra.
Qed.

(** The total ideal gas volume of cylinders that all hold the pressure [x]. *)
Lemma TotalGasVolume_ideal_uniform (cs : CylinderList R) x gasComposition temperature :
  TotalGasVolume (map (fun c => withPressure c x) cs) IdealGas gasComposition temperature
  = TotalVolume cs * x.
Proof.
  induction cs as [|c cs IH].
  - unfold TotalGasVolume, TotalVolume. cbn [map foldl]. rewrite lit_0_R. lra.
  - cbn [map]. rewrite TotalGasVolume_ideal_cons, TotalVolume_cons, IH. cbn. lra.
Qed.

Lemma TotalVolume_uniform (cs : CylinderList R) x :
  TotalVolume (map (fun c => withPressure c x) cs) = TotalVolume cs.
Proof.
  induction cs as [|c cs IH]; [done|].
  cbn [map]. rewrite !TotalVolume_cons, IH. done.
Qed.

End RealIdealGas.

Section StoreFacts.
Context {F : Type}.

Lemma deref_writeAll_sub ps x (h : heap F) qs cs :
  (forall p, p ∈ qs -> p ∈ ps) ->
  Forall2 (fun p c => h !! p = Some c) qs cs ->
  Forall2 (fun p c => writeAll ps x h !! p = Some (withPressure c x)) qs cs.
Proof.
  intros Hin Hd. induction Hd as [|p c qs cs Hp Hd IH]; constructor.
  - rewrite lookup_writeAll_in by (apply Hin, list_elem_of_here). by rewrite Hp.
  - apply IH. intros q Hq. by apply Hin, list_elem_of_further.
Qed.

Lemma derefAll_writeAll ps x (h : heap F) cs :
  derefAll h ps = Some cs ->
  derefAll (writeAll ps x h) ps = Some (map (fun c => withPressure c x) cs).
Proof.
  intros Hd. apply mapM_Some. apply mapM_Some in Hd.
  apply Forall2_fmap_r. by apply deref_writeAll_sub.
Qed.

Lemma writeAll_writeAll ps x (h : heap F) : writeAll ps x (writeAll ps x h) = writeAll ps x h.
Proof.
  apply list_eq. intros q. rewrite !lookup_writeAll.
  case_decide; [|done]. by destruct (h !! q).
Qed.

End StoreFacts.

Section RealIdealGasClaims.
Local Open Scope R_scope.

Lemma equalizedPressure_ideal_uniform (cs : CylinderList R) x gasComposition temperature :
  0 < TotalVolume cs ->
  equalizedPressure IdealGas gasComposition temperature (map (fun c => withPressure c x) cs)
  = x.
Proof.
  intros Hpos. unfold equalizedPressure, PressureFromVolumes.
  rewrite TotalGasVolume_ideal_uniform, TotalVolume_uniform. cbn. field. lra.
Qed.

(** Claim C1, as amended.  In ideal-gas mode and exact arithmetic, [Equalize] on
    a non-empty group of cylinders of positive volume conserves the group's
    total gas volume, the sum of [CylinderVolume * Pressure] over the group. *)
Theorem Equalize_conserves_ideal_gas_volume ps gasComposition temperature verbose debug
    (h h' : heap R) evs cs :
  Equalize ps IdealGas gasComposition temperature verbose debug h = Some (tt, h', evs) ->
  derefAll h ps = Some cs ->
  ps <> [] ->
  Forall (fun c => 0 < CylinderVolume c) cs ->
  exists cs', derefAll h' ps = Some cs' /\
    TotalGasVolume cs' IdealGas gasComposition temperature
    = TotalGasVolume cs IdealGas gasComposition temperature.
Proof.
  intros E Hd Hne Hpos. apply Equalize_inv in E as (cs0 & Hd0 & -> & _).
  rewrite Hd in Hd0. injection Hd0 as <-.
  eexists. split; [by apply derefAll_writeAll|].
  assert (Hcs : cs <> []).
  { intros ->. apply mapM_Some in Hd. apply Forall2_nil_inv_r in Hd. done. }
  pose proof (TotalVolume_pos cs Hcs Hpos) as HV.
  rewrite TotalGasVolume_ideal_uniform.
  unfold equalizedPressure, PressureFromVolumes. cbn. field. lra.
Qed.

(** Claim C5, as amended.  In ideal-gas mode and exact arithmetic, a second
    [Equalize] on a non-empty group of cylinders of positive volume that a first
    one has equalized returns and leaves the store, hence every pressure, as it
    is. *)
Theorem Equalize_idempotent_ideal_gas ps gasComposition temperature verbose debug
    verbose' debug' (h h' : heap R) evs cs :
  Equalize ps IdealGas gasComposition temperature verbose debug h = Some (tt, h', evs) ->
  derefAll h ps = Some cs ->
  ps <> [] ->
  Forall (fun c => 0 < CylinderVolume c) cs ->
  exists evs',
    Equalize ps IdealGas gasComposition temperature verbose' debug' h' = Some (tt, h', evs').
Proof.
  intros E Hd Hne Hpos. apply Equalize_inv in E as (cs0 & Hd0 & -> & _).
  rewrite Hd in Hd0. injection Hd0 as <-.
  assert (Hcs : cs <> []).
  { intros ->. apply mapM_Some in Hd. apply Forall2_nil_inv_r in Hd. done. }
  pose proof (TotalVolume_pos cs Hcs Hpos) as HV.
  set (x := equalizedPressure IdealGas gasComposition temperature cs).
  destruct (Equalize_Some ps IdealGas gasComposition temperature verbose' debug'
              (writeAll ps x h) _ (derefAll_writeAll ps x h cs Hd)) as (evs' & E' & _).
  exists evs'. rewrite E'.
  rewrite equalizedPressure_ideal_uniform by done.
  by rewrite writeAll_writeAll.
Qed.

End RealIdealGasClaims.

Lemma Equalize_conserves_ideal_gas_volume_witness :
  exists h' evs cs,
    Equalize [0; 1] IdealGas [] 293%R false false exampleStore = Some (tt, h', evs) /\
    derefAll exampleStore [0; 1] = Some cs /\
    exists cs', derefAll h' [0; 1] = Some cs' /\
      TotalGasVolume cs' IdealGas [] 293%R = TotalGasVolume cs IdealGas [] 293%R.
Proof.
  eexists _, _, _. split; [reflexivity|]. split; [reflexivity|].
  refine (Equalize_conserves_ideal_gas_volume [0; 1] [] 293%R false false exampleStore
            _ _ _ eq_refl eq_refl _ _).
  - done.
  - repeat constructor; cbn; lra.
Defined.

Lemma Equalize_idempotent_ideal_gas_witness :
  exists h' evs,
    Equalize [0; 1] IdealGas [] 293%R false false exampleStore = Some (tt, h', evs) /\
    exists evs', Equalize [0; 1] IdealGas [] 293%R true true h' = Some (tt, h', evs').
Proof.
  eexists _, _. split; [reflexivity|].
  refine (Equalize_idempotent_ideal_gas [0; 1] [] 293%R false false true true exampleStore
            _ _ _ eq_refl eq_refl _ _).
  - done.
  - repeat constructor; cbn; lra.
Defined.

(** ** The first revision, and binary64 *)

Section AppGoLink.
Context {F : Type} `{Float64 F} `{MathLib F}.

(** In ideal-gas mode the latest [Equalize] is the [Equalize] of [app.go]. *)
Lemma Equalize_IdealGas_AppGo ps (gasComposition : GasComposition F) temperature
    verbose debug (h : heap F) :
  Equalize ps IdealGas gasComposition temperature verbose debug h
  = AppGo.Equalize ps verbose debug h.
Proof.
  unfold Equalize, AppGo.Equalize, AppGo.GasVolume, GasVolume, PressureFromVolumes.
  unfold mbind, M_bind. cbn [emit].
  destruct (foldM _ _ ps h) as [[[[g v] h1] o1]|]; [|done].
  cbn [mret M_ret]. destruct (forM_ ps _ h1) as [[[u h2] o2]|]; [|done].
  by rewrite app_nil_r.
Qed.

End AppGoLink.

(** In binary64, [Equalize] of [app.go] on a cylinder of 8.5 l at 336 bar and
    one of 24 l at 259 bar gives both the pressure 279.13846153846151; a second
    call on the equalized pair moves both to 279.13846153846146. *)
Lemma AppGo_Equalize_twice_binary64 :
  exists h' h'' evs evs',
    AppGo.Equalize [0; 1] false false floatStore = Some (tt, h', evs) /\
    AppGo.Equalize [0; 1] false false h' = Some (tt, h'', evs') /\
    Pressure <$> h'' !! 0 <> Pressure <$> h' !! 0.
Proof.
  eexists _, _, _, _. split; [vm_compute; reflexivity|]. split; [vm_compute; reflexivity|].
  intros Heq.
  apply (f_equal (fun o => match o with
                           | Some x => PrimFloat.ltb x 0x1.1723723723723p+8%float
                           | None => false
                           end)) in Heq.
  vm_compute in Heq. discriminate.
Qed.

(** ** The order of the pairwise steps *)

Section OrderAmended.
Context {F : Type} `{Float64 F} `{MathLib F}.
Local Open Scope f64_scope.

Ltac swap_sums Hswap :=
  repeat match goal with
         | |- ?L = ?R =>
             match L with
             | context [(lit 0 + ?x + ?y)%f64] =>
                 match R with
                 | context [(lit 0 + y + x)%f64] =>
                     tryif constr_eq x y then fail else rewrite (Hswap x y)
                 end
             end
         end;
  reflexivity.

Ltac normalize_scenario :=
  cbv -[fadd fmul fdiv fsub fopp lit gasCompositionToMoles cylinderMolesToPressure
        GasToMoles];
  generalize (@gasCompositionToMoles F _ _), (@cylinderMolesToPressure F _ _),
             (@GasToMoles F _ _);
  intros ? ? ?.

(** With at most one twinset there are at most two pairwise steps, and the two
    cylinders of the twinset start with the same volume and pressure: to
    exchange the steps exchanges the values the two cylinders end with, the two
    terms of the sums over their group. *)
Lemma scenarioInOrder_pair_order
    cfg gasSystem (gasComposition : GasComposition F) temperature order :
  (forall x y : F, lit 0 + x + y = lit 0 + y + x) ->
  SourceCylinderIsTwinset cfg && DestinationCylinderIsTwinset cfg = false ->
  order ≡ₚ sourceMajorPairs (sourcePointers cfg) (destinationPointers cfg) ->
  scenarioInOrder cfg gasSystem gasComposition temperature order
  = scenarioInOrder cfg gasSystem gasComposition temperature
      (sourceMajorPairs (sourcePointers cfg) (destinationPointers cfg)).
Proof.
  intros Hswap Hone Hperm.
  destruct cfg as [dt dp dv st sp sv]. cbn in Hone.
  destruct st, dt; try discriminate Hone; cbv in Hperm;
    symmetry in Hperm.
  - apply Permutation_length_2_inv in Hperm as [->| ->]; [reflexivity|].
    destruct gasSystem; normalize_scenario; swap_sums Hswap.
  - apply Permutation_length_2_inv in Hperm as [->| ->]; [reflexivity|].
    destruct gasSystem; normalize_scenario; swap_sums Hswap.
  - apply Permutation_length_1_inv in Hperm as ->. reflexivity.
Qed.
End OrderAmended.

Section PairOrder.
Local Open Scope R_scope.

Lemma swap_sum_R (x y : R) : (lit 0 + x + y)%f64 = (lit 0 + y + x)%f64.
Proof. cbn. lra. Qed.

Ltac real_constant :=
  cbn -[Rplus Rmult Rdiv Rminus Q2R]; unfold PressureFromVolumes;
  cbn -[Rplus Rmult Rdiv Rminus Q2R]; unfold Q2R;
  cbn -[Rplus Rmult Rdiv Rminus Rinv IZR]; field.

(** Claim C4, counterexample.  In ideal-gas mode, for a source twinset of 24 l
    at 210 bar and a destination twinset of 17 l at 80 bar, the four pairwise
    steps taken in the order (first source, first destination), (second,
    second), (first, second), (second, first) leave the destination more than
    18 bar below what [equalizeAndReport] reports (156.1 bar for 174.6 bar). *)
Lemma scenario_depends_on_pair_order :
  diagonalFirstOrder
    ≡ₚ sourceMajorPairs (sourcePointers exampleConfiguration)
         (destinationPointers exampleConfiguration) /\
  exists summary summary',
    fst <$> equalizeAndReport exampleConfiguration IdealGas [] 293 false false false
    = Some summary /\
    scenarioInOrder exampleConfiguration IdealGas [] 293 diagonalFirstOrder
    = Some summary' /\
    18 < Summary_DestinationCylinderPressure summary
         - Summary_DestinationCylinderPressure summary'.
Proof.
  split.
  - cbv. apply perm_skip. apply (Permutation_cons_append [(0, 3); (1, 2)]%nat (1, 3)%nat).
  - eexists _, _. split; [reflexivity|]. split; [reflexivity|].
    match goal with
    | |- 18 < ?x - ?y =>
        replace x with (12031360 / 68921) by real_constant;
        replace y with (6400 / 41) by real_constant
    end.
    lra.
Qed.

(** The example of the README (ideal gas, both manifolds closed): 3432 l and
    143 bar in the source, 2968 l and 175 bar in the destination. *)
Example README_both_manifolds_closed :
  exists summary events,
    equalizeAndReport exampleConfiguration IdealGas [] 293 false false true
    = Some (summary, events) /\
    Summary_Description summary = "both manifolds closed"%string /\
    Summary_SourceCylinderGasVolume summary = 236561280 / 68921 /\
    Summary_SourceCylinderPressure summary = 9856720 / 68921 /\
    Summary_DestinationCylinderGasVolume summary = 204533120 / 68921 /\
    Summary_DestinationCylinderPressure summary = 12031360 / 68921 /\
    3432 < 236561280 / 68921 < 3432.5 /\ 143 < 9856720 / 68921 < 143.5 /\
    2967.5 < 204533120 / 68921 < 2968 /\ 174.5 < 12031360 / 68921 < 175.
Proof.
  eexists _, _. split; [reflexivity|]. split; [reflexivity|].
  split; [real_constant|]. split; [real_constant|].
  split; [real_constant|]. split; [real_constant|]. lra.
Qed.

(** The same with all manifolds open: both sides end at 156 bar. *)
Example README_all_manifolds_open :
  exists summary events,
    equalizeAndReport openConfiguration IdealGas [] 293 false false true
    = Some (summary, events) /\
    Summary_Description summary = "all manifolds open"%string /\
    Summary_SourceCylinderPressure summary = 6400 / 41 /\
    Summary_DestinationCylinderPressure summary = 6400 / 41 /\
    156 < 6400 / 41 < 156.5.
Proof.
  eexists _, _. split; [reflexivity|]. split; [reflexivity|].
  split; [real_constant|]. split; [real_constant|]. lra.
Qed.

End PairOrder.

(** ** The equation of state over the reals *)

Section RealSolver.
Local Open Scope R_scope.

Lemma lit_R (q : Q) : lit (F := R) q = Q2R q.
Proof. reflexivity. Qed.

Lemma Rpow_integer (x y : R) (z : Z) : y = IZR z -> Rpow x y = powerRZ x z.
Proof.
  intros ->. unfold Rpow.
  assert (E : Int_part (IZR z) = z).
  { symmetry. apply Int_part_spec. lra. }
  rewrite E. destruct (Req_dec_T (IZR z) (IZR z)); [done|lra].
Qed.

Lemma Rpow_2 (x : R) : Pow x (lit 2) = x ^ 2.
Proof.
  cbn [Pow Rmath]. rewrite (Rpow_integer x _ 2).
  - reflexivity.
  - rewrite lit_R. unfold Q2R. cbn. lra.
Qed.

Lemma Rpow_3 (x : R) : Pow x (lit 3) = x ^ 3.
Proof.
  cbn [Pow Rmath]. rewrite (Rpow_integer x _ 3).
  - reflexivity.
  - rewrite lit_R. unfold Q2R. cbn. lra.
Qed.

Lemma Rpow_third (x : R) : Pow x (lit (1 # 3)) = Rpower x (/ 3).
Proof.
  cbn [Pow Rmath]. rewrite lit_R. unfold Q2R. cbn [Qnum Qden].
  replace (1 * / 3) with (/ 3) by lra.
  unfold Rpow. destruct (Req_dec_T (/ 3) (IZR (Int_part (/ 3)))) as [E|]; [|done].
  exfalso. assert (E3 : IZR (3 * Int_part (/ 3)) = 1) by (rewrite mult_IZR, <- E; lra).
  apply eq_IZR in E3. lia.
Qed.

(** [GasToMoles] over the reals is the closed form. *)
Lemma GasToMoles_closedForm (V P a b T : R) :
  GasToMoles V P {| A := a; B := b |} T
  = closedFormR a b V (subterm2R a b V T P)
      (Rpower (subterm1R a b V T P
               + R_sqrt.sqrt (4 * subterm2R a b V T P ^ 3 + subterm1R a b V T P ^ 2))
              (/ 3)).
Proof.
  unfold GasToMoles. cbv zeta. rewrite Rpow_third, !Rpow_2, !Rpow_3.
  unfold Rgas. rewrite !lit_R. unfold Q2R. cbn -[pow Rpower R_sqrt.sqrt].
  unfold closedFormR, subterm1R, subterm2R.
  match goal with
  | |- _ * Rpower ?x _ / _ - _ * ?s / (_ * _ * Rpower ?x' _) + _ = 
       _ * Rpower ?y _ / _ - _ * ?s' / (_ * _ * Rpower ?y' _) + _ =>
      replace x with y by (f_equal; [lra | f_equal; lra]);
      replace s with s' by lra
  end.
  lra.
Qed.

Lemma MolesToPressure_real (V n T a b : R) :
  MolesToPressure V n T {| A := a; B := b |}
  = n * (- (a * n) / V ^ 2 - 831 / 10000 * T / (b * n - V)).
Proof.
  unfold MolesToPressure. cbv zeta. rewrite Rpow_2.
  unfold Rgas. rewrite lit_R. unfold Q2R. cbn -[pow]. done.
Qed.

Lemma sqrt_between (x l u : R) :
  0 <= l -> l * l <= x -> x <= u * u -> 0 <= u -> l <= R_sqrt.sqrt x <= u.
Proof.
  intros Hl Hlx Hxu Hu. split.
  - rewrite <- (sqrt_square l Hl). by apply sqrt_le_1_alt.
  - rewrite <- (sqrt_square u Hu). by apply sqrt_le_1_alt.
Qed.

Lemma Rpower_cube_third (x : R) : 0 < x -> Rpower (x * x * x) (/ 3) = x.
Proof.
  intros Hx. replace (x * x * x) with (Rpower x 3).
  - rewrite Rpower_mult. replace (3 * / 3) with 1 by lra. by apply Rpower_1.
  - replace 3 with (INR 3) by (simpl; lra). rewrite Rpower_pow by done. simpl. lra.
Qed.

Lemma cbrt_between (x l u : R) :
  0 < l -> l * l * l <= x -> x <= u * u * u -> 0 < u -> l <= Rpower x (/ 3) <= u.
Proof.
  intros Hl Hlx Hxu Hu.
  assert (Hl3 : 0 < l * l * l) by (repeat apply Rmult_lt_0_compat; done).
  split.
  - rewrite <- (Rpower_cube_third l Hl) at 1. apply Rle_Rpower_l; lra.
  - rewrite <- (Rpower_cube_third u Hu). apply Rle_Rpower_l; lra.
Qed.

Lemma Rdiv_le_cross (x1 d1 x2 d2 : R) :
  0 < d1 -> 0 < d2 -> x1 * d2 <= x2 * d1 -> x1 / d1 <= x2 / d2.
Proof.
  intros H1 H2 Hc.
  apply (Rmult_le_reg_r (d1 * d2)); [by apply Rmult_lt_0_compat|].
  replace (x1 / d1 * (d1 * d2)) with (x1 * d2) by (field; lra).
  replace (x2 / d2 * (d1 * d2)) with (x2 * d1) by (field; lra).
  done.
Qed.

(** The closed form grows with the cube root and falls with [subterm2]. *)
Lemma closedFormR_between (a b V s2 s2l s2h c cl ch : R) :
  0 < a -> 0 < b -> 0 <= s2l <= s2 -> s2 <= s2h -> 0 < cl <= c -> c <= ch ->
  closedFormR a b V s2h cl <= closedFormR a b V s2 c <= closedFormR a b V s2l ch.
Proof.
  intros Ha Hb [H0 Hs2l] Hs2h [Hcl Hc] Hch. unfold closedFormR.
  assert (Hab : 0 < a * b) by (by apply Rmult_lt_0_compat).
  assert (T1l : 0.26457 * cl / (a * b) <= 0.26457 * c / (a * b)).
  { apply Rdiv_le_cross; try done. nra. }
  assert (T1h : 0.26457 * c / (a * b) <= 0.26457 * ch / (a * b)).
  { apply Rdiv_le_cross; try done. nra. }
  assert (T3l : 0.41997 * s2l / (a * b * ch) <= 0.41997 * s2 / (a * b * c)).
  { apply Rdiv_le_cross; try (apply Rmult_lt_0_compat; lra).
    assert (s2l * c <= s2 * ch) by nra. nra. }
  assert (T3h : 0.41997 * s2 / (a * b * c) <= 0.41997 * s2h / (a * b * cl)).
  { apply Rdiv_le_cross; try (apply Rmult_lt_0_compat; lra).
    assert (s2 * cl <= s2h * c) by nra. nra. }
  lra.
Qed.

(** Bounds for [GasToMoles] from bounds of [subterm1] (not positive) and
    [subterm2] (positive) and rational enclosures [rl, rh] of the square root
    and [cl, ch] of the cube root. *)
Lemma GasToMoles_between (a b V T P s1l s1h s2l s2h rl rh cl ch : R) :
  0 < a -> 0 < b ->
  s1l <= subterm1R a b V T P <= s1h -> s1h <= 0 ->
  0 < s2l <= subterm2R a b V T P -> subterm2R a b V T P <= s2h ->
  0 <= rl -> rl * rl <= 4 * s2l ^ 3 + s1h ^ 2 ->
  0 <= rh -> 4 * s2h ^ 3 + s1l ^ 2 <= rh * rh ->
  0 < cl -> cl * cl * cl <= s1l + rl ->
  0 < ch -> s1h + rh <= ch * ch * ch ->
  closedFormR a b V s2h cl <= GasToMoles V P {| A := a; B := b |} T
  <= closedFormR a b V s2l ch.
Proof.
  intros Ha Hb [Hs1l Hs1h] Hneg [Hs2pos Hs2l] Hs2h Hrl Hrl2 Hrh Hrh2 Hcl Hcl3 Hch Hch3.
  rewrite GasToMoles_closedForm.
  set (s1 := subterm1R a b V T P) in *. set (s2 := subterm2R a b V T P) in *.
  assert (Hsq : s1h ^ 2 <= s1 ^ 2 <= s1l ^ 2) by nra.
  assert (Hcu : s2l ^ 3 <= s2 ^ 3 <= s2h ^ 3).
  { split; apply pow_incr; lra. }
  destruct (sqrt_between (4 * s2 ^ 3 + s1 ^ 2) rl rh) as [Hr1 Hr2]; try lra.
  destruct (cbrt_between (s1 + R_sqrt.sqrt (4 * s2 ^ 3 + s1 ^ 2)) cl ch) as [Hc1 Hc2];
    try lra.
  apply closedFormR_between; try done; lra.
Qed.

Lemma MolesToPressure_between (a b V T n nl nh : R) :
  0 < a -> 0 < b -> 0 < T -> 0 <= nl <= n -> n <= nh -> b * nh < V ->
  - (a * nh ^ 2) / V ^ 2 + nl * (831 / 10000 * T) / (V - b * nl)
  <= MolesToPressure V n T {| A := a; B := b |}
  <= - (a * nl ^ 2) / V ^ 2 + nh * (831 / 10000 * T) / (V - b * nh).
Proof.
  intros Ha Hb HT [Hnl Hn] Hnh HV. rewrite MolesToPressure_real.
  assert (HVpos : 0 < V) by nra.
  assert (HV2 : 0 < V ^ 2) by nra.
  replace (n * (- (a * n) / V ^ 2 - 831 / 10000 * T / (b * n - V)))
    with (- (a * n ^ 2) / V ^ 2 + n * (831 / 10000 * T) / (V - b * n))
    by (field; nra).
  assert (Hinv : 0 <= / V ^ 2) by (left; by apply Rinv_0_lt_compat).
  assert (Q1 : - (a * nh ^ 2) / V ^ 2 <= - (a * n ^ 2) / V ^ 2).
  { apply Rmult_le_compat_r; [done|]. assert (n ^ 2 <= nh ^ 2) by nra. nra. }
  assert (Q2 : - (a * n ^ 2) / V ^ 2 <= - (a * nl ^ 2) / V ^ 2).
  { apply Rmult_le_compat_r; [done|]. assert (nl ^ 2 <= n ^ 2) by nra. nra. }
  assert (Q3 : nl * (831 / 10000 * T) / (V - b * nl) <= n * (831 / 10000 * T) / (V - b * n)).
  { apply Rdiv_le_cross; try nra. assert (nl * T <= n * T) by nra. nra. }
  assert (Q4 : n * (831 / 10000 * T) / (V - b * n) <= nh * (831 / 10000 * T) / (V - b * nh)).
  { apply Rdiv_le_cross; try nra. assert (n * T <= nh * T) by nra. nra. }
  lra.
Qed.

(** [MolesToPressure] returns the pressure of the Van der Waals equation, and
    no other. *)
Lemma MolesToPressure_VanDerWaals (a b V T n P : R) :
  V <> 0 -> b * n <> V ->
  MolesToPressure V n T {| A := a; B := b |} = P <-> VanDerWaalsEquation a b V T n P.
Proof.
  intros HV Hbn. rewrite MolesToPressure_real. unfold VanDerWaalsEquation.
  assert (Hd : V - n * b <> 0) by (intros E; apply Hbn; lra).
  split.
  - intros <-. field. split; [done|]. intros E. apply Hbn. lra.
  - intros E.
    apply (Rmult_eq_reg_r (V - n * b)); [|done].
    assert (E' : n * (- (a * n) / V ^ 2 - 831 / 10000 * T / (b * n - V)) * (V - n * b)
                 = n * (831 / 10000) * T - a * n ^ 2 / V ^ 2 * (V - n * b)).
    { field. split; [done|]. intros E'. apply Hbn. lra. }
    lra.
Qed.

(** In the volume the closed form is homogeneous of degree one. *)
Lemma GasToMoles_homogeneous (a b V T P : R) :
  0 < a -> 0 < b -> 0 < V ->
  0 < subterm1R a b 1 T P
      + R_sqrt.sqrt (4 * subterm2R a b 1 T P ^ 3 + subterm1R a b 1 T P ^ 2) ->
  0 <= 4 * subterm2R a b 1 T P ^ 3 + subterm1R a b 1 T P ^ 2 ->
  GasToMoles V P {| A := a; B := b |} T = V * GasToMoles 1 P {| A := a; B := b |} T.
Proof.
  intros Ha Hb HV Hx HD. rewrite !GasToMoles_closedForm.
  set (s1 := subterm1R a b 1 T P) in *. set (s2 := subterm2R a b 1 T P) in *.
  assert (E1 : subterm1R a b V T P = V ^ 3 * s1) by (unfold s1, subterm1R; ring).
  assert (E2 : subterm2R a b V T P = V ^ 2 * s2) by (unfold s2, subterm2R; ring).
  rewrite E1, E2.
  replace (4 * (V ^ 2 * s2) ^ 3 + (V ^ 3 * s1) ^ 2)
    with ((V ^ 3 * V ^ 3) * (4 * s2 ^ 3 + s1 ^ 2)) by ring.
  assert (HV3 : 0 < V ^ 3) by (apply pow_lt; done).
  rewrite sqrt_mult by nra. rewrite sqrt_square by lra.
  replace (V ^ 3 * s1 + V ^ 3 * R_sqrt.sqrt (4 * s2 ^ 3 + s1 ^ 2))
    with (V * V * V * (s1 + R_sqrt.sqrt (4 * s2 ^ 3 + s1 ^ 2))) by ring.
  rewrite <- Rpower_mult_distr by (try done; nra).
  rewrite Rpower_cube_third by done.
  set (c := Rpower (s1 + R_sqrt.sqrt (4 * s2 ^ 3 + s1 ^ 2)) (/ 3)).
  assert (Hc : 0 < c) by apply exp_pos.
  unfold closedFormR. field. repeat split; lra.
Qed.

Lemma Rpower_third_cube (x : R) : 0 < x -> Rpower x (/ 3) ^ 3 = x.
Proof.
  intros Hx. rewrite <- Rpower_pow by apply exp_pos.
  rewrite Rpower_mult. replace (/ 3 * INR 3) with 1 by (simpl; lra).
  by apply Rpower_1.
Qed.

Lemma cubeRootOfTwo_cube : cubeRootOfTwo ^ 3 = 2.
Proof. apply Rpower_third_cube. lra. Qed.

Lemma cubeRootOfTwo_pos : 0 < cubeRootOfTwo.
Proof. apply exp_pos. Qed.

(** Cardano's formula: with [c^3 = 2], [s3^3 = s1 + r] and
    [r^2 = 4 s2^3 + s1^2], the sum of [s3 / (3 c a b)] and
    [- c s2 / (3 a b s3)] is a root of the depressed cubic. *)
Lemma depressed_cubic_root (a b c s1 s2 s3 r : R) :
  a <> 0 -> b <> 0 -> c ^ 3 = 2 -> s1 + r <> 0 ->
  s3 ^ 3 = s1 + r -> r ^ 2 = 4 * s2 ^ 3 + s1 ^ 2 ->
  let y := s3 / (3 * c * a * b) - c * s2 / (3 * a * b * s3) in
  y ^ 3 + s2 / (3 * a ^ 2 * b ^ 2) * y - s1 / (27 * a ^ 3 * b ^ 3) = 0.
Proof.
  intros Ha Hb Hc Hx Hs3 Hr y.
  assert (Hc0 : c <> 0) by (intros ->; lra).
  assert (Hs0 : s3 <> 0).
  { intros E. rewrite E in Hs3. apply Hx. rewrite <- Hs3. ring. }
  set (t := s3 / (3 * c * a * b)). set (w := - (c * s2 / (3 * a * b * s3))).
  assert (Ey : y = t + w) by (unfold y, t, w; ring).
  assert (Ht : t ^ 3 = (s1 + r) / (54 * a ^ 3 * b ^ 3)).
  { unfold t. rewrite <- Hs3.
    replace (54 * a ^ 3 * b ^ 3) with (27 * c ^ 3 * a ^ 3 * b ^ 3) by (rewrite Hc; ring).
    field. repeat split; done. }
  assert (Hs2 : 4 * s2 ^ 3 = (r - s1) * (s1 + r)) by (rewrite <- (Rplus_0_r (4 * s2 ^ 3)); nra).
  assert (Hw : w ^ 3 = - (r - s1) / (54 * a ^ 3 * b ^ 3)).
  { unfold w.
    replace ((- (c * s2 / (3 * a * b * s3))) ^ 3)
      with (- (c ^ 3 * (4 * s2 ^ 3)) / (108 * a ^ 3 * b ^ 3 * s3 ^ 3))
      by (field; repeat split; done).
    rewrite Hc, Hs2, Hs3. field. repeat split; done. }
  assert (Htw : t * w = - s2 / (9 * a ^ 2 * b ^ 2)).
  { unfold t, w. field. repeat split; done. }
  rewrite Ey.
  replace ((t + w) ^ 3) with (t ^ 3 + w ^ 3 + 3 * (t * w) * (t + w)) by ring.
  rewrite Ht, Hw, Htw. field. split; done.
Qed.

(** Where [subterm2] is positive, so is the argument of the cube root. *)
Lemma subterm3R_argument_positive (s1 s2 : R) :
  0 < s2 -> 0 <= 4 * s2 ^ 3 + s1 ^ 2 /\ 0 < s1 + R_sqrt.sqrt (4 * s2 ^ 3 + s1 ^ 2).
Proof.
  intros Hs2. assert (H3 : 0 < s2 ^ 3) by (by apply pow_lt).
  assert (Hsq : 0 <= s1 ^ 2) by apply pow2_ge_0.
  split; [lra|].
  destruct (Rle_or_lt 0 s1) as [Hpos|Hneg].
  - assert (0 < R_sqrt.sqrt (4 * s2 ^ 3 + s1 ^ 2)) by (apply sqrt_lt_R0; lra). lra.
  - assert (Hlt : R_sqrt.sqrt (- s1 * - s1) < R_sqrt.sqrt (4 * s2 ^ 3 + s1 ^ 2)).
    { apply sqrt_lt_1_alt. nra. }
    rewrite sqrt_square in Hlt by lra. lra.
Qed.

(** The closed form with the exact coefficients solves the Van der Waals
    equation. *)
Lemma exactFormR_solves (a b V T P : R) :
  0 < a -> 0 < b -> 0 < V ->
  0 <= 4 * subterm2R a b V T P ^ 3 + subterm1R a b V T P ^ 2 ->
  0 < subterm1R a b V T P
      + R_sqrt.sqrt (4 * subterm2R a b V T P ^ 3 + subterm1R a b V T P ^ 2) ->
  VanDerWaalsEquation a b V T
    (exactFormR a b V (subterm2R a b V T P) (subterm3R a b V T P)) P.
Proof.
  intros Ha Hb HV HD Hx. unfold subterm3R.
  set (s1 := subterm1R a b V T P) in *. set (s2 := subterm2R a b V T P) in *.
  set (r := R_sqrt.sqrt (4 * s2 ^ 3 + s1 ^ 2)) in *.
  set (s3 := Rpower (s1 + r) (/ 3)).
  assert (Hr : r ^ 2 = 4 * s2 ^ 3 + s1 ^ 2).
  { unfold r. replace (R_sqrt.sqrt (4 * s2 ^ 3 + s1 ^ 2) ^ 2)
      with (R_sqrt.sqrt (4 * s2 ^ 3 + s1 ^ 2) * R_sqrt.sqrt (4 * s2 ^ 3 + s1 ^ 2)) by ring.
    by apply sqrt_sqrt. }
  assert (Hs3 : s3 ^ 3 = s1 + r) by (by apply Rpower_third_cube).
  assert (Hs3pos : 0 < s3) by apply exp_pos.
  pose proof cubeRootOfTwo_cube as Hc. pose proof cubeRootOfTwo_pos as Hcpos.
  pose proof (depressed_cubic_root a b cubeRootOfTwo s1 s2 s3 r) as Hy.
  cbv zeta in Hy. specialize (Hy ltac:(lra) ltac:(lra) Hc ltac:(lra) Hs3 Hr).
  set (y := s3 / (3 * cubeRootOfTwo * a * b) - cubeRootOfTwo * s2 / (3 * a * b * s3)) in *.
  assert (En : exactFormR a b V s2 s3 = V / (3 * b) + y).
  { unfold exactFormR, y. field. repeat split; lra. }
  rewrite En. unfold VanDerWaalsEquation.
  assert (Hcubic : a * b * (V / (3 * b) + y) ^ 3 - a * V * (V / (3 * b) + y) ^ 2
                   + (P * b + 831 / 10000 * T) * V ^ 2 * (V / (3 * b) + y) - P * V ^ 3 = 0).
  { replace (a * b * (V / (3 * b) + y) ^ 3 - a * V * (V / (3 * b) + y) ^ 2
             + (P * b + 831 / 10000 * T) * V ^ 2 * (V / (3 * b) + y) - P * V ^ 3)
      with (a * b * (y ^ 3 + s2 / (3 * a ^ 2 * b ^ 2) * y - s1 / (27 * a ^ 3 * b ^ 3))).
    - rewrite Hy. ring.
    - unfold s1, s2, subterm1R, subterm2R. field. split; lra. }
  set (n := V / (3 * b) + y) in *.
  apply (Rmult_eq_reg_r (V ^ 2)); [|apply pow_nonzero; lra].
  replace ((P + a * n ^ 2 / V ^ 2) * (V - n * b) * V ^ 2)
    with ((P * V ^ 2 + a * n ^ 2) * (V - n * b)) by (field; lra).
  lra.
Qed.

(** The moles of the Van der Waals equation never fill the volume. *)
Lemma VanDerWaalsEquation_volume (a b V T n P : R) :
  V <> 0 -> T <> 0 -> VanDerWaalsEquation a b V T n P -> b * n <> V.
Proof.
  unfold VanDerWaalsEquation. intros HV HT E Hbn.
  replace (V - n * b) with 0 in E by lra. rewrite Rmult_0_r in E.
  assert (Hn : n = 0) by nra. rewrite Hn in Hbn. lra.
Qed.

(** [GasToMoles] is the closed form with the exact coefficients, plus
    [truncationError]. *)
Lemma GasToMoles_truncation (V P a b T : R) :
  GasToMoles V P {| A := a; B := b |} T - truncationError V P {| A := a; B := b |} T
  = exactFormR a b V (subterm2R a b V T P) (subterm3R a b V T P).
Proof.
  rewrite GasToMoles_closedForm. unfold truncationError, closedFormR, exactFormR, subterm3R.
  cbn [A B]. lra.
Qed.

(** From the moles of [GasToMoles] less the truncation error,
    [MolesToPressure] returns the pressure [GasToMoles] was given. *)
Lemma GasToMoles_roundtrip_real (V P a b T : R) :
  0 < a -> 0 < b -> 0 < V -> 0 < T ->
  a < 3 * b * (b * P + 831 / 10000 * T) ->
  MolesToPressure V
    (GasToMoles V P {| A := a; B := b |} T - truncationError V P {| A := a; B := b |} T)
    T {| A := a; B := b |}
  = P.
Proof.
  intros Ha Hb HV HT Hab. rewrite GasToMoles_truncation.
  assert (Hs2 : 0 < subterm2R a b V T P).
  { unfold subterm2R.
    replace (3 * a * b * (b * P * V ^ 2 + 831 / 10000 * T * V ^ 2) - a ^ 2 * V ^ 2)
      with (a * V ^ 2 * (3 * b * (b * P + 831 / 10000 * T) - a)) by ring.
    apply Rmult_lt_0_compat; [|lra]. apply Rmult_lt_0_compat; [done|]. by apply pow_lt. }
  destruct (subterm3R_argument_positive (subterm1R a b V T P) _ Hs2) as [HD Hx].
  pose proof (exactFormR_solves a b V T P Ha Hb HV HD Hx) as Hvdw.
  apply MolesToPressure_VanDerWaals; [lra| |done].
  apply (VanDerWaalsEquation_volume a b V T _ P); [lra|lra|done].
Qed.

(** The pressure of [V * m] moles in the volume [V] is the pressure of [m]
    moles in one litre. *)
Lemma MolesToPressure_scale (a b V m T : R) :
  V <> 0 ->
  MolesToPressure V (V * m) T {| A := a; B := b |}
  = MolesToPressure 1 m T {| A := a; B := b |}.
Proof.
  intros HV. rewrite !MolesToPressure_real.
  destruct (Req_dec_T (b * m) 1) as [E|E].
  - replace (b * (V * m) - V) with 0 by (replace (b * (V * m)) with (V * (b * m)) by ring;
                                         rewrite E; ring).
    replace (b * m - 1) with 0 by lra.
    unfold Rdiv. rewrite Rinv_0. field. done.
  - field. repeat split; try done.
    + intros E'. apply E. lra.
    + intros E'. apply E.
      apply (Rmult_eq_reg_l V); [|done]. lra.
Qed.

(** The round trip does not depend on the volume. *)
Lemma GasToMoles_roundtrip_volume (V P a b T : R) :
  0 < a -> 0 < b -> 0 < V ->
  a < 3 * b * (b * P + 831 / 10000 * T) ->
  MolesToPressure V (GasToMoles V P {| A := a; B := b |} T) T {| A := a; B := b |}
  = MolesToPressure 1 (GasToMoles 1 P {| A := a; B := b |} T) T {| A := a; B := b |}.
Proof.
  intros Ha Hb HV Hab.
  assert (Hs2 : 0 < subterm2R a b 1 T P).
  { unfold subterm2R.
    replace (3 * a * b * (b * P * 1 ^ 2 + 831 / 10000 * T * 1 ^ 2) - a ^ 2 * 1 ^ 2)
      with (a * (3 * b * (b * P + 831 / 10000 * T) - a)) by ring.
    apply Rmult_lt_0_compat; lra. }
  destruct (subterm3R_argument_positive (subterm1R a b 1 T P) _ Hs2) as [HD Hx].
  rewrite (GasToMoles_homogeneous a b V T P Ha Hb HV Hx HD).
  apply MolesToPressure_scale. lra.
Qed.

(** The constants of the table are positive, and within the hypothesis of
    [GasToMoles_roundtrip_real] from 175 K on. *)
Lemma table_constants (g : Gas) :
  exists a b, VanDerWaalsConstants (F := R) g = {| A := a; B := b |} /\
    0 < a /\ 0 < b /\ a < 3 * b * (831 / 10000 * 175).
Proof.
  destruct g; cbn [VanDerWaalsConstants]; rewrite !lit_R; unfold Q2R; cbn;
    eexists _, _; (split; [reflexivity|]); lra.
Qed.

End RealSolver.

(** ** The solver on a cylinder of nitrogen at 20 degrees Celsius *)

Section Nitrogen.
Local Open Scope R_scope.

Lemma nitrogen_constants :
  VanDerWaalsConstants (F := R) Nitrogen = {| A := 1.370; B := 0.0387 |}.
Proof. cbn [VanDerWaalsConstants]. rewrite !lit_R. unfold Q2R. cbn. f_equal; lra. Qed.

Ltac numeric := unfold subterm1R, subterm2R, closedFormR in *; lra.

(** One litre at zero pressure: about a ten-thousandth of a mole. *)
Lemma nitrogen_litre_at_zero_pressure :
  0.000104 < GasToMoles 1 0 (VanDerWaalsConstants Nitrogen) roomTemperature < 0.000105.
Proof.
  rewrite nitrogen_constants. unfold roomTemperature.
  destruct (GasToMoles_between 1.370 0.0387 1 293.15 0
              (subterm1R 1.370 0.0387 1 293.15 0) (subterm1R 1.370 0.0387 1 293.15 0)
              (subterm2R 1.370 0.0387 1 293.15 0) (subterm2R 1.370 0.0387 1 293.15 0)
              12.1720828163 12.1720828164 1.1159027323 1.1159027325) as [Hl Hh];
    try numeric.
Qed.

(** Twelve litres at 200 bar. *)
Lemma nitrogen_12l_200bar :
  98.200798 <= GasToMoles 12 200 (VanDerWaalsConstants Nitrogen) roomTemperature
  <= 98.200799.
Proof.
  rewrite nitrogen_constants. unfold roomTemperature.
  destruct (GasToMoles_between 1.370 0.0387 12 293.15 200
              (subterm1R 1.370 0.0387 12 293.15 200) (subterm1R 1.370 0.0387 12 293.15 200)
              (subterm2R 1.370 0.0387 12 293.15 200) (subterm2R 1.370 0.0387 12 293.15 200)
              20085.07106773 20085.07106774 26.6557292 26.65572921) as [Hl Hh];
    try numeric.
Qed.

(** The pressure of that many moles in twelve litres. *)
Lemma nitrogen_12l_pressure (n : R) :
  98.200798 <= n <= 98.200799 ->
  200.00437 <= MolesToPressure 12 n roomTemperature (VanDerWaalsConstants Nitrogen)
  <= 200.00439.
Proof.
  intros [Hl Hh]. rewrite nitrogen_constants. unfold roomTemperature.
  destruct (MolesToPressure_between 1.370 0.0387 12 293.15 n 98.200798 98.200799)
    as [Pl Ph]; lra.
Qed.

(** Twelve litres at that pressure hold more. *)
Lemma nitrogen_12l_near_200bar (P : R) :
  200.00437 <= P <= 200.00439 ->
  98.20255 <= GasToMoles 12 P (VanDerWaalsConstants Nitrogen) roomTemperature <= 98.20258.
Proof.
  intros [Hl Hh]. rewrite nitrogen_constants. unfold roomTemperature.
  destruct (GasToMoles_between 1.370 0.0387 12 293.15 P
              (subterm1R 1.370 0.0387 12 293.15 200.00437)
              (subterm1R 1.370 0.0387 12 293.15 200.00439)
              (subterm2R 1.370 0.0387 12 293.15 200.00437)
              (subterm2R 1.370 0.0387 12 293.15 200.00439)
              20085.29935152 20085.30059617 26.65601554 26.65601696) as [Hlo Hhi];
    try numeric.
Qed.

(** And that many moles press harder still. *)
Lemma nitrogen_12l_pressure_again (n : R) :
  98.20255 <= n <= 98.20258 ->
  200.00866 <= MolesToPressure 12 n roomTemperature (VanDerWaalsConstants Nitrogen).
Proof.
  intros [Hl Hh]. rewrite nitrogen_constants. unfold roomTemperature.
  destruct (MolesToPressure_between 1.370 0.0387 12 293.15 n 98.20255 98.20258)
    as [Pl Ph]; lra.
Qed.

Lemma Moles_nitrogen (c : Cylinder R) :
  Moles c roomTemperature nitrogen
  = GasToMoles (CylinderVolume c) (Pressure c) (VanDerWaalsConstants Nitrogen)
      roomTemperature.
Proof.
  unfold Moles, gasCompositionToMoles, nitrogen, PartialPressure.
  cbn [foldl fadd fmul Rarith]. rewrite lit_R.
  replace (Pressure c * 1) with (Pressure c) by lra.
  unfold Q2R. cbn. lra.
Qed.

Lemma cylinderMolesToPressure_nitrogen (V n : R) :
  cylinderMolesToPressure V n roomTemperature nitrogen
  = MolesToPressure V n roomTemperature (VanDerWaalsConstants Nitrogen).
Proof.
  unfold cylinderMolesToPressure, nitrogen.
  cbn [foldl fadd fmul Rarith]. rewrite lit_R.
  replace (n * 1) with n by lra.
  unfold Q2R. cbn. lra.
Qed.

Lemma TotalMoles_single (c : Cylinder R) temperature gasComposition :
  TotalMoles [c] temperature gasComposition = Moles c temperature gasComposition.
Proof. unfold TotalMoles. cbn [foldl fadd Rarith]. rewrite lit_0_R. lra. Qed.

Lemma nitrogen_zero_pressure_scales (V : R) :
  0 < V ->
  GasToMoles V 0 (VanDerWaalsConstants Nitrogen) roomTemperature
  = V * GasToMoles 1 0 (VanDerWaalsConstants Nitrogen) roomTemperature.
Proof.
  intros HV. rewrite nitrogen_constants. unfold roomTemperature.
  apply GasToMoles_homogeneous; try lra.
  - destruct (sqrt_between (4 * subterm2R 1.370 0.0387 1 293.15 0 ^ 3
                            + subterm1R 1.370 0.0387 1 293.15 0 ^ 2)
                12.1720828163 12.1720828164); try numeric.
  - numeric.
Qed.

(** Claim C2, counterexample.  For twelve litres of nitrogen at 20 degrees
    Celsius and the pressure 0, [GasToMoles] does not return 0. *)
Lemma GasToMoles_zero_pressure_is_not_zero :
  GasToMoles (F := R) 12 0 (VanDerWaalsConstants Nitrogen) roomTemperature <> 0.
Proof.
  pose proof nitrogen_litre_at_zero_pressure as [Hl Hh].
  rewrite nitrogen_zero_pressure_scales by lra. lra.
Qed.

(** Claim C2, as amended.  [GasToMoles] has no case for a pressure that is not
    positive: it evaluates the closed form there too.  At the pressure 0, for
    nitrogen at 20 degrees Celsius, the result is not 0 but a small positive
    number of moles, proportional to the volume: between 0.000104 and 0.000105
    mol per litre. *)
Theorem GasToMoles_zero_pressure_nitrogen (V : R) :
  0 < V ->
  0.000104 * V < GasToMoles V 0 (VanDerWaalsConstants Nitrogen) roomTemperature
  < 0.000105 * V.
Proof.
  intros HV. pose proof nitrogen_litre_at_zero_pressure as [Hl Hh].
  rewrite nitrogen_zero_pressure_scales by done. nra.
Qed.

Lemma GasToMoles_zero_pressure_nitrogen_witness :
  0.000104 * 12 < GasToMoles 12 0 (VanDerWaalsConstants Nitrogen) roomTemperature
  < 0.000105 * 12.
Proof. apply (GasToMoles_zero_pressure_nitrogen 12). lra. Defined.

(** Twelve litres of helium at 1 bar. *)
Lemma helium_constants :
  VanDerWaalsConstants (F := R) Helium = {| A := 0.0346; B := 0.0238 |}.
Proof. cbn [VanDerWaalsConstants]. rewrite !lit_R. unfold Q2R. cbn. f_equal; lra. Qed.

Lemma helium_12l_1bar :
  0.514699 <= GasToMoles 12 1 (VanDerWaalsConstants Helium) roomTemperature <= 0.5146991.
Proof.
  rewrite helium_constants. unfold roomTemperature.
  destruct (GasToMoles_between 0.0346 0.0238 12 293.15 1
              (subterm1R 0.0346 0.0238 12 293.15 1) (subterm1R 0.0346 0.0238 12 293.15 1)
              (subterm2R 0.0346 0.0238 12 293.15 1) (subterm2R 0.0346 0.0238 12 293.15 1)
              50.709573266064 50.709573266065 3.422208276829 3.42220827683) as [Hl Hh];
    try numeric.
Qed.

Lemma helium_12l_pressure (n : R) :
  0.514699 <= n <= 0.5146991 ->
  1.04587 <= MolesToPressure 12 n roomTemperature (VanDerWaalsConstants Helium) <= 1.04588.
Proof.
  intros [Hl Hh]. rewrite helium_constants. unfold roomTemperature.
  destruct (MolesToPressure_between 0.0346 0.0238 12 293.15 n 0.514699 0.5146991)
    as [Pl Ph]; lra.
Qed.

(** Claim C6, counterexample.  At 20 degrees Celsius, the pressure
    [MolesToPressure] gives for the moles [GasToMoles] returns is, for twelve
    litres of nitrogen at 200 bar, more than 0.004 bar above 200 bar (two parts
    in 10^5), and for twelve litres of helium at 1 bar more than 0.045 bar
    above 1 bar (more than four parts in a hundred); the tolerance of the
    tests is 10^-9. *)
Lemma MolesToPressure_GasToMoles_misses_pressure :
  0.004 < MolesToPressure 12
            (GasToMoles 12 200 (VanDerWaalsConstants Nitrogen) roomTemperature)
            roomTemperature (VanDerWaalsConstants Nitrogen) - 200 /\
  0.045 < MolesToPressure 12
            (GasToMoles 12 1 (VanDerWaalsConstants Helium) roomTemperature)
            roomTemperature (VanDerWaalsConstants Helium) - 1.
Proof.
  split.
  - pose proof (nitrogen_12l_pressure _ nitrogen_12l_200bar) as [Hl Hh]. lra.
  - pose proof (helium_12l_pressure _ helium_12l_1bar) as [Hl Hh]. lra.
Qed.

(** Claim C6, as amended.  Over the reals, for each gas of the table, a
    positive volume, a pressure that is not negative and a temperature of at
    least 175 K: from the moles [GasToMoles] returns, less [truncationError]
    (what the three coefficients of Cardano's formula, cut to five digits in
    the program, add to the root of the Van der Waals equation),
    [MolesToPressure] returns the pressure exactly; and the pressure it returns
    from the moles of [GasToMoles] themselves does not depend on the volume.
    (That pressure misses the one [GasToMoles] was given by what the error
    does to [MolesToPressure], which is far more than a rounding error and not
    uniformly small: see the counterexample, which by the second part holds
    for every volume.) *)
Theorem GasToMoles_roundtrip_up_to_truncation (g : Gas) (V P T : R) :
  0 < V -> 0 <= P -> 175 <= T ->
  MolesToPressure V
    (GasToMoles V P (VanDerWaalsConstants g) T
     - truncationError V P (VanDerWaalsConstants g) T)
    T (VanDerWaalsConstants g)
  = P /\
  MolesToPressure V (GasToMoles V P (VanDerWaalsConstants g) T) T (VanDerWaalsConstants g)
  = MolesToPressure 1 (GasToMoles 1 P (VanDerWaalsConstants g) T) T
      (VanDerWaalsConstants g).
Proof.
  intros HV HP HT. destruct (table_constants g) as (a & b & -> & Ha & Hb & Hab).
  assert (Hin : a < 3 * b * (b * P + 831 / 10000 * T)) by nra.
  split.
  - apply GasToMoles_roundtrip_real; lra.
  - by apply GasToMoles_roundtrip_volume.
Qed.

Lemma GasToMoles_roundtrip_up_to_truncation_witness :
  MolesToPressure 12
    (GasToMoles 12 200 (VanDerWaalsConstants Nitrogen) roomTemperature
     - truncationError 12 200 (VanDerWaalsConstants Nitrogen) roomTemperature)
    roomTemperature (VanDerWaalsConstants Nitrogen)
  = 200 /\
  MolesToPressure 12 (GasToMoles 12 200 (VanDerWaalsConstants Nitrogen) roomTemperature)
    roomTemperature (VanDerWaalsConstants Nitrogen)
  = MolesToPressure 1 (GasToMoles 1 200 (VanDerWaalsConstants Nitrogen) roomTemperature)
      roomTemperature (VanDerWaalsConstants Nitrogen).
Proof.
  apply (GasToMoles_roundtrip_up_to_truncation Nitrogen 12 200 roomTemperature);
    unfold roomTemperature; lra.
Defined.

(** Claim C1, counterexample.  In Van der Waals mode, [Equalize] on the group
    of one cylinder of twelve litres of nitrogen at 200 bar and 20 degrees
    Celsius changes the molar content of the group by more than 10^-9 of it
    (by more than 0.0017 mol in 98.2 mol). *)
Lemma Equalize_VanDerWaals_changes_total_moles :
  exists h' evs cs cs',
    Equalize [0%nat] VanDerWaals nitrogen roomTemperature false false nitrogenStore
    = Some (tt, h', evs) /\
    derefAll nitrogenStore [0%nat] = Some cs /\
    derefAll h' [0%nat] = Some cs' /\
    Forall (fun c => 0 < CylinderVolume c) cs /\
    Rabs (TotalMoles cs' roomTemperature nitrogen - TotalMoles cs roomTemperature nitrogen)
    > 1e-9 * Rabs (TotalMoles cs roomTemperature nitrogen).
Proof.
  eexists _, _, _, _. split; [reflexivity|]. split; [reflexivity|]. split; [reflexivity|].
  split; [repeat constructor; cbn; lra|].
  rewrite !TotalMoles_single, !Moles_nitrogen.
  cbn [CylinderVolume Pressure withPressure].
  cbn [fadd Rarith]. rewrite lit_0_R, !Rplus_0_l, cylinderMolesToPressure_nitrogen.
  pose proof nitrogen_12l_200bar as Hn0.
  pose proof (nitrogen_12l_pressure _ Hn0) as HP1.
  pose proof (nitrogen_12l_near_200bar _ HP1) as [Hn1 _].
  rewrite !Rabs_pos_eq by lra. lra.
Qed.

(** A second [Equalize] in Van der Waals mode raises the pressure of that
    cylinder again. *)
Lemma Equalize_VanDerWaals_twice :
  exists h' h'' evs evs' x x',
    Equalize [0%nat] VanDerWaals nitrogen roomTemperature false false nitrogenStore
    = Some (tt, h', evs) /\
    Equalize [0%nat] VanDerWaals nitrogen roomTemperature false false h'
    = Some (tt, h'', evs') /\
    Pressure <$> h' !! 0%nat = Some x /\ Pressure <$> h'' !! 0%nat = Some x' /\
    0.004 < x' - x.
Proof.
  eexists _, _, _, _, _, _.
  split; [reflexivity|]. split; [reflexivity|]. split; [reflexivity|]. split; [reflexivity|].
  cbn [fadd Rarith CylinderVolume Pressure withPressure].
  rewrite !lit_0_R, !Rplus_0_l, !Moles_nitrogen, !cylinderMolesToPressure_nitrogen.
  cbn [CylinderVolume Pressure withPressure].
  pose proof nitrogen_12l_200bar as Hn0.
  pose proof (nitrogen_12l_pressure _ Hn0) as HP1.
  pose proof (nitrogen_12l_near_200bar _ HP1) as Hn1.
  pose proof (nitrogen_12l_pressure_again _ Hn1) as HP2.
  lra.
Qed.

End Nitrogen.

(** ** The order of the entries of a composition is immaterial over the reals *)

Section CompositionOrder.
Local Open Scope R_scope.

Lemma foldl_Rplus_Permutation {X : Type} (step : R -> X -> R) (f : X -> R) (l l' : list X) :
  (forall a x, step a x = a + f x) ->
  l ≡ₚ l' -> forall a, foldl step a l = foldl step a l'.
Proof.
  intros Hstep Hp. induction Hp as [|x l l' Hp IH|x y l|l l' l'' Hp IH Hp' IH'];
    intros a; cbn [foldl].
  - done.
  - apply IH.
  - f_equal. rewrite !Hstep. lra.
  - by rewrite IH.
Qed.

Lemma gasCompositionToMoles_Permutation (V P T : R) (c c' : GasComposition R) :
  c ≡ₚ c' -> gasCompositionToMoles V P T c = gasCompositionToMoles V P T c'.
Proof.
  intros Hp. unfold gasCompositionToMoles.
  apply (foldl_Rplus_Permutation _
           (fun '(g, i) => GasToMoles V (PartialPressure P i) (VanDerWaalsConstants g) T));
    [|done].
  by intros a [g i].
Qed.

Lemma cylinderMolesToPressure_Permutation (V n T : R) (c c' : GasComposition R) :
  c ≡ₚ c' -> cylinderMolesToPressure V n T c = cylinderMolesToPressure V n T c'.
Proof.
  intros Hp. unfold cylinderMolesToPressure.
  apply (foldl_Rplus_Permutation _
           (fun '(g, i) => MolesToPressure V (n * i) T (VanDerWaalsConstants g)));
    [|done].
  by intros a [g i].
Qed.

Lemma GasWeight_Permutation (cyl : Cylinder R) (T : R) (c c' : GasComposition R) :
  c ≡ₚ c' -> GasWeight cyl c T = GasWeight cyl c' T.
Proof.
  intros Hp. unfold GasWeight.
  apply (foldl_Rplus_Permutation _
           (fun '(g, i) =>
              GasWeightFromMole
                (GasToMoles (CylinderVolume cyl) (PartialPressure (Pressure cyl) i)
                   (VanDerWaalsConstants g) T)
                (AtomicWeightLookup g)));
    [|done].
  by intros a [g i].
Qed.

End CompositionOrder.

(** ** A second [Equalize] *)

(** Claim C5, counterexample.  A second [Equalize] on an equalized group moves
    the pressure: in ideal-gas mode and binary64 by a rounding error (the
    cylinders of 8.5 l at 336 bar and 24 l at 259 bar go to
    279.13846153846151 bar, then to 279.13846153846146 bar); in Van der Waals
    mode, and already in exact arithmetic, by far more than a rounding error
    (the cylinder of 12 l of nitrogen at 200 bar goes to about 200.0044 bar,
    then up by more than another 0.004 bar). *)
Lemma Equalize_twice_moves_pressure :
  (exists h' h'' evs evs',
     AppGo.Equalize [0; 1] false false floatStore = Some (tt, h', evs) /\
     AppGo.Equalize [0; 1] false false h' = Some (tt, h'', evs') /\
     Pressure <$> h'' !! 0 <> Pressure <$> h' !! 0) /\
  (exists h' h'' evs evs' x x',
     Equalize [0] VanDerWaals nitrogen roomTemperature false false nitrogenStore
     = Some (tt, h', evs) /\
     Equalize [0] VanDerWaals nitrogen roomTemperature false false h'
     = Some (tt, h'', evs') /\
     Pressure <$> h' !! 0 = Some x /\ Pressure <$> h'' !! 0 = Some x' /\
     (0.004 < x' - x)%R).
Proof. split; [exact AppGo_Equalize_twice_binary64 | exact Equalize_VanDerWaals_twice]. Qed.

(** ** Two runs on the same inputs: the order of the steps, the flags, the map *)

Section IdealGasFields.
Context {F : Type} `{Float64 F} `{MathLib F}.



End IdealGasFields.

Section RealRuns.
Local Open Scope R_scope.

Lemma scenarioInOrder_composition_order cfg gasSystem
    (gasComposition visited : GasComposition R) temperature :
  visited ≡ₚ gasComposition ->
  scenarioInOrder cfg gasSystem visited temperature
    (sourceMajorPairs (sourcePointers cfg) (destinationPointers cfg))
  = scenarioInOrder cfg gasSystem gasComposition temperature
      (sourceMajorPairs (sourcePointers cfg) (destinationPointers cfg)).
Proof.
  intros Hp. destruct cfg as [dt dp dv st sp sv].
  destruct dt, st, gasSystem;
    cbv -[fadd fmul fdiv fsub fopp lit gasCompositionToMoles cylinderMolesToPressure
          GasWeight Rarith Rmath Rplus Rmult Ropp Rinv Rminus Rdiv Q2R];
    repeat (rewrite (gasCompositionToMoles_Permutation _ _ _ _ _ Hp)
            || rewrite (cylinderMolesToPressure_Permutation _ _ _ _ _ Hp)
            || rewrite (GasWeight_Permutation _ _ _ _ Hp));
    reflexivity.
Qed.

(** Claim C4, as amended.  In exact real arithmetic, when at most one side is
    a twinset, the summary of the scenario does not depend on the order of the
    pairwise steps (nor on the order in which the loops visit the composition
    map): every order gives the summary of [equalizeAndReport]. *)
Theorem scenario_order_irrelevant_unless_both_twinsets
    cfg gasSystem (gasComposition visited : GasComposition R) temperature order :
  SourceCylinderIsTwinset cfg && DestinationCylinderIsTwinset cfg = false ->
  order ≡ₚ sourceMajorPairs (sourcePointers cfg) (destinationPointers cfg) ->
  visited ≡ₚ gasComposition ->
  scenarioInOrder cfg gasSystem visited temperature order
  = scenarioInOrder cfg gasSystem gasComposition temperature
      (sourceMajorPairs (sourcePointers cfg) (destinationPointers cfg)).
Proof.
  intros Hone Hperm Hvisited.
  rewrite (scenarioInOrder_pair_order cfg gasSystem visited temperature order
             swap_sum_R Hone Hperm).
  by apply scenarioInOrder_composition_order.
Qed.

Lemma scenario_order_irrelevant_unless_both_twinsets_witness :
  scenarioInOrder singleDestinationConfiguration VanDerWaals airOxygenFirst roomTemperature
    [(1, 2); (0, 2)]%nat
  = scenarioInOrder singleDestinationConfiguration VanDerWaals air roomTemperature
      (sourceMajorPairs (sourcePointers singleDestinationConfiguration)
         (destinationPointers singleDestinationConfiguration)).
Proof.
  apply (scenario_order_irrelevant_unless_both_twinsets singleDestinationConfiguration
           VanDerWaals air airOxygenFirst roomTemperature [(1, 2); (0, 2)]%nat).
  - reflexivity.
  - cbv. apply perm_swap.
  - unfold airOxygenFirst, air. apply perm_swap.
Defined.



End RealRuns.

Section Binary64Runs.
Local Existing Instance binary64_math.


End Binary64Runs.

(** ** The tests of the repository, in binary64, and the example of its README *)

Example TestPressureFromVolumes :
  PrimFloat.eqb (PressureFromVolumes (lit 12) (lit 12)) (lit 1) = true /\
  compareFloats (PressureFromVolumes (lit 2000) (lit 12)) (lit (166 + 2 / 3)) = true.
Proof. split; vm_compute; reflexivity. Qed.

Example TestPartialPressure :
  compareFloats (PartialPressure (lit (166 + 2 / 3)) (lit 0.21)) (lit 35) = true.
Proof. vm_compute. reflexivity. Qed.

Example TestGasWeightFromMole :
  compareFloats (GasWeightFromMole (lit 32.5) (AtomicWeightLookup Argon)) (lit 455.217750)
  = true.
Proof. vm_compute. reflexivity. Qed.

(** ** More on [Equalize]: panics, groups that do not overlap, the order within a group *)

Section EqualizeMore.
Context {F : Type} `{Float64 F} `{MathLib F}.
Local Open Scope f64_scope.

Lemma derefAll_None_iff (h : heap F) ps :
  derefAll h ps = None <-> exists p, p ∈ ps /\ h !! p = None.
Proof.
  unfold derefAll. rewrite eq_None_not_Some, mapM_is_Some. split.
  - intros Hn. apply not_Forall_Exists in Hn; [|intros p; apply _].
    apply Exists_exists in Hn as (p & Hin & Hp). exists p. split; [done|].
    by apply eq_None_not_Some.
  - intros (p & Hin & Hp) Hall. rewrite Forall_forall in Hall.
    specialize (Hall p Hin). cbn in Hall. rewrite Hp in Hall. by destruct Hall.
Qed.

(** Property X1.  [Equalize] dereferences every pointer of its group: it
    panics when, and only when, one of them is nil. *)
Theorem Equalize_panics_iff_nil ps gasSystem (gasComposition : GasComposition F)
    temperature verbose debug (h : heap F) :
  Equalize ps gasSystem gasComposition temperature verbose debug h = None
  <-> exists p, p ∈ ps /\ h !! p = None.
Proof.
  rewrite <- derefAll_None_iff. split.
  - intros E. destruct (derefAll h ps) as [cs|] eqn:Hd; [|done].
    destruct (Equalize_Some ps gasSystem gasComposition temperature verbose debug h cs Hd)
      as (evs & E' & _).
    congruence.
  - apply Equalize_None.
Qed.

(** Property X2.  In Van der Waals mode [Equalize] writes to every cylinder of
    the group the pressure [cylinderMolesToPressure] gives for the total
    volume and the total molar content of the group. *)
Theorem Equalize_VanDerWaals_formula ps (gasComposition : GasComposition F) temperature
    verbose debug (h h' : heap F) evs :
  Equalize ps VanDerWaals gasComposition temperature verbose debug h = Some (tt, h', evs) ->
  exists cs, derefAll h ps = Some cs /\
    forall p, p ∈ ps ->
      Pressure <$> h' !! p
      = Some (cylinderMolesToPressure (TotalVolume cs)
                (TotalMoles cs temperature gasComposition) temperature gasComposition).
Proof.
  intros E. apply Equalize_inv in E as (cs & Hd & -> & _).
  exists cs. split; [done|]. intros p Hin.
  rewrite lookup_writeAll_in by done.
  destruct (derefAll_Some_lookup h ps cs p Hd Hin) as [c ->]. done.
Qed.

Lemma derefAll_writeAll_disjoint ps qs x (h : heap F) :
  (forall p, p ∈ qs -> p ∉ ps) ->
  derefAll (writeAll ps x h) qs = derefAll h qs.
Proof.
  intros Hdis. induction qs as [|q qs IH]; [done|].
  rewrite !derefAll_cons.
  rewrite lookup_writeAll_notin by (apply Hdis, list_elem_of_here).
  rewrite IH; [done|]. intros p Hp. by apply Hdis, list_elem_of_further.
Qed.

Lemma writeAll_comm ps qs x y (h : heap F) :
  (forall p, p ∈ ps -> p ∉ qs) ->
  writeAll qs y (writeAll ps x h) = writeAll ps x (writeAll qs y h).
Proof.
  intros Hdis. apply list_eq. intros i. rewrite !lookup_writeAll.
  repeat case_decide; try done.
  exfalso. by eapply Hdis.
Qed.

Lemma Equalize_then ps qs gasSystem (gasComposition : GasComposition F) temperature
    verbose debug gasSystem' (gasComposition' : GasComposition F) temperature'
    verbose' debug' (h : heap F) :
  (forall p, p ∈ qs -> p ∉ ps) ->
  (fun r => r.1.2)
    <$> (Equalize ps gasSystem gasComposition temperature verbose debug;;
         Equalize qs gasSystem' gasComposition' temperature' verbose' debug') h
  = cs ← derefAll h ps; ds ← derefAll h qs;
    Some (writeAll qs (equalizedPressure gasSystem' gasComposition' temperature' ds)
            (writeAll ps (equalizedPressure gasSystem gasComposition temperature cs) h)).
Proof.
  intros Hdis.
  destruct (derefAll h ps) as [cs|] eqn:Hps; cbn [mbind option_bind].
  - destruct (Equalize_Some ps gasSystem gasComposition temperature verbose debug h cs Hps)
      as (e1 & E1 & _).
    rewrite (bind_Some _ _ _ _ _ _ E1).
    set (h1 := writeAll ps _ h).
    assert (Hq : derefAll h1 qs = derefAll h qs) by by apply derefAll_writeAll_disjoint.
    destruct (derefAll h qs) as [ds|] eqn:Hqs; cbn [mbind option_bind].
    + destruct (Equalize_Some qs gasSystem' gasComposition' temperature' verbose' debug'
                  h1 ds Hq) as (e2 & E2 & _).
      rewrite E2. done.
    + rewrite Equalize_None by done. done.
  - rewrite (bind_None _ _ h); [done|]. by apply Equalize_None.
Qed.

(** In ideal-gas mode the pressure is computed without the composition and
    the temperature. *)
Lemma equalizedPressure_IdealGas (gasComposition gasComposition' : GasComposition F)
    temperature temperature' (cs : CylinderList F) :
  equalizedPressure IdealGas gasComposition temperature cs
  = equalizedPressure IdealGas gasComposition' temperature' cs.
Proof. reflexivity. Qed.

(** Two runs of two calls on groups that share no cylinder, in the two orders,
    leave the same store if they compute the same pressures. *)
Lemma Equalize_disjoint_commute ps qs gasSystem
    (gasComposition gasComposition' : GasComposition F) temperature temperature'
    verbose debug verbose' debug' (h : heap F) :
  (forall cs, equalizedPressure gasSystem gasComposition' temperature' cs
              = equalizedPressure gasSystem gasComposition temperature cs) ->
  (forall p, p ∈ ps -> p ∉ qs) ->
  (fun r => r.1.2)
    <$> (Equalize ps gasSystem gasComposition temperature verbose debug;;
         Equalize qs gasSystem gasComposition temperature verbose debug) h
  = (fun r => r.1.2)
      <$> (Equalize qs gasSystem gasComposition' temperature' verbose' debug';;
           Equalize ps gasSystem gasComposition' temperature' verbose' debug') h.
Proof.
  intros Heq Hdis.
  assert (Hdis' : forall p, p ∈ qs -> p ∉ ps) by (intros p Hq Hp; by eapply Hdis).
  rewrite !Equalize_then by done.
  destruct (derefAll h ps) as [cs|], (derefAll h qs) as [ds|]; cbn [mbind option_bind];
    try done.
  f_equal. rewrite !Heq. by apply writeAll_comm.
Qed.

End EqualizeMore.

Section EqualizeReal.
Local Open Scope R_scope.

Lemma derefAll_Permutation (h : heap R) ps ps' cs :
  ps ≡ₚ ps' -> derefAll h ps = Some cs ->
  exists cs', derefAll h ps' = Some cs' /\ cs ≡ₚ cs'.
Proof.
  intros Hp. revert cs.
  induction Hp as [|p l l' Hp IH|p q l|l l' l'' Hp IH Hp' IH']; intros cs Hd.
  - exists cs. done.
  - rewrite derefAll_cons in Hd.
    destruct (h !! p) as [c|] eqn:Ep; [|done].
    destruct (derefAll h l) as [cs0|] eqn:El; [|done].
    injection Hd as <-. destruct (IH cs0 eq_refl) as (cs0' & E' & Hperm).
    exists (c :: cs0'). rewrite derefAll_cons, Ep, E'. split; [done|]. by constructor.
  - rewrite !derefAll_cons in Hd.
    destruct (h !! q) as [c|] eqn:Eq; [|done].
    destruct (h !! p) as [c'|] eqn:Ep; [|done].
    destruct (derefAll h l) as [cs0|] eqn:El; [|done].
    injection Hd as <-. exists (c' :: c :: cs0).
    rewrite !derefAll_cons, Ep, Eq, El. split; [done|]. apply perm_swap.
  - destruct (IH cs Hd) as (cs' & E' & Hperm).
    destruct (IH' cs' E') as (cs'' & E'' & Hperm').
    exists cs''. split; [done|]. by etrans.
Qed.

Lemma equalizedPressure_Permutation gasSystem (gasComposition : GasComposition R)
    temperature (cs cs' : CylinderList R) :
  cs ≡ₚ cs' ->
  equalizedPressure gasSystem gasComposition temperature cs
  = equalizedPressure gasSystem gasComposition temperature cs'.
Proof.
  intros Hp.
  assert (EV : TotalVolume cs = TotalVolume cs').
  { unfold TotalVolume. by apply (foldl_Rplus_Permutation _ (fun c => CylinderVolume c)). }
  unfold equalizedPressure. destruct gasSystem.
  - rewrite EV. f_equal. unfold TotalGasVolume.
    by apply (foldl_Rplus_Permutation _
                (fun c => GasVolume c IdealGas gasComposition temperature)).
  - rewrite EV. f_equal. unfold TotalMoles.
    by apply (foldl_Rplus_Permutation _ (fun c => Moles c temperature gasComposition)).
Qed.

Lemma equalizedPressure_composition_order gasSystem
    (gasComposition visited : GasComposition R) temperature (cs : CylinderList R) :
  visited ≡ₚ gasComposition ->
  equalizedPressure gasSystem visited temperature cs
  = equalizedPressure gasSystem gasComposition temperature cs.
Proof.
  intros Hp. destruct gasSystem; [reflexivity|]. unfold equalizedPressure.
  assert (E : TotalMoles cs temperature visited = TotalMoles cs temperature gasComposition).
  { unfold TotalMoles. generalize (lit (F := R) 0).
    induction cs as [|c cs IH]; intros acc; [done|]. cbn [foldl].
    unfold Moles at 2 4. rewrite (gasCompositionToMoles_Permutation _ _ _ _ _ Hp). apply IH. }
  rewrite E. by apply cylinderMolesToPressure_Permutation.
Qed.

(** Property X3.  Two calls of [Equalize] on groups that share no cylinder can
    be made in either order: the two runs leave the same store (and if one
    panics, so does the other).  This holds in ideal-gas mode in every
    arithmetic, whatever the composition, the temperature and the flags of the
    two runs, and in both modes in exact real arithmetic, whatever the order
    in which the two runs visit the composition map.  (In Van der Waals mode
    in binary64 the pressures are sums over the map, and depend on that
    order.) *)
Theorem Equalize_disjoint_groups_commute :
  (forall (F : Type) (arithmetic : Float64 F) (mathLib : MathLib F) ps qs
          (gasComposition gasComposition' : GasComposition F) temperature temperature'
          verbose debug verbose' debug' (h : heap F),
     (forall p, p ∈ ps -> p ∉ qs) ->
     (fun r => r.1.2)
       <$> (Equalize ps IdealGas gasComposition temperature verbose debug;;
            Equalize qs IdealGas gasComposition temperature verbose debug) h
     = (fun r => r.1.2)
         <$> (Equalize qs IdealGas gasComposition' temperature' verbose' debug';;
              Equalize ps IdealGas gasComposition' temperature' verbose' debug') h) /\
  (forall ps qs gasSystem (gasComposition visited : GasComposition R) temperature
          verbose debug verbose' debug' (h : heap R),
     (forall p, p ∈ ps -> p ∉ qs) ->
     visited ≡ₚ gasComposition ->
     (fun r => r.1.2)
       <$> (Equalize ps gasSystem gasComposition temperature verbose debug;;
            Equalize qs gasSystem gasComposition temperature verbose debug) h
     = (fun r => r.1.2)
         <$> (Equalize qs gasSystem visited temperature verbose' debug';;
              Equalize ps gasSystem visited temperature verbose' debug') h).
Proof.
  split.
  - intros F arithmetic mathLib ps qs gasComposition gasComposition' temperature temperature'
      verbose debug verbose' debug' h Hdis.
    apply Equalize_disjoint_commute; [|done].
    intros cs. apply equalizedPressure_IdealGas.
  - intros ps qs gasSystem gasComposition visited temperature
      verbose debug verbose' debug' h Hdis Hvisited.
    apply Equalize_disjoint_commute; [|done].
    intros cs. by apply equalizedPressure_composition_order.
Qed.

(** Property X4.  In exact arithmetic the store [Equalize] leaves does not
    depend on the order in which the group lists its cylinders, in either
    mode. *)
Theorem Equalize_group_order_irrelevant ps ps' gasSystem (gasComposition : GasComposition R)
    temperature verbose debug (h : heap R) :
  ps ≡ₚ ps' ->
  (fun r => r.1.2) <$> Equalize ps gasSystem gasComposition temperature verbose debug h
  = (fun r => r.1.2) <$> Equalize ps' gasSystem gasComposition temperature verbose debug h.
Proof.
  intros Hp. destruct (derefAll h ps) as [cs|] eqn:Hd.
  - destruct (derefAll_Permutation h ps ps' cs Hp Hd) as (cs' & Hd' & Hperm).
    destruct (Equalize_Some ps gasSystem gasComposition temperature verbose debug h cs Hd)
      as (e & -> & _).
    destruct (Equalize_Some ps' gasSystem gasComposition temperature verbose debug h cs' Hd')
      as (e' & -> & _).
    cbn [fmap option_fmap option_map fst snd]. f_equal.
    rewrite (equalizedPressure_Permutation _ _ _ cs cs' Hperm).
    apply list_eq. intros i. rewrite !lookup_writeAll.
    repeat case_decide; try done.
    + exfalso. rewrite Hp in *. done.
    + exfalso. rewrite <- Hp in *. done.
  - rewrite Equalize_None by done.
    destruct (derefAll h ps') as [cs'|] eqn:Hd'.
    + symmetry in Hp.
      destruct (derefAll_Permutation h ps' ps cs' Hp Hd') as (cs & E & _). congruence.
    + by rewrite Equalize_None.
Qed.

Lemma ideal_gas_volume_between (cs : CylinderList R) gasComposition temperature lo hi :
  Forall (fun c => 0 < CylinderVolume c /\ lo <= Pressure c <= hi) cs ->
  lo * TotalVolume cs <= TotalGasVolume cs IdealGas gasComposition temperature
  <= hi * TotalVolume cs.
Proof.
  induction 1 as [|c cs (HV & Hlo & Hhi) _ IH].
  - unfold TotalVolume, TotalGasVolume. cbn [foldl]. rewrite lit_0_R. lra.
  - rewrite TotalVolume_cons, TotalGasVolume_ideal_cons. nra.
Qed.

(** Property X5.  In ideal-gas mode and exact arithmetic the pressure
    [Equalize] gives a non-empty group of cylinders of positive volume lies
    between the lowest and the highest pressure the group held. *)
Theorem Equalize_ideal_pressure_between ps gasComposition temperature verbose debug
    (h h' : heap R) evs cs lo hi :
  Equalize ps IdealGas gasComposition temperature verbose debug h = Some (tt, h', evs) ->
  derefAll h ps = Some cs ->
  ps <> [] ->
  Forall (fun c => 0 < CylinderVolume c /\ lo <= Pressure c <= hi) cs ->
  forall p, p ∈ ps -> exists x, Pressure <$> h' !! p = Some x /\ lo <= x <= hi.
Proof.
  intros E Hd Hne Hall p Hin. apply Equalize_inv in E as (cs0 & Hd0 & -> & _).
  rewrite Hd in Hd0. injection Hd0 as <-.
  assert (Hcs : cs <> []).
  { intros ->. apply mapM_Some in Hd. apply Forall2_nil_inv_r in Hd. done. }
  assert (HV : 0 < TotalVolume cs).
  { apply TotalVolume_pos; [done|]. eapply Forall_impl; [exact Hall|]. by intros c [? _]. }
  pose proof (ideal_gas_volume_between cs gasComposition temperature lo hi Hall) as [Hl Hh].
  exists (equalizedPressure IdealGas gasComposition temperature cs). split.
  - rewrite lookup_writeAll_in by done.
    destruct (derefAll_Some_lookup h ps cs p Hd Hin) as [c ->]. reflexivity.
  - unfold equalizedPressure, PressureFromVolumes. cbn [fdiv Rarith].
    set (g := TotalGasVolume cs IdealGas gasComposition temperature) in *.
    set (v := TotalVolume cs) in *.
    assert (Eg : g / v * v = g) by (field; lra).
    split; apply (Rmult_le_reg_r v); try done; rewrite Eg; lra.
Qed.

End EqualizeReal.

Section ScenarioReturns.
Context {F : Type} `{Float64 F} `{MathLib F}.

(** [equalizeAndReport] returns, with the summary of the scenario run in
    source-major order. *)
Lemma equalizeAndReport_Some cfg gasSystem (gasComposition : GasComposition F)
    temperature verbose debug printSourceSummary :
  exists summary events,
    equalizeAndReport cfg gasSystem gasComposition temperature
      verbose debug printSourceSummary = Some (summary, events) /\
    scenarioInOrder cfg gasSystem gasComposition temperature
      (sourceMajorPairs (sourcePointers cfg) (destinationPointers cfg)) = Some summary.
Proof.
  pose proof (equalizeAndReport_scenario cfg gasSystem gasComposition temperature
                verbose debug printSourceSummary) as E.
  destruct (scenarioInOrder_sourceMajor_Some cfg gasSystem gasComposition temperature)
    as [summary Hs].
  rewrite Hs in E.
  destruct (equalizeAndReport _ _ _ _ _ _ _) as [[s e]|]; [|done].
  injection E as ->. eauto.
Qed.

End ScenarioReturns.

(** ** The scenario in ideal-gas mode and exact arithmetic *)

Section IdealScenario.
Local Open Scope R_scope.

Ltac real_fields :=
  cbn -[Rplus Rmult Rdiv Rminus Q2R]; unfold PressureFromVolumes;
  cbn -[Rplus Rmult Rdiv Rminus Q2R]; unfold Q2R;
  cbn -[Rplus Rmult Rdiv Rminus Rinv IZR].

Lemma ideal_scenario_shares cfg (gasComposition : GasComposition R) temperature :
  0 < SourceCylinderVolume cfg -> 0 < DestinationCylinderVolume cfg ->
  exists summary,
    scenarioInOrder cfg IdealGas gasComposition temperature
      (sourceMajorPairs (sourcePointers cfg) (destinationPointers cfg)) = Some summary /\
    Summary_Description summary = scenarioDescription cfg /\
    Summary_SourceCylinderPressure summary
    = DestinationCylinderPressure cfg
      + sourceShare (SourceCylinderIsTwinset cfg) (DestinationCylinderIsTwinset cfg)
          (SourceCylinderVolume cfg) (DestinationCylinderVolume cfg)
        * (SourceCylinderPressure cfg - DestinationCylinderPressure cfg) /\
    Summary_DestinationCylinderPressure summary
    = DestinationCylinderPressure cfg
      + destinationShare (SourceCylinderIsTwinset cfg) (DestinationCylinderIsTwinset cfg)
          (SourceCylinderVolume cfg) (DestinationCylinderVolume cfg)
        * (SourceCylinderPressure cfg - DestinationCylinderPressure cfg) /\
    Summary_SourceCylinderGasVolume summary
    = SourceCylinderVolume cfg * Summary_SourceCylinderPressure summary /\
    Summary_DestinationCylinderGasVolume summary
    = DestinationCylinderVolume cfg * Summary_DestinationCylinderPressure summary.
Proof.
  destruct cfg as [dt dp d st sp s]. cbn [SourceCylinderVolume DestinationCylinderVolume
    SourceCylinderPressure DestinationCylinderPressure SourceCylinderIsTwinset
    DestinationCylinderIsTwinset].
  intros Hs Hd.
  destruct dt, st; (eexists; split; [reflexivity|]; split; [reflexivity|]);
    unfold sourceShare, destinationShare; real_fields;
    (split; [|split; [|split]]); field; lra.
Qed.

(** The same for a call of [equalizeAndReport]. *)
Lemma equalizeAndReport_ideal_shares cfg (gasComposition : GasComposition R) temperature
    verbose debug printSourceSummary :
  0 < SourceCylinderVolume cfg -> 0 < DestinationCylinderVolume cfg ->
  exists summary events,
    equalizeAndReport cfg IdealGas gasComposition temperature
      verbose debug printSourceSummary = Some (summary, events) /\
    Summary_Description summary = scenarioDescription cfg /\
    Summary_SourceCylinderPressure summary
    = DestinationCylinderPressure cfg
      + sourceShare (SourceCylinderIsTwinset cfg) (DestinationCylinderIsTwinset cfg)
          (SourceCylinderVolume cfg) (DestinationCylinderVolume cfg)
        * (SourceCylinderPressure cfg - DestinationCylinderPressure cfg) /\
    Summary_DestinationCylinderPressure summary
    = DestinationCylinderPressure cfg
      + destinationShare (SourceCylinderIsTwinset cfg) (DestinationCylinderIsTwinset cfg)
          (SourceCylinderVolume cfg) (DestinationCylinderVolume cfg)
        * (SourceCylinderPressure cfg - DestinationCylinderPressure cfg) /\
    Summary_SourceCylinderGasVolume summary
    = SourceCylinderVolume cfg * Summary_SourceCylinderPressure summary /\
    Summary_DestinationCylinderGasVolume summary
    = DestinationCylinderVolume cfg * Summary_DestinationCylinderPressure summary.
Proof.
  intros Hs Hd.
  destruct (equalizeAndReport_Some cfg IdealGas gasComposition temperature
              verbose debug printSourceSummary) as (summary & events & E & E').
  destruct (ideal_scenario_shares cfg gasComposition temperature Hs Hd)
    as (summary' & E'' & Hrest).
  rewrite E' in E''. injection E'' as <-. eauto.
Qed.

Lemma Rdiv_nonneg (x y : R) : 0 <= x -> 0 < y -> 0 <= x / y.
Proof.
  intros Hx Hy. apply Rmult_le_pos; [done|]. left. by apply Rinv_0_lt_compat.
Qed.

Lemma Rle_by_difference (x y : R) : 0 <= y - x -> x <= y.
Proof. lra. Qed.

Lemma share_order st dt (s d : R) :
  0 < s -> 0 < d ->
  0 <= sourceShare st dt s d /\ sourceShare st dt s d <= destinationShare st dt s d /\
  destinationShare st dt s d <= 1.
Proof.
  intros Hs Hd.
  assert (H3 : 0 < (s + d) ^ 3) by (apply pow_lt; lra).
  assert (H2 : 0 < (s + 2 * d) ^ 2) by (apply pow_lt; lra).
  assert (H2' : 0 < (2 * s + d) ^ 2) by (apply pow_lt; lra).
  assert (Hsd : 0 < s * d) by nra.
  destruct st, dt; unfold sourceShare, destinationShare.
  - split; [apply Rdiv_nonneg; nra|]. split.
    + apply Rle_by_difference.
      replace (_ - _) with (s * d * (s + d) / (s + d) ^ 3) by (field; lra).
      apply Rdiv_nonneg; nra.
    + apply Rle_by_difference.
      replace (_ - _) with ((2 * s * d ^ 2 + d ^ 3) / (s + d) ^ 3) by (field; lra).
      apply Rdiv_nonneg; [|done]. assert (0 < d ^ 3) by (apply pow_lt; lra). nra.
  - split; [apply Rdiv_nonneg; nra|]. split.
    + apply Rle_by_difference.
      replace (_ - _) with (s * d / (s + 2 * d) ^ 2) by (field; lra).
      apply Rdiv_nonneg; nra.
    + apply Rle_by_difference.
      replace (_ - _) with (4 * d ^ 2 / (s + 2 * d) ^ 2) by (field; lra).
      apply Rdiv_nonneg; nra.
  - split; [apply Rdiv_nonneg; nra|]. split.
    + apply Rle_by_difference.
      replace (_ - _) with (s * d / (2 * s + d) ^ 2) by (field; lra).
      apply Rdiv_nonneg; nra.
    + apply Rle_by_difference.
      replace (_ - _) with ((3 * s * d + d ^ 2) / (2 * s + d) ^ 2) by (field; lra).
      apply Rdiv_nonneg; nra.
  - split; [apply Rdiv_nonneg; lra|]. split; [lra|].
    apply Rle_by_difference. replace (_ - _) with (d / (s + d)) by (field; lra).
    apply Rdiv_nonneg; lra.
Qed.

Lemma destinationShare_open_least st dt (s d : R) :
  0 < s -> 0 < d -> destinationShare false false s d <= destinationShare st dt s d.
Proof.
  intros Hs Hd.
  assert (H1 : 0 < s + d) by lra.
  assert (H3 : 0 < (s + d) ^ 3) by (apply pow_lt; lra).
  assert (H2 : 0 < (s + 2 * d) ^ 2 * (s + d))
    by (apply Rmult_lt_0_compat; [apply pow_lt|]; lra).
  assert (H2' : 0 < (2 * s + d) ^ 2 * (s + d))
    by (apply Rmult_lt_0_compat; [apply pow_lt|]; lra).
  assert (Hn : 0 <= s ^ 2 * d) by nra.
  destruct st, dt; unfold destinationShare; apply Rle_by_difference.
  - replace (_ - _) with (s ^ 2 * d / (s + d) ^ 3) by (field; lra).
    by apply Rdiv_nonneg.
  - replace (_ - _) with (s ^ 2 * d / ((s + 2 * d) ^ 2 * (s + d))) by (field; lra).
    by apply Rdiv_nonneg.
  - replace (_ - _) with (s ^ 2 * d / ((2 * s + d) ^ 2 * (s + d))) by (field; lra).
    by apply Rdiv_nonneg.
  - lra.
Qed.

Lemma share_conservation st dt (s d : R) :
  0 < s -> 0 < d -> s * sourceShare st dt s d + d * destinationShare st dt s d = s.
Proof.
  intros Hs Hd. destruct st, dt; unfold sourceShare, destinationShare; field; lra.
Qed.

(** Property X6.  In ideal-gas mode and exact arithmetic a scenario neither
    makes nor loses gas: the gas volumes of the summary add up to what the two
    sides held at the start. *)
Theorem equalizeAndReport_conserves_ideal_gas cfg (gasComposition : GasComposition R)
    temperature verbose debug printSourceSummary :
  0 < SourceCylinderVolume cfg -> 0 < DestinationCylinderVolume cfg ->
  exists summary events,
    equalizeAndReport cfg IdealGas gasComposition temperature
      verbose debug printSourceSummary = Some (summary, events) /\
    Summary_SourceCylinderGasVolume summary + Summary_DestinationCylinderGasVolume summary
    = SourceCylinderVolume cfg * SourceCylinderPressure cfg
      + DestinationCylinderVolume cfg * DestinationCylinderPressure cfg.
Proof.
  intros Hs Hd.
  destruct (equalizeAndReport_ideal_shares cfg gasComposition temperature
              verbose debug printSourceSummary Hs Hd)
    as (summary & events & E & _ & Esp & Edp & Esg & Edg).
  exists summary, events. split; [done|].
  rewrite Esg, Edg, Esp, Edp.
  pose proof (share_conservation (SourceCylinderIsTwinset cfg)
                (DestinationCylinderIsTwinset cfg) _ _ Hs Hd) as Hc.
  set (ss := sourceShare _ _ _ _) in *. set (ds := destinationShare _ _ _ _) in *.
  set (s := SourceCylinderVolume cfg) in *. set (d := DestinationCylinderVolume cfg) in *.
  set (sp := SourceCylinderPressure cfg). set (dp := DestinationCylinderPressure cfg).
  replace (s * (dp + ss * (sp - dp)) + d * (dp + ds * (sp - dp)))
    with ((s + d) * dp + (s * ss + d * ds) * (sp - dp)) by ring.
  rewrite Hc. ring.
Qed.

(** Property X7.  With all manifolds open both sides end at one pressure, the
    total gas volume divided by the total cylinder volume. *)
Theorem equalizeAndReport_all_manifolds_open cfg (gasComposition : GasComposition R)
    temperature verbose debug printSourceSummary :
  SourceCylinderIsTwinset cfg = false -> DestinationCylinderIsTwinset cfg = false ->
  0 < SourceCylinderVolume cfg -> 0 < DestinationCylinderVolume cfg ->
  exists summary events,
    equalizeAndReport cfg IdealGas gasComposition temperature
      verbose debug printSourceSummary = Some (summary, events) /\
    Summary_SourceCylinderPressure summary
    = (SourceCylinderVolume cfg * SourceCylinderPressure cfg
       + DestinationCylinderVolume cfg * DestinationCylinderPressure cfg)
      / (SourceCylinderVolume cfg + DestinationCylinderVolume cfg) /\
    Summary_DestinationCylinderPressure summary = Summary_SourceCylinderPressure summary.
Proof.
  intros Hst Hdt Hs Hd.
  destruct (equalizeAndReport_ideal_shares cfg gasComposition temperature
              verbose debug printSourceSummary Hs Hd)
    as (summary & events & E & _ & Esp & Edp & _).
  exists summary, events. split; [done|].
  rewrite Esp, Edp, Hst, Hdt. unfold sourceShare, destinationShare.
  split; [field; lra|done].
Qed.

(** Property X8.  The pressures of the summary in closed form, for each of the
    four kinds of scenario. *)
Theorem equalizeAndReport_ideal_closed_form cfg (gasComposition : GasComposition R)
    temperature verbose debug printSourceSummary :
  0 < SourceCylinderVolume cfg -> 0 < DestinationCylinderVolume cfg ->
  exists summary events,
    equalizeAndReport cfg IdealGas gasComposition temperature
      verbose debug printSourceSummary = Some (summary, events) /\
    Summary_SourceCylinderPressure summary
    = DestinationCylinderPressure cfg
      + sourceShare (SourceCylinderIsTwinset cfg) (DestinationCylinderIsTwinset cfg)
          (SourceCylinderVolume cfg) (DestinationCylinderVolume cfg)
        * (SourceCylinderPressure cfg - DestinationCylinderPressure cfg) /\
    Summary_DestinationCylinderPressure summary
    = DestinationCylinderPressure cfg
      + destinationShare (SourceCylinderIsTwinset cfg) (DestinationCylinderIsTwinset cfg)
          (SourceCylinderVolume cfg) (DestinationCylinderVolume cfg)
        * (SourceCylinderPressure cfg - DestinationCylinderPressure cfg).
Proof.
  intros Hs Hd.
  destruct (equalizeAndReport_ideal_shares cfg gasComposition temperature
              verbose debug printSourceSummary Hs Hd)
    as (summary & events & E & _ & Esp & Edp & _).
  eauto.
Qed.

(** Property X9.  When the source starts at no less than the destination, the
    destination ends at no less than the source, and both end between the two
    initial pressures. *)
Theorem equalizeAndReport_ideal_pressures_ordered cfg (gasComposition : GasComposition R)
    temperature verbose debug printSourceSummary :
  0 < SourceCylinderVolume cfg -> 0 < DestinationCylinderVolume cfg ->
  DestinationCylinderPressure cfg <= SourceCylinderPressure cfg ->
  exists summary events,
    equalizeAndReport cfg IdealGas gasComposition temperature
      verbose debug printSourceSummary = Some (summary, events) /\
    DestinationCylinderPressure cfg <= Summary_SourceCylinderPressure summary /\
    Summary_SourceCylinderPressure summary <= Summary_DestinationCylinderPressure summary /\
    Summary_DestinationCylinderPressure summary <= SourceCylinderPressure cfg.
Proof.
  intros Hs Hd Hp.
  destruct (equalizeAndReport_ideal_shares cfg gasComposition temperature
              verbose debug printSourceSummary Hs Hd)
    as (summary & events & E & _ & Esp & Edp & _).
  exists summary, events. split; [done|].
  rewrite Esp, Edp.
  pose proof (share_order (SourceCylinderIsTwinset cfg) (DestinationCylinderIsTwinset cfg)
                _ _ Hs Hd) as (H0 & H1 & H2).
  nra.
Qed.

(** Property X10.  Closing the manifolds never leaves the destination with
    less: the destination pressure of a scenario is at least the one of the
    scenario with all manifolds open. *)
Theorem closed_manifolds_fill_no_less cfg (gasComposition : GasComposition R)
    temperature verbose debug printSourceSummary :
  0 < SourceCylinderVolume cfg -> 0 < DestinationCylinderVolume cfg ->
  DestinationCylinderPressure cfg <= SourceCylinderPressure cfg ->
  exists summary events summaryOpen eventsOpen,
    equalizeAndReport cfg IdealGas gasComposition temperature
      verbose debug printSourceSummary = Some (summary, events) /\
    equalizeAndReport
      (setSourceCylinderIsTwinset (setDestinationCylinderIsTwinset cfg false) false)
      IdealGas gasComposition temperature verbose debug printSourceSummary
    = Some (summaryOpen, eventsOpen) /\
    Summary_DestinationCylinderPressure summaryOpen
    <= Summary_DestinationCylinderPressure summary.
Proof.
  intros Hs Hd Hp.
  destruct (equalizeAndReport_ideal_shares cfg gasComposition temperature
              verbose debug printSourceSummary Hs Hd)
    as (summary & events & E & _ & _ & Edp & _).
  destruct (equalizeAndReport_ideal_shares
              (setSourceCylinderIsTwinset (setDestinationCylinderIsTwinset cfg false) false)
              gasComposition temperature verbose debug printSourceSummary Hs Hd)
    as (summaryOpen & eventsOpen & E' & _ & _ & Edp' & _).
  exists summary, events, summaryOpen, eventsOpen. split; [done|]. split; [done|].
  rewrite Edp, Edp'.
  cbn [setSourceCylinderIsTwinset setDestinationCylinderIsTwinset
       DestinationCylinderIsTwinset DestinationCylinderPressure DestinationCylinderVolume
       SourceCylinderIsTwinset SourceCylinderPressure SourceCylinderVolume].
  pose proof (destinationShare_open_least (SourceCylinderIsTwinset cfg)
                (DestinationCylinderIsTwinset cfg) _ _ Hs Hd).
  nra.
Qed.

End IdealScenario.

(** ** The driver *)

Section MainFacts.
Context {F : Type} `{Float64 F} `{MathLib F} `{Float64Order F}.
Local Open Scope f64_scope.

Lemma setSummary_Some (a : nat) (summary : CylinderSummary F) l :
  (a < length l)%nat -> setSummary a summary l = Some (<[a := summary]> l).
Proof. intros Ha. unfold setSummary. by rewrite decide_True. Qed.

(** What a run of [main] that passes the checks does. *)
Lemma main_passes (flags : Flags F) :
  Forall (fun b => b = false) (main_checks flags) ->
  exists results events,
    Forall2 (fun cfg summary =>
               scenarioInOrder cfg (main_gasSystem flags) (main_gasComposition flags)
                 (main_temperature flags)
                 (sourceMajorPairs (sourcePointers cfg) (destinationPointers cfg))
               = Some summary)
            (main_scenarios flags) results /\
    main flags
    = Returned (results ++ replicate (4 - length results) zeroSummary) events.
Proof.
  intros Hc. unfold main_checks in Hc.
  repeat match goal with
         | Hc : Forall _ (_ :: _) |- _ => apply Forall_cons in Hc as [? Hc]
         end.
  unfold main.
  repeat match goal with
         | E : ?b = false |- context [if ?b then _ else _] => rewrite E
         end.
  cbv zeta. unfold main_scenarios.
  set (gs := main_gasSystem flags). set (gc := main_gasComposition flags).
  set (T := main_temperature flags). clearbody gs gc T.
  unfold main_cylinderConfiguration.
  pose proof (fun c v d => equalizeAndReport_Some c gs gc T v d true) as Hrun.
  destruct (sourceCylinderIsTwinsetFlag flags), (destinationCylinderIsTwinsetFlag flags);
    unfold setSourceCylinderIsTwinset, setDestinationCylinderIsTwinset;
    cbn [orb app DestinationCylinderIsTwinset DestinationCylinderPressure
         DestinationCylinderVolume
         SourceCylinderIsTwinset SourceCylinderPressure SourceCylinderVolume];
    repeat match goal with
           | |- context [equalizeAndReport ?c gs gc T ?v ?d true] =>
               let s := fresh "s" in
               let e := fresh "e" in
               let E := fresh "E" in
               let E' := fresh "E'" in
               destruct (Hrun c v d) as (s & e & E & E');
               rewrite !E; clear E;
               cbn [mbind option_bind];
               rewrite !setSummary_Some by (cbn; lia);
               cbn [mbind option_bind replicate list_insert insert
                    DestinationCylinderIsTwinset DestinationCylinderPressure
                    DestinationCylinderVolume
                    SourceCylinderIsTwinset SourceCylinderPressure SourceCylinderVolume]
           end;
    repeat match goal with
           | E1 : ?x = Some ?a, E2 : ?x = Some ?b |- _ =>
               rewrite E1 in E2; injection E2 as <-
           end;
    (eexists _, _; split;
     [repeat (apply List.Forall2_cons; [eassumption|]); apply List.Forall2_nil|reflexivity]).
Qed.

(** A run of [main] that returns has passed the checks. *)
Lemma main_Returned_checks (flags : Flags F) cylinderSummaries events :
  main flags = Returned cylinderSummaries events ->
  Forall (fun b => b = false) (main_checks flags).
Proof.
  unfold main, main_checks. intros E.
  repeat match type of E with
         | context [if ?b then Exited _ _ else _] => destruct b; [discriminate E|]
         end.
  repeat constructor.
Qed.

(** The summary of a scenario carries the description of its configuration. *)
Lemma scenario_description cfg gasSystem (gasComposition : GasComposition F) temperature
    summary :
  scenarioInOrder cfg gasSystem gasComposition temperature
    (sourceMajorPairs (sourcePointers cfg) (destinationPointers cfg)) = Some summary ->
  Summary_Description summary = scenarioDescription cfg.
Proof.
  destruct cfg as [dt dp dv st sp sv].
  destruct dt, st, gasSystem; intros E;
    match type of E with
    | ?run = _ => eassert (E' : run = Some _) by reflexivity
    end;
    rewrite E' in E; injection E as <-; reflexivity.
Qed.


(** Property X12.  The descriptions of the entries of the slice, hence the
    rows of the table [printSummaries] prints (an entry with an empty
    description prints no row): with exactly one twinset, the scenario with
    all manifolds open is run and listed twice. *)
Theorem main_scenario_descriptions (flags : Flags F) cylinderSummaries events :
  main flags = Returned cylinderSummaries events ->
  map Summary_Description cylinderSummaries
  = match sourceCylinderIsTwinsetFlag flags, destinationCylinderIsTwinsetFlag flags with
    | true, true =>
        ["both manifolds closed"; "destination manifold closed";
         "source manifold closed"; "all manifolds open"]
    | true, false =>
        ["source manifold closed"; "all manifolds open"; "all manifolds open"; EmptyString]
    | false, true =>
        ["destination manifold closed"; "all manifolds open"; "all manifolds open";
         EmptyString]
    | false, false => ["all manifolds open"; EmptyString; EmptyString; EmptyString]
    end%string.
Proof.
  intros E. apply main_Returned_checks in E as Hc.
  destruct (main_passes flags Hc) as (results & events' & Hres & E').
  rewrite E in E'. injection E' as -> _.
  assert (Hd : Forall2 (fun cfg summary =>
                          Summary_Description summary = scenarioDescription cfg)
                       (main_scenarios flags) results).
  { eapply Forall2_impl; [exact Hres|]. intros cfg summary Hs.
    exact (scenario_description _ _ _ _ _ Hs). }
  unfold main_scenarios, main_cylinderConfiguration in Hd.
  destruct (sourceCylinderIsTwinsetFlag flags), (destinationCylinderIsTwinsetFlag flags);
    cbn [app orb] in Hd;
    repeat match goal with
           | Hd : Forall2 _ (_ :: _) _ |- _ =>
               apply Forall2_cons_inv_l in Hd as (? & ? & ? & Hd & ->)
           | Hd : Forall2 _ [] _ |- _ => apply Forall2_nil_inv_l in Hd as ->
           end;
    cbn [map app length replicate Nat.sub zeroSummary Summary_Description];
    repeat match goal with E : Summary_Description _ = _ |- _ => rewrite E; clear E end;
    reflexivity.
Qed.

End MainFacts.

Section RealDriver.
Local Open Scope R_scope.


Lemma flt_R_false (x y : R) : flt x y = false <-> y <= x.
Proof. cbn. destruct (Rlt_dec x y); split; (done || lra). Qed.

Lemma fle_R_false (x y : R) : fle x y = false <-> y < x.
Proof. cbn. destruct (Rle_dec x y); split; (done || lra). Qed.

Lemma feq_R (x y : R) : feq x y = true <-> x = y.
Proof. cbn. destruct (Req_dec_T x y); split; (done || lra). Qed.

Lemma lit_Z_R (z : Z) : lit (F := R) (inject_Z z) = IZR z.
Proof. cbn. unfold Q2R. cbn. lra. Qed.

Lemma main_checks_valid (flags : Flags R) :
  Forall (fun b => b = false) (main_checks flags) <-> validFlags flags.
Proof.
  unfold main_checks, validFlags.
  rewrite !Forall_cons, !orb_false_iff, !flt_R_false, !fle_R_false.
  change (lit (-30)) with (lit (F := R) (inject_Z (-30))).
  change (lit 80) with (lit (F := R) (inject_Z 80)).
  change (lit 1) with (lit (F := R) (inject_Z 1)).
  change (lit 350) with (lit (F := R) (inject_Z 350)).
  change (lit 0) with (lit (F := R) (inject_Z 0)).
  change (lit 1000) with (lit (F := R) (inject_Z 1000)).
  rewrite !lit_Z_R.
  split.
  - intros ((? & ?) & ? & (? & ?) & (? & ?) & ? & (? & ?) & (? & ?) & _). lra.
  - intros (? & ? & ? & ? & ? & ? & ?). repeat split; try lra. constructor.
Qed.


(** *** The reference pressure of the table *)

Lemma worst_fold_positive (cylinderSummaries : list (CylinderSummary R)) (w : R) :
  0 < w ->
  Forall (fun s => 0 < Summary_DestinationCylinderPressure s) cylinderSummaries ->
  let r := foldl (fun w s => if flt (Summary_DestinationCylinderPressure s) w
                                 || feq w (lit 0)
                             then Summary_DestinationCylinderPressure s else w)
                 w cylinderSummaries in
  0 < r /\ r <= w /\
  Forall (fun s => r <= Summary_DestinationCylinderPressure s) cylinderSummaries /\
  (r = w \/ exists s, s ∈ cylinderSummaries /\ r = Summary_DestinationCylinderPressure s).
Proof.
  intros Hw Hall. revert w Hw.
  induction Hall as [|s ss Hs Hall IH]; intros w Hw; cbn [foldl].
  - repeat split; [done|lra|constructor|by left].
  - cbv zeta in IH.
    set (w' := if flt (Summary_DestinationCylinderPressure s) w || feq w (lit 0)
               then Summary_DestinationCylinderPressure s else w).
    assert (Hw' : 0 < w' /\ w' <= w /\ w' <= Summary_DestinationCylinderPressure s /\
                  (w' = w \/ w' = Summary_DestinationCylinderPressure s)).
    { unfold w'. cbn [flt feq Rorder]. rewrite lit_0_R.
      destruct (Rlt_dec _ w); cbn [orb]; [lra|].
      destruct (Req_dec_T w 0); lra. }
    destruct Hw' as (Hpos & Hle & Hles & Hor).
    destruct (IH w' Hpos) as (Hr & Hrw & Hrall & Hror).
    repeat split; [done|lra| |].
    + constructor; [lra|done].
    + destruct Hror as [->|(s' & Hin & ->)].
      * destruct Hor as [->| ->]; [by left|]. right. exists s. split; [|done].
        apply list_elem_of_here.
      * right. exists s'. split; [|done]. by apply list_elem_of_further.
Qed.

Lemma worst_least (cylinderSummaries : list (CylinderSummary R)) :
  cylinderSummaries <> [] ->
  Forall (fun s => 0 < Summary_DestinationCylinderPressure s) cylinderSummaries ->
  (exists s, s ∈ cylinderSummaries /\
     worstDestinationPressure cylinderSummaries = Summary_DestinationCylinderPressure s) /\
  Forall (fun s => worstDestinationPressure cylinderSummaries
                   <= Summary_DestinationCylinderPressure s) cylinderSummaries.
Proof.
  intros Hne Hall. destruct cylinderSummaries as [|s ss]; [done|].
  apply Forall_cons in Hall as [Hs Hall].
  unfold worstDestinationPressure. cbn [foldl].
  assert (E : (if flt (Summary_DestinationCylinderPressure s) (lit 0)
                  || feq (lit (F := R) 0) (lit 0)
               then Summary_DestinationCylinderPressure s else lit 0)
              = Summary_DestinationCylinderPressure s).
  { cbn [feq Rorder]. destruct (Req_dec_T _ _); [|done]. by rewrite orb_true_r. }
  rewrite E.
  destruct (worst_fold_positive ss _ Hs Hall) as (Hr & Hrw & Hrall & Hror).
  cbv zeta in *. split.
  - destruct Hror as [->|(s' & Hin & ->)].
    + exists s. split; [apply list_elem_of_here|done].
    + exists s'. split; [by apply list_elem_of_further|done].
  - constructor; done.
Qed.

Lemma worst_fold_nonneg (cylinderSummaries : list (CylinderSummary R)) (w : R) :
  0 <= w ->
  Forall (fun s => 0 <= Summary_DestinationCylinderPressure s) cylinderSummaries ->
  0 <= foldl (fun w s => if flt (Summary_DestinationCylinderPressure s) w
                            || feq w (lit 0)
                         then Summary_DestinationCylinderPressure s else w)
             w cylinderSummaries.
Proof.
  intros Hw Hall. revert w Hw.
  induction Hall as [|s ss Hs Hall IH]; intros w Hw; cbn [foldl]; [done|].
  apply IH. destruct (_ || _); done.
Qed.

Lemma worst_fold_zeros (cylinderSummaries : list (CylinderSummary R)) (w : R) :
  0 <= w -> cylinderSummaries <> [] ->
  Forall (fun s => Summary_DestinationCylinderPressure s = 0) cylinderSummaries ->
  foldl (fun w s => if flt (Summary_DestinationCylinderPressure s) w || feq w (lit 0)
                    then Summary_DestinationCylinderPressure s else w)
        w cylinderSummaries = 0.
Proof.
  intros Hw Hne Hall. revert w Hw Hne.
  induction Hall as [|s ss Hs Hall IH]; intros w Hw Hne; [done|]. cbn [foldl].
  assert (E : (if flt (Summary_DestinationCylinderPressure s) w || feq w (lit 0)
               then Summary_DestinationCylinderPressure s else w) = 0).
  { rewrite Hs. cbn [flt feq Rorder]. rewrite lit_0_R.
    destruct (Rlt_dec 0 w); cbn [orb]; [done|].
    destruct (Req_dec_T w 0); [done|lra]. }
  rewrite E. destruct ss as [|s' ss']; [done|]. apply IH; [lra|done].
Qed.

Lemma worst_trailing_zeros (cylinderSummaries unused : list (CylinderSummary R)) :
  Forall (fun s => 0 <= Summary_DestinationCylinderPressure s) cylinderSummaries ->
  unused <> [] ->
  Forall (fun s => Summary_DestinationCylinderPressure s = 0) unused ->
  worstDestinationPressure (cylinderSummaries ++ unused) = 0.
Proof.
  intros Hall Hne Hz. unfold worstDestinationPressure. rewrite foldl_app.
  apply worst_fold_zeros; [|done|done].
  apply worst_fold_nonneg; [|done]. rewrite lit_0_R. lra.
Qed.

(** Property X14.  In exact arithmetic, the reference pressure
    [printSummaries] computes for a non-empty slice of summaries whose
    destination pressures are all positive is the least of these pressures. *)
Theorem worstDestinationPressure_is_least (cylinderSummaries : list (CylinderSummary R)) :
  cylinderSummaries <> [] ->
  Forall (fun s => 0 < Summary_DestinationCylinderPressure s) cylinderSummaries ->
  (exists s, s ∈ cylinderSummaries /\
     worstDestinationPressure cylinderSummaries = Summary_DestinationCylinderPressure s) /\
  Forall (fun s => worstDestinationPressure cylinderSummaries
                   <= Summary_DestinationCylinderPressure s) cylinderSummaries.
Proof. apply worst_least. Qed.

(** Property X15.  In exact arithmetic, when the slice ends with entries whose
    destination pressure is 0 (as the entries [main] leaves unused are) and no
    pressure before them is negative, the reference pressure is 0. *)
Theorem worstDestinationPressure_zero_entries
    (cylinderSummaries unused : list (CylinderSummary R)) :
  Forall (fun s => 0 <= Summary_DestinationCylinderPressure s) cylinderSummaries ->
  unused <> [] ->
  Forall (fun s => Summary_DestinationCylinderPressure s = 0) unused ->
  worstDestinationPressure (cylinderSummaries ++ unused) = 0.
Proof. apply worst_trailing_zeros. Qed.

End RealDriver.

Section RealMain.
Local Open Scope R_scope.

Lemma Forall2_impl_Forall {X Y : Type} (P Q : X -> Y -> Prop) (I : X -> Prop) l k :
  Forall2 P l k -> Forall I l -> (forall x y, I x -> P x y -> Q x y) -> Forall2 Q l k.
Proof.
  intros HP HI Himpl. induction HP as [|x y l k Hxy HP IH]; [constructor|].
  apply Forall_cons in HI as [Hx HI]. constructor; auto.
Qed.

Lemma main_scenarios_same_cylinders (flags : Flags R) :
  Forall (fun cfg =>
            SourceCylinderVolume cfg = sourceCylinderVolumeFlag flags /\
            DestinationCylinderVolume cfg = destinationCylinderVolumeFlag flags /\
            SourceCylinderPressure cfg = sourceCylinderPressureFlag flags /\
            DestinationCylinderPressure cfg = destinationCylinderPressureFlag flags)
         (main_scenarios flags).
Proof.
  unfold main_scenarios.
  destruct (sourceCylinderIsTwinsetFlag flags), (destinationCylinderIsTwinsetFlag flags);
    repeat constructor.
Qed.

(** What [main] passes to [printSummaries] in ideal-gas mode. *)
Lemma main_ideal_results (flags : Flags R) :
  validFlags flags -> useIdealGasFlag flags = true ->
  exists results events,
    main flags = Returned (results ++ replicate (4 - length results) zeroSummary) events /\
    Forall2 (fun cfg summary =>
               Summary_Description summary = scenarioDescription cfg /\
               Summary_DestinationCylinderPressure summary
               = destinationCylinderPressureFlag flags
                 + destinationShare (SourceCylinderIsTwinset cfg)
                     (DestinationCylinderIsTwinset cfg)
                     (sourceCylinderVolumeFlag flags) (destinationCylinderVolumeFlag flags)
                   * (sourceCylinderPressureFlag flags
                      - destinationCylinderPressureFlag flags))
            (main_scenarios flags) results.
Proof.
  intros Hv Hideal. pose proof Hv as (_ & _ & _ & _ & _ & Hd & Hs).
  apply main_checks_valid in Hv.
  destruct (main_passes flags Hv) as (results & events & Hres & E).
  exists results, events. split; [done|].
  eapply Forall2_impl_Forall; [exact Hres|apply main_scenarios_same_cylinders|].
  intros cfg summary (EVs & EVd & EPs & EPd) Hsc. cbv beta in Hsc.
  unfold main_gasSystem in Hsc. rewrite Hideal in Hsc.
  destruct (ideal_scenario_shares cfg (main_gasComposition flags) (main_temperature flags))
    as (summary' & E' & Edesc & _ & Edp & _); [lra|lra|].
  rewrite Hsc in E'. injection E' as <-.
  rewrite Edp, EVs, EVd, EPs, EPd. done.
Qed.

(** Property X16.  In ideal-gas mode and exact arithmetic, for flags [main]
    accepts: unless both sides are twinsets, the slice [main] hands to
    [printSummaries] ends with unused entries, and the reference pressure
    [printSummaries] computes from it is 0; the last column of its table is
    then a quotient by 0. *)
Theorem main_reference_pressure_zero (flags : Flags R) :
  validFlags flags -> useIdealGasFlag flags = true ->
  sourceCylinderIsTwinsetFlag flags && destinationCylinderIsTwinsetFlag flags = false ->
  exists cylinderSummaries events,
    main flags = Returned cylinderSummaries events /\
    last cylinderSummaries = Some zeroSummary /\
    worstDestinationPressure cylinderSummaries = 0.
Proof.
  intros Hv Hideal Htwin.
  destruct (main_ideal_results flags Hv Hideal) as (results & events & E & Hres).
  destruct Hv as (_ & _ & Hdp & Hsp & Hle & Hd & Hs).
  pose proof (Forall2_length _ _ _ Hres) as Hlen.
  assert (Hunused : exists n, (4 - length results)%nat = S n).
  { rewrite <- Hlen. unfold main_scenarios.
    destruct (sourceCylinderIsTwinsetFlag flags), (destinationCylinderIsTwinsetFlag flags);
      try discriminate Htwin; cbn; eauto. }
  destruct Hunused as [n Hn]. rewrite Hn in E.
  eexists _, _. split; [exact E|]. split.
  - rewrite replicate_S_end, app_assoc. apply last_snoc.
  - apply worst_trailing_zeros; [|done|].
    + eapply Forall2_Forall_r; [exact Hres|]. apply Forall_forall.
      intros cfg _ summary [_ ->].
      pose proof (share_order (SourceCylinderIsTwinset cfg) (DestinationCylinderIsTwinset cfg)
                    (sourceCylinderVolumeFlag flags) (destinationCylinderVolumeFlag flags))
        as (H0 & H1 & _); [lra|lra|].
      nra.
    + apply Forall_replicate. cbn [zeroSummary Summary_DestinationCylinderPressure].
      apply lit_0_R.
Qed.

(** Property X17.  In ideal-gas mode and exact arithmetic, for flags [main]
    accepts with both sides twinsets: the four entries of the slice are the
    summaries of the four scenarios, the reference pressure of the table is
    the destination pressure of the last one (all manifolds open), it is
    positive, and no row of the table shows a negative improvement. *)
Theorem main_improvement_not_negative (flags : Flags R) :
  validFlags flags -> useIdealGasFlag flags = true ->
  sourceCylinderIsTwinsetFlag flags = true ->
  destinationCylinderIsTwinsetFlag flags = true ->
  exists cylinderSummaries events,
    main flags = Returned cylinderSummaries events /\
    length cylinderSummaries = 4%nat /\
    (exists summaryOpen,
       last cylinderSummaries = Some summaryOpen /\
       Summary_Description summaryOpen = "all manifolds open"%string /\
       Summary_DestinationCylinderPressure summaryOpen
       = worstDestinationPressure cylinderSummaries) /\
    0 < worstDestinationPressure cylinderSummaries /\
    Forall (fun s => 0 <= improvement s (worstDestinationPressure cylinderSummaries))
           cylinderSummaries.
Proof.
  intros Hv Hideal Hst Hdt.
  destruct (main_ideal_results flags Hv Hideal) as (results & events & E & Hres).
  destruct Hv as (_ & _ & Hdp & Hsp & Hle & [Hd _] & [Hs _]).
  unfold main_scenarios, main_cylinderConfiguration in Hres. rewrite Hst, Hdt in Hres.
  unfold setSourceCylinderIsTwinset, setDestinationCylinderIsTwinset in Hres.
  cbn [app orb DestinationCylinderIsTwinset SourceCylinderIsTwinset] in Hres.
  set (s := sourceCylinderVolumeFlag flags) in *.
  set (d := destinationCylinderVolumeFlag flags) in *.
  set (sp := sourceCylinderPressureFlag flags) in *.
  set (dp := destinationCylinderPressureFlag flags) in *.
  repeat match goal with
         | Hd : Forall2 _ (_ :: _) _ |- _ =>
             let E := fresh "P" in
             let D := fresh "D" in
             apply Forall2_cons_inv_l in Hd as (? & ? & [D E] & Hd & ->);
             cbn [DestinationCylinderIsTwinset SourceCylinderIsTwinset] in E
         | Hd : Forall2 _ [] _ |- _ => apply Forall2_nil_inv_l in Hd as ->
         end.
  cbn [length Nat.sub replicate] in E. rewrite app_nil_r in E.
  match type of E with _ = Returned ?l _ => set (ss := l) in * end.
  pose proof (destinationShare_open_least true true s d Hs Hd) as L1.
  pose proof (destinationShare_open_least false true s d Hs Hd) as L2.
  pose proof (destinationShare_open_least true false s d Hs Hd) as L3.
  assert (Hopen : 0 < destinationShare false false s d).
  { unfold destinationShare. apply Rdiv_lt_0_compat; lra. }
  assert (Hp4 : 0 < dp + destinationShare false false s d * (sp - dp)).
  { pose proof (share_order false false s d Hs Hd) as (_ & _ & H1). nra. }
  assert (Hall : Forall (fun x => dp + destinationShare false false s d * (sp - dp)
                                  <= Summary_DestinationCylinderPressure x) ss).
  { unfold ss.
    repeat (apply List.Forall_cons; [rewrite ?P, ?P0, ?P1, ?P2; nra|]).
    apply List.Forall_nil. }
  assert (Hpos : Forall (fun x => 0 < Summary_DestinationCylinderPressure x) ss).
  { eapply Forall_impl; [exact Hall|]. intros z Hz. cbv beta in Hz. lra. }
  destruct (worst_least ss) as ((y & Hin & Ex) & Hleast); [done|done|].
  assert (Ew : worstDestinationPressure ss
               = dp + destinationShare false false s d * (sp - dp)).
  { apply Rle_antisym.
    - rewrite Forall_forall in Hleast.
      etrans; [apply (Hleast x2); unfold ss;
               do 3 apply list_elem_of_further; apply list_elem_of_here|].
      rewrite P2. lra.
    - rewrite Ex. rewrite Forall_forall in Hall. by apply Hall. }
  exists ss, events. split; [done|]. split; [done|]. split; [|split].
  - exists x2. split; [reflexivity|]. split; [exact D2|]. rewrite Ew, P2. done.
  - rewrite Ew. done.
  - eapply Forall_impl; [exact Hall|]. intros z Hz. cbv beta in Hz.
    unfold improvement. rewrite Ew. cbn [fmul fsub fdiv Rarith].
    change (lit 100) with (lit (F := R) (inject_Z 100)). rewrite lit_Z_R.
    apply Rdiv_nonneg; [|done]. lra.
Qed.

End RealMain.

(** ** What a scenario prints, and the revisions of the program *)

Section Revisions.
Context {F : Type} `{Float64 F} `{MathLib F}.
Local Open Scope f64_scope.

(** Property X18.  Without [verbose] and [debug] a scenario prints four lines:
    the description, the gas volume and pressure of the source, those of the
    destination, and an empty line; [printSourceSummary] changes nothing. *)
Theorem equalizeAndReport_quiet_output cfg gasSystem (gasComposition : GasComposition F)
    temperature printSourceSummary :
  exists summary events,
    equalizeAndReport cfg gasSystem gasComposition temperature false false
      printSourceSummary = Some (summary, events) /\
    output events
    = [ Println [VStr "Equalizing with"; VStr (Summary_Description summary)];
        Printf "Source cylinders: %.0fl, %.0fbar"
          [VNum (Summary_SourceCylinderGasVolume summary);
           VNum (Summary_SourceCylinderPressure summary)];
        Printf "Destination cylinders: %.0fl, %.0fbar"
          [VNum (Summary_DestinationCylinderGasVolume summary);
           VNum (Summary_DestinationCylinderPressure summary)];
        Println [] ].
Proof.
  destruct cfg as [dt dp dv st sp sv].
  destruct dt, st, gasSystem, printSourceSummary; eexists _, _; split; reflexivity.
Qed.

(** Property X19.  In ideal-gas mode [equalizeAndReport] of the latest
    revision prints what the one of [app.go] prints and returns the same
    summary, but for the gas weights the latter does not have. *)
Theorem equalizeAndReport_IdealGas_AppGo cfg (gasComposition : GasComposition F)
    temperature verbose debug printSourceSummary :
  AppGoReport.equalizeAndReport cfg verbose debug printSourceSummary
  = (fun '(summary, events) => (withoutGasWeights summary, events))
      <$> equalizeAndReport cfg IdealGas gasComposition temperature
            verbose debug printSourceSummary.
Proof.
  destruct cfg as [dt dp dv st sp sv].
  destruct dt, st, verbose, debug, printSourceSummary; reflexivity.
Qed.

End Revisions.

Section RealRevisions.
Local Open Scope R_scope.

Lemma foldl_Rplus_filter {X : Type} (step : R -> X -> R) (f : X -> R) (keep : X -> bool)
    (l : list X) (a : R) :
  (forall a x, step a x = a + f x) ->
  (forall x, keep x = false -> f x = 0) ->
  foldl step a (List.filter keep l) = foldl step a l.
Proof.
  intros Hstep Hkeep. revert a.
  induction l as [|x l IH]; intros a; cbn [List.filter foldl]; [done|].
  destruct (keep x) eqn:E; cbn [foldl]; [apply IH|].
  rewrite IH, Hstep, (Hkeep x E). f_equal. lra.
Qed.

Lemma MolesToPressure_no_moles (V T : R) (vdwConstants : VanDerWaalsConstant R) :
  MolesToPressure V 0 T vdwConstants = 0.
Proof. unfold MolesToPressure. cbn [fmul Rarith]. lra. Qed.

(** Property X20.  In exact arithmetic a gas whose fraction in the composition
    is 0 contributes nothing to the pressure [cylinderMolesToPressure]
    computes: the entries with a zero fraction can be left out. *)
Theorem cylinderMolesToPressure_ignores_absent_gases (V n T : R)
    (gasComposition : GasComposition R) :
  cylinderMolesToPressure V n T
    (List.filter (fun entry => if Req_dec_T entry.2 0 then false else true) gasComposition)
  = cylinderMolesToPressure V n T gasComposition.
Proof.
  unfold cylinderMolesToPressure.
  apply (foldl_Rplus_filter _
           (fun '(g, i) => MolesToPressure V (n * i) T (VanDerWaalsConstants g))).
  - by intros a [g i].
  - intros [g i] E. cbn [snd] in E. destruct (Req_dec_T i 0) as [->|]; [|done].
    cbn [fmul Rarith]. rewrite Rmult_0_r. apply MolesToPressure_no_moles.
Qed.

(** Property X21.  The pressure [MolesToPressure] returns depends on the molar
    density only: it is the same for [k] times the volume and [k] times the
    moles. *)
Theorem MolesToPressure_intensive (k V n T : R) (vdwConstants : VanDerWaalsConstant R) :
  k <> 0 -> V <> 0 -> B vdwConstants * n <> V ->
  MolesToPressure (k * V) (k * n) T vdwConstants = MolesToPressure V n T vdwConstants.
Proof.
  destruct vdwConstants as [a b]. cbn [B]. intros Hk HV Hbn.
  rewrite !MolesToPressure_real. field. repeat split; try done.
  - intros E. apply Hbn. lra.
  - intros E. apply Hbn. apply (Rmult_eq_reg_l k); [|done]. lra.
Qed.

(** Property X22.  The moles [GasToMoles] returns are proportional to the
    volume, where the square root and the cube root of its closed form are
    taken of a non-negative and of a positive number. *)
Theorem GasToMoles_proportional_to_volume (a b V T P : R) :
  0 < a -> 0 < b -> 0 < V ->
  0 < subterm1R a b 1 T P
      + R_sqrt.sqrt (4 * subterm2R a b 1 T P ^ 3 + subterm1R a b 1 T P ^ 2) ->
  0 <= 4 * subterm2R a b 1 T P ^ 3 + subterm1R a b 1 T P ^ 2 ->
  GasToMoles V P {| A := a; B := b |} T = V * GasToMoles 1 P {| A := a; B := b |} T.
Proof. apply GasToMoles_homogeneous. Qed.

(** Property X23.  The loops of the latest revision over the map of the
    composition compute, in exact arithmetic and whatever the order in which
    they visit the map, the six-term sums of the revision before it, which
    held the composition in a struct. *)
Theorem composition_loops_refine_struct_sums (V P n T : R)
    (gasComposition : Intermediate.GasComposition R) (visited : GasComposition R) :
  visited ≡ₚ Intermediate.entries gasComposition ->
  gasCompositionToMoles V P T visited
  = Intermediate.gasCompositionToMoles V P T gasComposition /\
  cylinderMolesToPressure V n T visited
  = Intermediate.cylinderMolesToPressure V n T gasComposition.
Proof.
  intros Hp. split.
  - rewrite (gasCompositionToMoles_Permutation V P T _ _ Hp).
    unfold gasCompositionToMoles, Intermediate.gasCompositionToMoles, Intermediate.entries,
      PartialPressure.
    cbn [foldl fadd fmul Rarith]. rewrite lit_0_R.
    rewrite !(Rmult_comm P). lra.
  - rewrite (cylinderMolesToPressure_Permutation V n T _ _ Hp).
    unfold cylinderMolesToPressure, Intermediate.cylinderMolesToPressure,
      Intermediate.entries.
    cbn [foldl fadd fmul Rarith]. rewrite lit_0_R. lra.
Qed.

(** Property X24.  [initializeCylinders] in exact arithmetic: the cylinders of
    each side hold the configured pressure, and their volumes add up to the
    configured volume, whether or not the side is a twinset; so does, in
    ideal-gas mode, their gas. *)
Theorem initializeCylinders_totals (cfg : CylinderConfiguration R) gasComposition temperature :
  let '(sources, destinations) := initializeCylinders cfg in
  Forall (fun c => Pressure c = SourceCylinderPressure cfg) sources /\
  Forall (fun c => Pressure c = DestinationCylinderPressure cfg) destinations /\
  TotalVolume sources = SourceCylinderVolume cfg /\
  TotalVolume destinations = DestinationCylinderVolume cfg /\
  TotalGasVolume sources IdealGas gasComposition temperature
  = SourceCylinderVolume cfg * SourceCylinderPressure cfg /\
  TotalGasVolume destinations IdealGas gasComposition temperature
  = DestinationCylinderVolume cfg * DestinationCylinderPressure cfg.
Proof.
  destruct cfg as [dt dp dv st sp sv]. unfold initializeCylinders.
  cbn [SourceCylinderIsTwinset DestinationCylinderIsTwinset SourceCylinderPressure
       DestinationCylinderPressure SourceCylinderVolume DestinationCylinderVolume].
  destruct dt, st; (split; [repeat constructor|]); (split; [repeat constructor|]);
    unfold TotalVolume, TotalGasVolume, GasVolume;
    cbn [foldl CylinderVolume Pressure fadd fmul fdiv Rarith];
    rewrite ?lit_0_R; change (lit 2) with (lit (F := R) (inject_Z 2)); rewrite ?lit_Z_R;
    repeat split; field.
Qed.

End RealRevisions.

(** ** The order in which a loop visits the composition *)

Section CompositionOrderScenario.
Local Open Scope R_scope.

(** Property X25.  In exact arithmetic the three loops over the composition
    map return the same whatever the order in which they visit its entries:
    the moles of a cylinder, the pressure of a number of moles, and the weight
    of the gas of a cylinder. *)
Theorem composition_order_irrelevant (V P n T : R) (cylinder : Cylinder R)
    (gasComposition visited : GasComposition R) :
  visited ≡ₚ gasComposition ->
  gasCompositionToMoles V P T visited = gasCompositionToMoles V P T gasComposition /\
  cylinderMolesToPressure V n T visited = cylinderMolesToPressure V n T gasComposition /\
  GasWeight cylinder visited T = GasWeight cylinder gasComposition T.
Proof.
  intros Hp. split; [|split].
  - by apply gasCompositionToMoles_Permutation.
  - by apply cylinderMolesToPressure_Permutation.
  - by apply GasWeight_Permutation.
Qed.

(** Property X26.  In exact arithmetic the summary [equalizeAndReport] returns
    does not depend on the order in which the composition map is visited, in
    either mode. *)
Theorem equalizeAndReport_composition_order_irrelevant cfg gasSystem
    (gasComposition visited : GasComposition R) temperature
    verbose debug printSourceSummary :
  visited ≡ₚ gasComposition ->
  fst <$> equalizeAndReport cfg gasSystem visited temperature
            verbose debug printSourceSummary
  = fst <$> equalizeAndReport cfg gasSystem gasComposition temperature
              verbose debug printSourceSummary.
Proof.
  intros Hp. rewrite !equalizeAndReport_scenario.
  by apply scenarioInOrder_composition_order.
Qed.

End CompositionOrderScenario.

(** ** Concrete runs *)

Section Runs.
Local Open Scope R_scope.

Lemma Equalize_VanDerWaals_formula_witness :
  exists h' evs,
    Equalize [0%nat] VanDerWaals nitrogen roomTemperature false false nitrogenStore
    = Some (tt, h', evs) /\
    exists cs, derefAll nitrogenStore [0%nat] = Some cs /\
      forall p, p ∈ [0%nat] ->
        Pressure <$> h' !! p
        = Some (cylinderMolesToPressure (TotalVolume cs)
                  (TotalMoles cs roomTemperature nitrogen) roomTemperature nitrogen).
Proof.
  eexists _, _. split; [reflexivity|].
  exact (Equalize_VanDerWaals_formula [0%nat] nitrogen roomTemperature false false
           nitrogenStore _ _ eq_refl).
Defined.

Lemma Equalize_disjoint_groups_commute_witness :
  (fun r => r.1.2)
    <$> (Equalize [0%nat] VanDerWaals air roomTemperature false false;;
         Equalize [1%nat] VanDerWaals air roomTemperature false false) exampleStore
  = (fun r => r.1.2)
      <$> (Equalize [1%nat] VanDerWaals airOxygenFirst roomTemperature true true;;
           Equalize [0%nat] VanDerWaals airOxygenFirst roomTemperature true true)
            exampleStore.
Proof.
  apply (proj2 Equalize_disjoint_groups_commute [0%nat] [1%nat] VanDerWaals
           air airOxygenFirst roomTemperature false false true true exampleStore).
  - intros p Hp Hq. apply list_elem_of_singleton in Hp, Hq. lia.
  - unfold airOxygenFirst, air. apply perm_swap.
Defined.

Lemma Equalize_group_order_irrelevant_witness :
  (fun r => r.1.2) <$> Equalize [0; 1]%nat VanDerWaals nitrogen roomTemperature false false
                         exampleStore
  = (fun r => r.1.2) <$> Equalize [1; 0]%nat VanDerWaals nitrogen roomTemperature false false
                           exampleStore.
Proof.
  apply (Equalize_group_order_irrelevant [0; 1]%nat [1; 0]%nat VanDerWaals nitrogen
           roomTemperature false false exampleStore).
  apply perm_swap.
Defined.

Lemma Equalize_ideal_pressure_between_witness :
  exists h' evs,
    Equalize [0; 1]%nat IdealGas [] 293 false false exampleStore = Some (tt, h', evs) /\
    forall p, p ∈ [0; 1]%nat -> exists x, Pressure <$> h' !! p = Some x /\ 80 <= x <= 210.
Proof.
  eexists _, _. split; [reflexivity|].
  refine (Equalize_ideal_pressure_between [0; 1]%nat [] 293 false false exampleStore
            _ _ _ 80 210 eq_refl eq_refl _ _).
  - done.
  - repeat (apply List.Forall_cons; [cbn; lra|]). apply List.Forall_nil.
Defined.

Lemma equalizeAndReport_conserves_ideal_gas_witness :
  exists summary events,
    equalizeAndReport exampleConfiguration IdealGas [] 293 false false true
    = Some (summary, events) /\
    Summary_SourceCylinderGasVolume summary + Summary_DestinationCylinderGasVolume summary
    = 24 * 210 + 17 * 80.
Proof.
  apply (equalizeAndReport_conserves_ideal_gas exampleConfiguration [] 293 false false true);
    cbn; lra.
Defined.

Lemma equalizeAndReport_all_manifolds_open_witness :
  exists summary events,
    equalizeAndReport openConfiguration IdealGas [] 293 false false true
    = Some (summary, events) /\
    Summary_SourceCylinderPressure summary = (24 * 210 + 17 * 80) / (24 + 17) /\
    Summary_DestinationCylinderPressure summary = Summary_SourceCylinderPressure summary.
Proof.
  apply (equalizeAndReport_all_manifolds_open openConfiguration [] 293 false false true);
    (reflexivity || (cbn; lra)).
Defined.

Lemma equalizeAndReport_ideal_closed_form_witness :
  exists summary events,
    equalizeAndReport exampleConfiguration IdealGas [] 293 false false true
    = Some (summary, events) /\
    Summary_SourceCylinderPressure summary
    = 80 + sourceShare true true 24 17 * (210 - 80) /\
    Summary_DestinationCylinderPressure summary
    = 80 + destinationShare true true 24 17 * (210 - 80).
Proof.
  apply (equalizeAndReport_ideal_closed_form exampleConfiguration [] 293 false false true);
    cbn; lra.
Defined.

Lemma equalizeAndReport_ideal_pressures_ordered_witness :
  exists summary events,
    equalizeAndReport exampleConfiguration IdealGas [] 293 false false true
    = Some (summary, events) /\
    80 <= Summary_SourceCylinderPressure summary /\
    Summary_SourceCylinderPressure summary <= Summary_DestinationCylinderPressure summary /\
    Summary_DestinationCylinderPressure summary <= 210.
Proof.
  apply (equalizeAndReport_ideal_pressures_ordered exampleConfiguration [] 293
           false false true);
    cbn; lra.
Defined.

Lemma closed_manifolds_fill_no_less_witness :
  exists summary events summaryOpen eventsOpen,
    equalizeAndReport exampleConfiguration IdealGas [] 293 false false true
    = Some (summary, events) /\
    equalizeAndReport openConfiguration IdealGas [] 293 false false true
    = Some (summaryOpen, eventsOpen) /\
    Summary_DestinationCylinderPressure summaryOpen
    <= Summary_DestinationCylinderPressure summary.
Proof.
  apply (closed_manifolds_fill_no_less exampleConfiguration [] 293 false false true);
    cbn; lra.
Defined.

Lemma exampleFlags_valid : validFlags exampleFlags.
Proof. unfold validFlags, main_gasSum. cbn. lra. Qed.

Lemma singleCylinderFlags_valid : validFlags singleCylinderFlags.
Proof. unfold validFlags, main_gasSum. cbn. lra. Qed.


Lemma singleCylinderFlags_run :
  exists cylinderSummaries events,
    main singleCylinderFlags = Returned cylinderSummaries events.
Proof.
  pose proof singleCylinderFlags_valid as Hv. apply main_checks_valid in Hv.
  destruct (main_passes singleCylinderFlags Hv) as (results & events & _ & E). eauto.
Qed.


Lemma main_scenario_descriptions_witness :
  exists cylinderSummaries events,
    main singleCylinderFlags = Returned cylinderSummaries events /\
    map Summary_Description cylinderSummaries
    = ["all manifolds open"; EmptyString; EmptyString; EmptyString]%string.
Proof.
  destruct singleCylinderFlags_run as (cylinderSummaries & events & E).
  exists cylinderSummaries, events. split; [exact E|].
  exact (main_scenario_descriptions singleCylinderFlags cylinderSummaries events E).
Defined.

Lemma worstDestinationPressure_is_least_witness :
  (exists s, s ∈ [summaryAt 175; summaryAt 156; summaryAt 165] /\
     worstDestinationPressure [summaryAt 175; summaryAt 156; summaryAt 165]
     = Summary_DestinationCylinderPressure s) /\
  Forall (fun s => worstDestinationPressure [summaryAt 175; summaryAt 156; summaryAt 165]
                   <= Summary_DestinationCylinderPressure s)
         [summaryAt 175; summaryAt 156; summaryAt 165].
Proof.
  apply (worstDestinationPressure_is_least [summaryAt 175; summaryAt 156; summaryAt 165]).
  - done.
  - repeat (apply List.Forall_cons; [cbn; lra|]). apply List.Forall_nil.
Defined.

Lemma worstDestinationPressure_zero_entries_witness :
  worstDestinationPressure ([summaryAt 156] ++ [summaryAt 0; summaryAt 0; summaryAt 0]) = 0.
Proof.
  apply (worstDestinationPressure_zero_entries [summaryAt 156]
           [summaryAt 0; summaryAt 0; summaryAt 0]).
  - repeat (apply List.Forall_cons; [cbn; lra|]). apply List.Forall_nil.
  - done.
  - repeat (apply List.Forall_cons; [reflexivity|]). apply List.Forall_nil.
Defined.

Lemma main_reference_pressure_zero_witness :
  exists cylinderSummaries events,
    main singleCylinderFlags = Returned cylinderSummaries events /\
    last cylinderSummaries = Some zeroSummary /\
    worstDestinationPressure cylinderSummaries = 0.
Proof.
  apply (main_reference_pressure_zero singleCylinderFlags).
  - apply singleCylinderFlags_valid.
  - reflexivity.
  - reflexivity.
Defined.

Lemma main_improvement_not_negative_witness :
  exists cylinderSummaries events,
    main exampleFlags = Returned cylinderSummaries events /\
    length cylinderSummaries = 4%nat /\
    (exists summaryOpen,
       last cylinderSummaries = Some summaryOpen /\
       Summary_Description summaryOpen = "all manifolds open"%string /\
       Summary_DestinationCylinderPressure summaryOpen
       = worstDestinationPressure cylinderSummaries) /\
    0 < worstDestinationPressure cylinderSummaries /\
    Forall (fun s => 0 <= improvement s (worstDestinationPressure cylinderSummaries))
           cylinderSummaries.
Proof.
  apply (main_improvement_not_negative exampleFlags).
  - apply exampleFlags_valid.
  - reflexivity.
  - reflexivity.
  - reflexivity.
Defined.

Lemma MolesToPressure_intensive_witness :
  MolesToPressure (2 * 12) (2 * 98) roomTemperature (VanDerWaalsConstants Nitrogen)
  = MolesToPressure 12 98 roomTemperature (VanDerWaalsConstants Nitrogen).
Proof.
  apply (MolesToPressure_intensive 2 12 98 roomTemperature (VanDerWaalsConstants Nitrogen)).
  - lra.
  - lra.
  - cbn. unfold Q2R. cbn. lra.
Defined.

Lemma GasToMoles_proportional_to_volume_witness :
  GasToMoles 12 0 {| A := 1.370; B := 0.0387 |} 293.15
  = 12 * GasToMoles 1 0 {| A := 1.370; B := 0.0387 |} 293.15.
Proof.
  apply (GasToMoles_proportional_to_volume 1.370 0.0387 12 293.15 0); try lra.
  - destruct (sqrt_between (4 * subterm2R 1.370 0.0387 1 293.15 0 ^ 3
                            + subterm1R 1.370 0.0387 1 293.15 0 ^ 2)
                12.1720828163 12.1720828164);
      unfold subterm1R, subterm2R in *; lra.
  - unfold subterm1R, subterm2R. lra.
Defined.

Lemma composition_loops_refine_struct_sums_witness :
  gasCompositionToMoles 12 200 roomTemperature (rev (Intermediate.entries airStruct))
  = Intermediate.gasCompositionToMoles 12 200 roomTemperature airStruct /\
  cylinderMolesToPressure 12 98 roomTemperature (rev (Intermediate.entries airStruct))
  = Intermediate.cylinderMolesToPressure 12 98 roomTemperature airStruct.
Proof.
  apply (composition_loops_refine_struct_sums 12 200 98 roomTemperature airStruct
           (rev (Intermediate.entries airStruct))).
  symmetry. apply Permutation_rev.
Defined.

Lemma composition_order_irrelevant_witness :
  gasCompositionToMoles 12 200 roomTemperature airOxygenFirst
  = gasCompositionToMoles 12 200 roomTemperature air /\
  cylinderMolesToPressure 12 98 roomTemperature airOxygenFirst
  = cylinderMolesToPressure 12 98 roomTemperature air /\
  GasWeight {| Description := "source"; CylinderVolume := 12; Pressure := 200 |}
    airOxygenFirst roomTemperature
  = GasWeight {| Description := "source"; CylinderVolume := 12; Pressure := 200 |}
      air roomTemperature.
Proof.
  apply (composition_order_irrelevant 12 200 98 roomTemperature
           {| Description := "source"; CylinderVolume := 12; Pressure := 200 |}
           air airOxygenFirst).
  apply perm_swap.
Defined.

Lemma equalizeAndReport_composition_order_irrelevant_witness :
  fst <$> equalizeAndReport exampleConfiguration VanDerWaals airOxygenFirst roomTemperature
            false false true
  = fst <$> equalizeAndReport exampleConfiguration VanDerWaals air roomTemperature
              false false true.
Proof.
  apply (equalizeAndReport_composition_order_irrelevant exampleConfiguration VanDerWaals
           air airOxygenFirst roomTemperature false false true).
  apply perm_swap.
Defined.

End Runs.
